(** * sysmonpy: the two system monitors, [clisysmtr.py] and [sysmon.py]

    A shallow embedding of the samplers, the console and log renderers and
    the loop drivers of the two scripts, over a small model of the Python
    values, exceptions and library calls they use, followed by the
    properties of the specification that concern them. *)

From Stdlib Require Import ZArith List String Ascii Bool Lia DecimalString.
Import ListNotations.

Local Open Scope string_scope.
Local Open Scope Z_scope.

(** ** Python floats

    A finite [float] is kept as sign, mantissa and binary exponent, its
    value being [(-1)^neg * m * 2^e]; arithmetic is done on the exact value
    and rounded to binary64 (round half to even, subnormals from [2^-1074],
    overflow to infinity above [(2^53-1) * 2^971]). *)

Module PyFloat.

Inductive pyfloat : Type :=
| FFin (neg : bool) (m : Z) (e : Z)
| FInf (neg : bool)
| FNaN.

Definition round_half_even (num den : Z) : Z :=
  let q := num / den in
  let r := num mod den in
  if 2 * r <? den then q
  else if den <? 2 * r then q + 1
  else if Z.even q then q else q + 1.

(** [num / den] multiplied by [2^(-e)], as a fraction. *)
Definition scale2 (num den e : Z) : Z * Z :=
  if 0 <=? e then (num, den * 2 ^ e) else (num * 2 ^ (- e), den).

(** [floor (log2 (num / den))] for [0 < num], [0 < den]. *)
Definition binade (num den : Z) : Z :=
  let l := Z.log2 num - Z.log2 den in
  let '(n, d) := scale2 num den l in
  if d <=? n then l else l - 1.

(** The binary64 nearest to [(-1)^neg * num / den], for [0 <= num], [0 < den]. *)
Definition round_double (neg : bool) (num den : Z) : pyfloat :=
  if num =? 0 then FFin neg 0 0
  else
    let e := Z.max (binade num den - 52) (-1074) in
    let '(n, d) := scale2 num den e in
    let q := round_half_even n d in
    let '(q, e) := if q =? 2 ^ 53 then (2 ^ 52, e + 1) else (q, e) in
    if 971 <? e then FInf neg else FFin neg q e.

(** The exact value of a finite magnitude [m * 2^e] as a fraction. *)
Definition frac_of (m e : Z) : Z * Z := scale2 m 1 (- e).

(** Equality of two positive fractions. *)
Definition frac_eqb (a b : Z * Z) : bool :=
  (fst a * snd b =? fst b * snd a).

(** [float(n)] for a Python int; [None] stands for [OverflowError]. *)
Definition of_Z (n : Z) : option pyfloat :=
  match round_double (n <? 0) (Z.abs n) 1 with
  | FInf _ => None
  | f => Some f
  end.

Definition is_zero (f : pyfloat) : bool :=
  match f with
  | FFin _ m _ => m =? 0
  | _ => false
  end.

(** [x / d] for a float [x] and the float of a positive int [d]. *)
Definition div_Z (x : pyfloat) (d : Z) : pyfloat :=
  match x with
  | FFin neg m e => let '(n, k) := frac_of m e in round_double neg n (k * d)
  | FInf neg => FInf neg
  | FNaN => FNaN
  end.

(** The signed exact value of a finite float over a common denominator. *)
Definition signed_frac (neg : bool) (m e : Z) : Z * Z :=
  let '(n, d) := frac_of m e in ((if neg then - n else n), d).

(** [x - y], IEEE 754 round to nearest. *)
Definition sub (x y : pyfloat) : pyfloat :=
  match x, y with
  | FNaN, _ | _, FNaN => FNaN
  | FInf a, FInf b => if Bool.eqb a b then FNaN else FInf a
  | FInf a, FFin _ _ _ => FInf a
  | FFin _ _ _, FInf b => FInf (negb b)
  | FFin na ma ea, FFin nb mb eb =>
      let '(xa, da) := signed_frac na ma ea in
      let '(xb, db) := signed_frac nb mb eb in
      let num := xa * db - xb * da in
      if num =? 0 then FFin (na && negb nb) 0 0
      else round_double (num <? 0) (Z.abs num) (da * db)
  end.

(** *** Decimal output *)

Definition string_of_Z (n : Z) : string := NilZero.string_of_int (Z.to_int n).

Fixpoint zeros (n : nat) : string :=
  match n with
  | O => ""
  | S k => String "0" (zeros k)
  end.

Definition sign_prefix (neg : bool) : string := if neg then "-" else "".

(** [format(x, ".2f")]: the exact value rounded half to even to two
    decimals, with the sign of the float (so [-0.001] gives ["-0.00"]). *)
Definition format_2f (x : pyfloat) : string :=
  match x with
  | FNaN => "nan"
  | FInf neg => sign_prefix neg ++ "inf"
  | FFin neg m e =>
      let '(n, d) := frac_of m e in
      let c := round_half_even (n * 100) d in
      let frac := c mod 100 in
      sign_prefix neg ++ string_of_Z (c / 100) ++ "."
        ++ (if frac <? 10 then "0" else "") ++ string_of_Z frac
  end.

(** [10^k <= num / den], for any integer [k]. *)
Definition pow10_le (k num den : Z) : bool :=
  if 0 <=? k then (10 ^ k * den <=? num) else (den <=? num * 10 ^ (- k)).

Fixpoint climb10 (fuel : nat) (k num den : Z) : Z :=
  match fuel with
  | O => k
  | S f => if pow10_le (k + 1) num den then climb10 f (k + 1) num den else k
  end.

(** [floor (log10 (num / den))], from the binary logarithm. *)
Definition floor_log10 (num den : Z) : Z :=
  climb10 6 (binade num den * 30103 / 100000 - 2) num den.

Fixpoint strip_zeros (fuel : nat) (n q : Z) : Z * Z :=
  match fuel with
  | O => (n, q)
  | S f => if (n mod 10 =? 0) && negb (n =? 0) then strip_zeros f (n / 10) (q + 1) else (n, q)
  end.

(** The candidates with [p] significant digits next to [num / den]: the
    digits [c] and the exponent [q] of [c * 10^q]. *)
Definition candidate_ok (m e c q : Z) : bool :=
  let '(cn, cd) := if 0 <=? q then (c * 10 ^ q, 1) else (c, 10 ^ (- q)) in
  match round_double false cn cd with
  | FFin _ m' e' => frac_eqb (frac_of m' e') (frac_of m e)
  | _ => false
  end.

Definition shortest_at (m e p : Z) : option (Z * Z) :=
  let '(num, den) := frac_of m e in
  let q := floor_log10 num den - (p - 1) in
  let '(sn, sd) := if 0 <=? q then (num, den * 10 ^ q) else (num * 10 ^ (- q), den) in
  let lo := sn / sd in
  let r := sn mod sd in
  let lo_ok := candidate_ok m e lo q in
  let hi_ok := candidate_ok m e (lo + 1) q in
  let lo_first := (2 * r <? sd) || ((2 * r =? sd) && Z.even lo) in
  match lo_ok, hi_ok with
  | true, true => Some ((if lo_first then lo else lo + 1), q)
  | true, false => Some (lo, q)
  | false, true => Some (lo + 1, q)
  | false, false => None
  end.

Fixpoint shortest_from (fuel : nat) (m e p : Z) : Z * Z :=
  match fuel with
  | O => (m, e)
  | S f =>
      match shortest_at m e p with
      | Some r => r
      | None => shortest_from f m e (p + 1)
      end
  end.

(** The shortest decimal digits that read back as the same binary64 (what
    [repr] prints), and the position of the decimal point. *)
Definition shortest_digits (m e : Z) : string * Z :=
  let '(c, q) := shortest_from 17 m e 1 in
  let '(c, q) := strip_zeros 20 c q in
  let ds := string_of_Z c in
  (ds, Z.of_nat (String.length ds) + q).

Definition exponent_text (x : Z) : string :=
  (if x <? 0 then "-" else "+")
    ++ (if Z.abs x <? 10 then "0" else "") ++ string_of_Z (Z.abs x).

(** [repr(x)], which is also [str(x)] and what an f-string field without a
    format specification prints. *)
Definition repr (x : pyfloat) : string :=
  match x with
  | FNaN => "nan"
  | FInf neg => sign_prefix neg ++ "inf"
  | FFin neg m e =>
      if m =? 0 then sign_prefix neg ++ "0.0"
      else
        let '(ds, decpt) := shortest_digits m e in
        let nd := Z.of_nat (String.length ds) in
        sign_prefix neg ++
        (if (decpt <=? -4) || (16 <? decpt) then
           substring 0 1 ds
             ++ (if 1 <? nd then "." ++ substring 1 (String.length ds - 1) ds else "")
             ++ "e" ++ exponent_text (decpt - 1)
         else if decpt <=? 0 then
           "0." ++ zeros (Z.to_nat (- decpt)) ++ ds
         else if nd <=? decpt then
           ds ++ zeros (Z.to_nat (decpt - nd)) ++ ".0"
         else
           substring 0 (Z.to_nat decpt) ds ++ "."
             ++ substring (Z.to_nat decpt) (String.length ds - Z.to_nat decpt) ds)
  end.

(** The binary64 nearest to the decimal [c * 10^q] (a float literal). *)
Definition of_decimal (c q : Z) : pyfloat :=
  if 0 <=? q then round_double (c <? 0) (Z.abs c * 10 ^ q) 1
  else round_double (c <? 0) (Z.abs c) (10 ^ (- q)).

End PyFloat.

Import PyFloat.

(** ** Python values, exceptions and results *)

Set Warnings "-register-all".

Inductive value : Type :=
| VNone
| VBool (b : bool)
| VInt (n : Z)
| VFloat (f : pyfloat)
| VStr (s : string)
| VTuple (items : list value)
| VObj (cls : string) (fields : list (string * value))
| VOpaque (name : string).

(** The exception classes the two scripts can meet.  [KeyboardInterrupt]
    and [SystemExit] derive from [BaseException] only; the others derive
    from [Exception].  [socket.error] is [OSError]. *)
Inductive exn_class : Type :=
| KeyboardInterrupt
| OSError
| AttributeError
| TypeError
| ValueError
| IndexError
| OverflowError
| OtherError.

Inductive exn : Type :=
| Exn (c : exn_class) (msg : string)
| SysExit (code : Z).

(** What [except Exception] catches. *)
Definition is_Exception (e : exn) : bool :=
  match e with
  | Exn KeyboardInterrupt _ => false
  | Exn _ _ => true
  | SysExit _ => false
  end.

(** What [except socket.error] catches. *)
Definition is_socket_error (e : exn) : bool :=
  match e with
  | Exn OSError _ => true
  | _ => false
  end.

(** What [except KeyboardInterrupt] catches. *)
Definition is_KeyboardInterrupt (e : exn) : bool :=
  match e with
  | Exn KeyboardInterrupt _ => true
  | _ => false
  end.

(** [str(e)], the text an f-string field [{e}] prints. *)
Definition exn_str (e : exn) : string :=
  match e with
  | Exn _ msg => msg
  | SysExit code => string_of_Z code
  end.

(** The result of a pure operation or of a library call. *)
Inductive result (A : Type) : Type :=
| Ok (a : A)
| Err (e : exn).

Arguments Ok {A} a.
Arguments Err {A} e.

Definition nl : string := String (ascii_of_nat 10) "".
Definition tab : string := String (ascii_of_nat 9) "".

Definition type_name (v : value) : string :=
  match v with
  | VNone => "NoneType"
  | VBool _ => "bool"
  | VInt _ => "int"
  | VFloat _ => "float"
  | VStr _ => "str"
  | VTuple _ => "tuple"
  | VObj cls _ => cls
  | VOpaque name => name
  end.

(** Truth value of an object, as [if x:] and [and] test it. *)
Definition truthy (v : value) : bool :=
  match v with
  | VNone => false
  | VBool b => b
  | VInt n => negb (n =? 0)
  | VFloat f => negb (is_zero f)
  | VStr s => negb (String.eqb s "")
  | VTuple items => match items with [] => false | _ => true end
  | VObj _ fields => match fields with [] => false | _ => true end
  | VOpaque _ => true
  end.

(** [x is not None]. *)
Definition is_not_None (v : value) : bool :=
  match v with
  | VNone => false
  | _ => true
  end.

Fixpoint lookup_field (name : string) (fields : list (string * value)) : option value :=
  match fields with
  | [] => None
  | (k, v) :: rest => if String.eqb k name then Some v else lookup_field name rest
  end.

(** [v.name] for a data attribute; the results of library calls are named
    tuples, kept as [VObj] with their fields in order. *)
Definition getattr (v : value) (name : string) : result value :=
  let missing :=
    Err (Exn AttributeError
           ("'" ++ type_name v ++ "' object has no attribute '" ++ name ++ "'")) in
  match v with
  | VObj _ fields =>
      match lookup_field name fields with
      | Some x => Ok x
      | None => missing
      end
  | _ => missing
  end.

(** [v[0]]. *)
Definition index0 (v : value) : result value :=
  match v with
  | VTuple (x :: _) => Ok x
  | VTuple [] => Err (Exn IndexError "tuple index out of range")
  | VObj _ ((_, x) :: _) => Ok x
  | VObj _ [] => Err (Exn IndexError "tuple index out of range")
  | VStr (String c _) => Ok (VStr (String c ""))
  | VStr EmptyString => Err (Exn IndexError "string index out of range")
  | _ => Err (Exn TypeError ("'" ++ type_name v ++ "' object is not subscriptable"))
  end.

Definition Z_of_bool (b : bool) : Z := if b then 1 else 0.

(** [v / d] for a positive int [d] (the scripts divide by [1024 ** 3]). *)
Definition truediv (v : value) (d : Z) : result value :=
  let int_div (n : Z) :=
    match round_double (n <? 0) (Z.abs n) d with
    | FInf _ => Err (Exn OverflowError "integer division result too large for a float")
    | f => Ok (VFloat f)
    end in
  match v with
  | VInt n => int_div n
  | VBool b => int_div (Z_of_bool b)
  | VFloat f => Ok (VFloat (div_Z f d))
  | _ => Err (Exn TypeError
                ("unsupported operand type(s) for /: '" ++ type_name v ++ "' and 'int'"))
  end.

Definition float_of_int (n : Z) : result pyfloat :=
  match of_Z n with
  | Some f => Ok f
  | None => Err (Exn OverflowError "int too large to convert to float")
  end.

(** [a - b]. *)
Definition py_sub (a b : value) : result value :=
  let bad :=
    Err (Exn TypeError
           ("unsupported operand type(s) for -: '" ++ type_name a ++ "' and '"
              ++ type_name b ++ "'")) in
  let as_int (v : value) : option Z :=
    match v with
    | VInt n => Some n
    | VBool b => Some (Z_of_bool b)
    | _ => None
    end in
  match as_int a, as_int b with
  | Some x, Some y => Ok (VInt (x - y))
  | Some x, None =>
      match b with
      | VFloat g =>
          match float_of_int x with
          | Ok f => Ok (VFloat (sub f g))
          | Err e => Err e
          end
      | _ => bad
      end
  | None, Some y =>
      match a with
      | VFloat f =>
          match float_of_int y with
          | Ok g => Ok (VFloat (sub f g))
          | Err e => Err e
          end
      | _ => bad
      end
  | None, None =>
      match a, b with
      | VFloat f, VFloat g => Ok (VFloat (sub f g))
      | _, _ => bad
      end
  end.

(** [format(v, ".2f")], the f-string field [{v:.2f}]. *)
Definition format_spec_2f (v : value) : result string :=
  let of_int (n : Z) :=
    match float_of_int n with
    | Ok f => Ok (format_2f f)
    | Err e => Err e
    end in
  match v with
  | VFloat f => Ok (format_2f f)
  | VInt n => of_int n
  | VBool b => of_int (Z_of_bool b)
  | VStr _ => Err (Exn ValueError "Unknown format code 'f' for object of type 'str'")
  | _ => Err (Exn TypeError
                ("unsupported format string passed to " ++ type_name v ++ ".__format__"))
  end.

(** ** The world outside the scripts

    Everything the scripts observe comes through library calls.  A [world]
    gives the names each imported module defines, the answer of the [k]-th
    call of every library function (a value or a raised exception) and the
    text [str] gives for library objects and tuples. *)

Record world : Type := mkWorld {
  module_attrs : string -> list string;
  extern : string -> nat -> list value -> result value;
  obj_str : value -> string
}.

(** What a run does, in order: library calls, and the text written to the
    two standard streams.  [print(s)] writes [s] and a newline to standard
    output; it is recorded as [EStdout s]. *)
Inductive event : Type :=
| ECall (api : string) (args : list value)
| EStdout (text : string)
| EStderr (text : string).

Definition trace : Type := list event.

Definition is_call (api : string) (ev : event) : bool :=
  match ev with
  | ECall a _ => String.eqb a api
  | _ => false
  end.

Definition count_calls (api : string) (t : trace) : nat :=
  List.length (filter (is_call api) t).

Fixpoint stdout_lines (t : trace) : list string :=
  match t with
  | [] => []
  | EStdout s :: rest => s :: stdout_lines rest
  | _ :: rest => stdout_lines rest
  end.

Fixpoint stderr_lines (t : trace) : list string :=
  match t with
  | [] => []
  | EStderr s :: rest => s :: stderr_lines rest
  | _ :: rest => stderr_lines rest
  end.

Fixpoint calls_of (t : trace) : list string :=
  match t with
  | [] => []
  | ECall a _ :: rest => a :: calls_of rest
  | _ :: rest => calls_of rest
  end.

(** ** Computations

    A computation takes the trace so far and gives an outcome and the
    extended trace.  [Running] is the outcome of a [while True] loop that
    has not left its body when the fuel ends. *)

Inductive outcome (A : Type) : Type :=
| Ret (a : A)
| Raise (e : exn)
| Running.

Arguments Ret {A} a.
Arguments Raise {A} e.
Arguments Running {A}.

Definition M (A : Type) : Type := trace -> outcome A * trace.

Definition ret {A} (a : A) : M A := fun t => (Ret a, t).

Definition raise {A} (e : exn) : M A := fun t => (Raise e, t).

Definition bind {A B} (m : M A) (k : A -> M B) : M B :=
  fun t =>
    match m t with
    | (Ret a, t') => k a t'
    | (Raise e, t') => (Raise e, t')
    | (Running, t') => (Running, t')
    end.

Notation "x <- m ;; k" := (bind m (fun x => k))
  (at level 61, m at next level, right associativity).
Notation "m ;;; k" := (bind m (fun _ => k))
  (at level 61, right associativity).

Definition lift {A} (r : result A) : M A :=
  match r with
  | Ok a => ret a
  | Err e => raise e
  end.

(** [try: body / except ...: handler]; the handler sees every exception
    and re-raises those its clauses do not name. *)
Definition try_except {A} (body : M A) (handler : exn -> M A) : M A :=
  fun t =>
    match body t with
    | (Raise e, t') => handler e t'
    | r => r
    end.

(** [except Exception as e: handler] as the only clause. *)
Definition except_Exception {A} (handler : exn -> M A) (e : exn) : M A :=
  if is_Exception e then handler e else raise e.

(** [try: body / finally: cleanup]. *)
Definition try_finally {A} (body : M A) (cleanup : M unit) : M A :=
  fun t =>
    match body t with
    | (Ret a, t') => (cleanup ;;; ret a) t'
    | (Raise e, t') => (cleanup ;;; raise e) t'
    | (Running, t') => (Running, t')
    end.

(** [while True: body], with fuel. *)
Fixpoint while_true (fuel : nat) (body : M unit) : M unit :=
  match fuel with
  | O => fun t => (Running, t)
  | S f => body ;;; while_true f body
  end.

(** [print(s)]; writing to standard output is taken to succeed. *)
Definition print (s : string) : M unit :=
  fun t => (Ret tt, t ++ [EStdout s])%list.

Section Scripts.

Variable w : world.

(** The [k]-th call of a library function, [k] being the number of calls
    of it made so far. *)
Definition call (api : string) (args : list value) : M value :=
  fun t =>
    let t' := (t ++ [ECall api args])%list in
    match extern w api (count_calls api t) args with
    | Ok v => (Ret v, t')
    | Err e => (Raise e, t')
    end.

Definition hasattr_module (modname attr : string) : bool :=
  existsb (String.eqb attr) (module_attrs w modname).

(** [modname.attr]: the attribute, or [AttributeError]. *)
Definition getattr_module (modname attr : string) : M value :=
  if hasattr_module modname attr then ret (VOpaque (modname ++ "." ++ attr))
  else raise (Exn AttributeError
                ("module '" ++ modname ++ "' has no attribute '" ++ attr ++ "'")).

(** [modname.attr(args)]. *)
Definition call_module (modname attr : string) (args : list value) : M value :=
  getattr_module modname attr ;;; call (modname ++ "." ++ attr) args.

(** [str(v)], the f-string field [{v}]. *)
Definition py_str (v : value) : string :=
  match v with
  | VNone => "None"
  | VBool true => "True"
  | VBool false => "False"
  | VInt n => string_of_Z n
  | VFloat f => repr f
  | VStr s => s
  | _ => obj_str w v
  end.

(** [time.sleep(secs)] for an int [secs]. *)
Definition time_sleep (secs : Z) : M unit :=
  getattr_module "time" "sleep" ;;;
  if secs <? 0 then raise (Exn ValueError "sleep length must be non-negative")
  else call "time.sleep" [VInt secs] ;;; ret tt.

(** [datetime.datetime.now().strftime(fmt)]. *)
Definition now_strftime (fmt : string) : M value :=
  getattr_module "datetime" "datetime" ;;;
  now <- call "datetime.datetime.now" [] ;;
  call "datetime.datetime.strftime" [now; VStr fmt].

(** [with open(path, "a") as f: f.write(text)]. *)
Definition append_file (path text : string) : M unit :=
  f <- call "open" [VStr path; VStr "a"] ;;
  try_finally (call "file.write" [f; VStr text] ;;; ret tt)
              (call "file.close" [f] ;;; ret tt).

(** [sys.exit(code)]. *)
Definition sys_exit {A} (code : Z) : M A :=
  getattr_module "sys" "exit" ;;; raise (SysExit code).

(** ** clisysmtr.py: the samplers *)

Definition get_local_ip : M value :=
  try_except
    (getattr_module "socket" "socket" ;;;
     family <- getattr_module "socket" "af_inet" ;;
     kind <- getattr_module "socket" "sock_dgram" ;;
     s <- call "socket.socket" [family; kind] ;;
     call "socket.socket.connect" [s; VTuple [VStr "8.8.8.8"; VInt 80]] ;;;
     sockname <- call "socket.socket.getsockname" [s] ;;
     ip_address <- lift (index0 sockname) ;;
     call "socket.socket.close" [s] ;;;
     ret ip_address)
    (fun e =>
       (* the clause [except socket.error] looks the name up first *)
       getattr_module "socket" "error" ;;;
       if is_socket_error e then
         print ("error getting local ip: " ++ exn_str e) ;;; ret VNone
       else if is_Exception e then
         print ("an unexpected error occurred: " ++ exn_str e) ;;; ret VNone
       else raise e).

Definition get_cpu_usage : M value :=
  try_except
    (call_module "psutil" "cpu_percent" [VInt 1])
    (except_Exception (fun e =>
       print ("error getting cpu usage: " ++ exn_str e) ;;; ret VNone)).

Definition get_cpu_clock : M value :=
  try_except
    (if hasattr_module "psutil" "cpu_freq" then
       freq <- call_module "psutil" "cpu_freq" [] ;;
       lift (getattr freq "current")
     else ret VNone)
    (except_Exception (fun e =>
       print ("error getting cpu clock speed: " ++ exn_str e) ;;; ret VNone)).

Definition get_cpu_name : M value :=
  try_except
    (info <- call_module "psutil" "cpu_info" [] ;;
     first <- lift (index0 info) ;;
     lift (getattr first "model"))
    (except_Exception (fun e =>
       print ("Error getting CPU name: " ++ exn_str e) ;;; ret VNone)).

Definition GB : Z := 1024 ^ 3.

(** Returns [(total, used, percent)]. *)
Definition get_ram_usage : M (value * value * value) :=
  try_except
    (mem <- call_module "psutil" "virtual_memory" [] ;;
     mem_total <- lift (getattr mem "total") ;;
     total <- lift (truediv mem_total GB) ;;
     mem_used <- lift (getattr mem "used") ;;
     used <- lift (truediv mem_used GB) ;;
     percent <- lift (getattr mem "percent") ;;
     ret (total, used, percent))
    (except_Exception (fun e =>
       print ("error getting ram usage: " ++ exn_str e) ;;;
       ret (VNone, VNone, VNone))).

(** Returns [(device, total, used, percent)]. *)
Definition get_disk_usage (path : string) : M (value * value * value * value) :=
  try_except
    (disk <- call_module "psutil" "disk_usage" [VStr path] ;;
     disk_total <- lift (getattr disk "total") ;;
     total <- lift (truediv disk_total GB) ;;
     disk_used <- lift (getattr disk "used") ;;
     used <- lift (truediv disk_used GB) ;;
     percent <- lift (getattr disk "percent") ;;
     device <- lift (getattr disk "device") ;;
     ret (device, total, used, percent))
    (except_Exception (fun e =>
       print ("error getting disk usage for " ++ path ++ ": " ++ exn_str e) ;;;
       ret (VNone, VNone, VNone, VNone))).

(** Returns [(bytes_sent_per_sec, bytes_recv_per_sec)]. *)
Definition get_network_activity : M (value * value) :=
  try_except
    (net_io_counters <- call_module "psutil" "net_io_counters" [] ;;
     bytes_sent <- lift (getattr net_io_counters "bytes_sent") ;;
     bytes_recv <- lift (getattr net_io_counters "bytes_recv") ;;
     time_sleep 1 ;;;
     net_io_counters_after <- call_module "psutil" "net_io_counters" [] ;;
     after_sent <- lift (getattr net_io_counters_after "bytes_sent") ;;
     bytes_sent_rate <- lift (py_sub after_sent bytes_sent) ;;
     after_recv <- lift (getattr net_io_counters_after "bytes_recv") ;;
     bytes_recv_rate <- lift (py_sub after_recv bytes_recv) ;;
     ret (bytes_sent_rate, bytes_recv_rate))
    (except_Exception (fun e =>
       print ("error getting network activity: " ++ exn_str e) ;;;
       ret (VNone, VNone))).

(** ** clisysmtr.py: the snapshot and its rendering *)

(** The values [display_system_info] holds after its seven sampler calls. *)
Record snapshot : Type := mkSnapshot {
  ip_address : value;
  cpu_usage : value;
  cpu_clock : value;
  cpu_name : value;
  ram_total : value;
  ram_used : value;
  ram_percent : value;
  disk_device : value;
  disk_total : value;
  disk_used : value;
  disk_percent : value;
  bytes_sent : value;
  bytes_recv : value
}.

(** Lines 141-147: each sampler once, in this order. *)
Definition take_snapshot : M snapshot :=
  ip <- get_local_ip ;;
  usage <- get_cpu_usage ;;
  clock <- get_cpu_clock ;;
  name <- get_cpu_name ;;
  ram <- get_ram_usage ;;
  disk <- get_disk_usage "/" ;;
  net <- get_network_activity ;;
  let '(rt, ru, rp) := ram in
  let '(dd, dt, du, dp) := disk in
  let '(bs, br) := net in
  ret (mkSnapshot ip usage clock name rt ru rp dd dt du dp bs br).

(** An f-string field with the format specification [.2f]. *)
Definition f2 (v : value) : M string := lift (format_spec_2f v).

(** Lines 149-182: the console lines, one statement per category. *)

Definition console_ip (s : snapshot) : M unit :=
  if truthy (ip_address s) then
    print ("local ip address: " ++ py_str (ip_address s))
  else print "failed to retrieve local ip address.".

Definition console_cpu_name (s : snapshot) : M unit :=
  if truthy (cpu_name s) then
    print ("cpu name: " ++ py_str (cpu_name s))
  else print "failed to retrieve cpu name.".

Definition console_cpu_usage (s : snapshot) : M unit :=
  if is_not_None (cpu_usage s) then
    print ("cpu usage: " ++ py_str (cpu_usage s) ++ "%")
  else print "failed to retrieve cpu usage.".

Definition console_cpu_clock (s : snapshot) : M unit :=
  if is_not_None (cpu_clock s) then
    clock <- f2 (cpu_clock s) ;;
    print ("cpu clock speed: " ++ clock ++ " mhz")
  else print "cpu clock speed: not supported or failed to retrieve.".

Definition console_ram (s : snapshot) : M unit :=
  if is_not_None (ram_total s) && is_not_None (ram_used s)
       && is_not_None (ram_percent s) then
    used <- f2 (ram_used s) ;;
    total <- f2 (ram_total s) ;;
    percent <- f2 (ram_percent s) ;;
    print ("ram: " ++ used ++ " gb / " ++ total ++ " gb (" ++ percent ++ "%)")
  else print "failed to retrieve ram usage.".

Definition console_disk (s : snapshot) : M unit :=
  if truthy (disk_device s) && truthy (disk_total s)
       && truthy (disk_used s) && truthy (disk_percent s) then
    used <- f2 (disk_used s) ;;
    total <- f2 (disk_total s) ;;
    percent <- f2 (disk_percent s) ;;
    print ("disk drive (" ++ py_str (disk_device s) ++ "): " ++ used ++ " gb / "
             ++ total ++ " gb (" ++ percent ++ "%)")
  else print "failed to retrieve disk usage.".

Definition console_network (s : snapshot) : M unit :=
  if is_not_None (bytes_sent s) && is_not_None (bytes_recv s) then
    print ("network activity: sent: " ++ py_str (bytes_sent s)
             ++ " bytes/s, received: " ++ py_str (bytes_recv s) ++ " bytes/s")
  else print "failed to retrieve network activity.".

Definition render_console (s : snapshot) : M unit :=
  console_ip s ;;;
  console_cpu_name s ;;;
  console_cpu_usage s ;;;
  console_cpu_clock s ;;;
  console_ram s ;;;
  console_disk s ;;;
  console_network s.

(** Lines 185-192: the log line; its fields are formatted left to right. *)
Definition log_line (s : snapshot) : M string :=
  timestamp <- now_strftime "%y%m%d-%h%m%s" ;;
  rt <- f2 (ram_total s) ;;
  ru <- f2 (ram_used s) ;;
  rp <- f2 (ram_percent s) ;;
  dt <- f2 (disk_total s) ;;
  du <- f2 (disk_used s) ;;
  dp <- f2 (disk_percent s) ;;
  ret (py_str timestamp ++ ", ip: " ++ py_str (ip_address s)
         ++ ", cpu_name: " ++ py_str (cpu_name s)
         ++ ", cpu_usage: " ++ py_str (cpu_usage s) ++ "%, "
         ++ "cpu_clock: " ++ py_str (cpu_clock s)
         ++ ", ram_total: " ++ rt ++ "gb, ram_used: " ++ ru ++ "gb, "
         ++ "ram_percent: " ++ rp ++ "%, disk_device: " ++ py_str (disk_device s) ++ ", "
         ++ "disk_total: " ++ dt ++ "gb, disk_used: " ++ du ++ "gb, "
         ++ "disk_percent: " ++ dp ++ "%, bytes_sent: " ++ py_str (bytes_sent s)
         ++ ", bytes_recv: " ++ py_str (bytes_recv s) ++ nl).

(** The parsed command line. *)
Record arguments : Type := mkArguments {
  interval : Z;
  log : option string;
  no_loop : bool
}.

(** [if args.log:]. *)
Definition log_target (args : arguments) : option string :=
  match log args with
  | Some path => if String.eqb path "" then None else Some path
  | None => None
  end.

(** Lines 184-197. *)
Definition render_log (args : arguments) (s : snapshot) : M unit :=
  match log_target args with
  | Some path =>
      log_entry <- log_line s ;;
      try_except
        (append_file path log_entry)
        (except_Exception (fun e =>
           print ("error writing to log file: " ++ exn_str e)))
  | None => ret tt
  end.

Definition display_system_info (args : arguments) : M unit :=
  s <- take_snapshot ;;
  render_console s ;;;
  render_log args s.

(** ** clisysmtr.py: the driver (from line 249, after [parse_args]) *)

(** The body of the [while True] loop, lines 257-260. *)
Definition main_loop_body (args : arguments) : M unit :=
  display_system_info args ;;;
  time_sleep (interval args) ;;;
  match log_target args with
  | Some path => print ("logged to " ++ path)
  | None => ret tt
  end.

Definition main (fuel : nat) (args : arguments) : M unit :=
  if no_loop args then display_system_info args
  else
    try_except
      (while_true fuel (main_loop_body args))
      (fun e =>
         if is_KeyboardInterrupt e then
           print (nl ++ "monitoring stopped by user.")
         else if is_Exception e then
           print ("an unexpected error occurred: " ++ exn_str e) ;;;
           sys_exit 1
         else raise e).

(** ** sysmon.py *)

Record system_usage : Type := mkUsage {
  u_cpu_usage : value;
  u_mem_usage : value;
  u_ram_total : value;
  u_ram_available : value;
  u_bytes_sent : value;
  u_bytes_recv : value;
  u_disk_total : value;
  u_disk_used : value;
  u_disk_free : value
}.

Definition no_usage : system_usage :=
  mkUsage VNone VNone VNone VNone VNone VNone VNone VNone VNone.

Definition get_system_usage : M system_usage :=
  try_except
    (cpu <- call_module "psutil" "cpu_percent" [VInt 1] ;;
     mem <- call_module "psutil" "virtual_memory" [] ;;
     mem_usage <- lift (getattr mem "percent") ;;
     mem_total <- lift (getattr mem "total") ;;
     total <- lift (truediv mem_total GB) ;;
     mem_available <- lift (getattr mem "available") ;;
     available <- lift (truediv mem_available GB) ;;
     net_io_counters <- call_module "psutil" "net_io_counters" [] ;;
     sent <- lift (getattr net_io_counters "bytes_sent") ;;
     recv <- lift (getattr net_io_counters "bytes_recv") ;;
     time_sleep 1 ;;;
     net_io_counters_after <- call_module "psutil" "net_io_counters" [] ;;
     after_sent <- lift (getattr net_io_counters_after "bytes_sent") ;;
     bytes_sent_rate <- lift (py_sub after_sent sent) ;;
     after_recv <- lift (getattr net_io_counters_after "bytes_recv") ;;
     bytes_recv_rate <- lift (py_sub after_recv recv) ;;
     disk <- call_module "psutil" "disk_usage" [VStr "/"] ;;
     d_total <- lift (getattr disk "total") ;;
     dtotal <- lift (truediv d_total GB) ;;
     d_used <- lift (getattr disk "used") ;;
     dused <- lift (truediv d_used GB) ;;
     d_free <- lift (getattr disk "free") ;;
     dfree <- lift (truediv d_free GB) ;;
     lift (getattr disk "percent") ;;;
     ret (mkUsage cpu mem_usage total available bytes_sent_rate bytes_recv_rate
            dtotal dused dfree))
    (except_Exception (fun e =>
       print ("Error getting system usage: " ++ exn_str e) ;;; ret no_usage)).

Definition rule : string :=
  "----------------------------------------------------------------------".

Definition log_system_usage (log_file : string) : M unit :=
  u <- get_system_usage ;;
  if is_not_None (u_cpu_usage u) then
    timestamp <- now_strftime "%Y-%m-%d %H:%M:%S" ;;
    rt <- f2 (u_ram_total u) ;;
    ra <- f2 (u_ram_available u) ;;
    dt <- f2 (u_disk_total u) ;;
    du <- f2 (u_disk_used u) ;;
    df <- f2 (u_disk_free u) ;;
    let log_entry :=
      rule ++ nl
        ++ py_str timestamp ++ nl
        ++ "hardware monitoring:" ++ nl
        ++ tab ++ tab ++ "--  CPU usage: " ++ py_str (u_cpu_usage u) ++ "%" ++ nl
        ++ "          --  mem usage: " ++ py_str (u_mem_usage u) ++ "%" ++ nl
        ++ "          --  total RAM: " ++ rt ++ " GB" ++ nl
        ++ "          --  available RAM: " ++ ra ++ " GB" ++ nl
        ++ "network activity" ++ nl
        ++ "          --  bytes sent/received: " ++ py_str (u_bytes_sent u) ++ "/"
        ++ py_str (u_bytes_recv u) ++ nl
        ++ "disc space" ++ nl
        ++ "          --  total space: " ++ dt ++ " GB" ++ nl
        ++ "          --  used/free space: " ++ du ++ "/" ++ df ++ "GB" ++ nl ++ nl in
    try_except
      (append_file log_file log_entry ;;;
       print ("system resource logged at:" ++ nl ++ log_entry))
      (except_Exception (fun e =>
         print ("can't write to log file: " ++ exn_str e)))
  else print "unable to retrieve system info. aborted.".

(** The body of the [while True] loop, lines 104-105. *)
Definition monitor_loop_body (interval : Z) (log_file : string) : M unit :=
  log_system_usage log_file ;;; time_sleep interval.

(** The text printed on entry, lines 97-101. *)
Definition banner (interval : Z) (log_file : string) : string :=
  nl ++ tab ++ "sysmon v001. " ++ nl
    ++ tab ++ "monitoring system performance every " ++ string_of_Z interval
    ++ " seconds. Logging to " ++ log_file ++ "..." ++ nl
    ++ tab ++ "might take approx. additional 1-2 seconds." ++ nl ++ tab.

Definition monitor_system (fuel : nat) (interval : Z) (log_file : string) : M unit :=
  print (banner interval log_file) ;;;
  try_except
    (while_true fuel (monitor_loop_body interval log_file))
    (fun e =>
       if is_KeyboardInterrupt e then
         print (nl ++ "Monitoring stopped by user.")
       else if is_Exception e then
         print ("An error occurred during monitoring: " ++ exn_str e)
       else raise e).

(** [if __name__ == "__main__"] of sysmon.py. *)
Definition sysmon_main (fuel : nat) : M unit :=
  monitor_system fuel 8 "sysmon_log.txt".

End Scripts.

(** ** The process

    A script that returns exits with status 0; [sys.exit(code)] exits with
    [code]; an exception that reaches the top level is written to standard
    error as a traceback and the interpreter exits with status 1 (130 for
    [KeyboardInterrupt], which ends the process through SIGINT). *)

Inductive status : Type :=
| Exited (code : Z)
| StillRunning.

Definition run_process (script : M unit) : status * trace :=
  match script [] with
  | (Ret _, t) => (Exited 0, t)
  | (Raise (SysExit code), t) => (Exited code, t)
  | (Raise (Exn KeyboardInterrupt msg), t) =>
      (Exited 130, t ++ [EStderr "KeyboardInterrupt"])%list
  | (Raise (Exn _ msg), t) =>
      (Exited 1, t ++ [EStderr ("Traceback (most recent call last): " ++ msg)])%list
  | (Running, t) => (StillRunning, t)
  end.

(** ** Worlds to run the scripts in *)

Fixpoint assoc {A} (key : string) (table : list (string * A)) : option A :=
  match table with
  | [] => None
  | (k, a) :: rest => if String.eqb k key then Some a else assoc key rest
  end.

(** Names the imported modules define (the ones that matter here, in the
    spelling Python gives them). *)
Definition python_modules (modname : string) : list string :=
  match assoc modname
          [("socket", ["socket"; "AF_INET"; "SOCK_DGRAM"; "SOCK_STREAM"; "error"]);
           ("psutil", ["cpu_percent"; "cpu_freq"; "cpu_count"; "cpu_times";
                       "virtual_memory"; "swap_memory"; "disk_usage";
                       "disk_partitions"; "net_io_counters"; "boot_time"]);
           ("time", ["sleep"; "time"]);
           ("datetime", ["datetime"; "date"; "timedelta"]);
           ("sys", ["exit"; "argv"; "stderr"])] with
  | Some names => names
  | None => []
  end.

Definition flt (c q : Z) : value := VFloat (of_decimal c q).

Definition svmem : value :=
  VObj "svmem" [("total", VInt (16 * GB)); ("available", VInt (8 * GB));
                ("percent", flt 500 (-1)); ("used", VInt (8 * GB));
                ("free", VInt (8 * GB))].

Definition sdiskusage : value :=
  VObj "sdiskusage" [("total", VInt (500 * GB)); ("used", VInt (125 * GB));
                     ("free", VInt (375 * GB)); ("percent", flt 250 (-1))].

(** Counters read 1000/2000 at the first reading of a snapshot and
    1500/2600 at the second. *)
Definition snetio (k : nat) : value :=
  if Nat.even k then VObj "snetio" [("bytes_sent", VInt 1000); ("bytes_recv", VInt 2000)]
  else VObj "snetio" [("bytes_sent", VInt 1500); ("bytes_recv", VInt 2600)].

Definition timestamp_for (args : list value) : value :=
  match args with
  | [_; VStr "%Y-%m-%d %H:%M:%S"] => VStr "2026-11-04 00:05:00"
  | _ => VStr "261104-Nov111793750400"
  end.

Definition healthy_calls : list (string * (nat -> list value -> result value)) :=
  [("socket.socket", fun _ _ => Ok (VOpaque "socket"));
   ("socket.socket.connect", fun _ _ => Ok VNone);
   ("socket.socket.getsockname", fun _ _ => Ok (VTuple [VStr "192.168.1.7"; VInt 54321]));
   ("socket.socket.close", fun _ _ => Ok VNone);
   ("psutil.cpu_percent", fun _ _ => Ok (flt 125 (-1)));
   ("psutil.cpu_freq", fun _ _ =>
      Ok (VObj "scpufreq" [("current", flt 2400 0); ("min", flt 800 0); ("max", flt 3600 0)]));
   ("psutil.virtual_memory", fun _ _ => Ok svmem);
   ("psutil.disk_usage", fun _ _ => Ok sdiskusage);
   ("psutil.net_io_counters", fun k _ => Ok (snetio k));
   ("time.sleep", fun _ _ => Ok VNone);
   ("datetime.datetime.now", fun _ _ => Ok (VOpaque "datetime"));
   ("datetime.datetime.strftime", fun _ args => Ok (timestamp_for args));
   ("open", fun _ _ => Ok (VOpaque "file"));
   ("file.write", fun _ _ => Ok VNone);
   ("file.close", fun _ _ => Ok VNone)].

Definition extern_of (calls : list (string * (nat -> list value -> result value)))
    (api : string) (k : nat) (args : list value) : result value :=
  match assoc api calls with
  | Some f => f k args
  | None => Err (Exn OtherError ("no answer for " ++ api))
  end.

Definition plain_str (v : value) : string := "<" ++ type_name v ++ ">".

(** A healthy machine with the modules as Python and psutil ship them. *)
Definition std_world : world :=
  mkWorld python_modules (extern_of healthy_calls) plain_str.

(** A machine of test doubles: every name the scripts look up exists, in
    the spelling the scripts use, and every result has every field read. *)
Definition mock_modules (modname : string) : list string :=
  (match assoc modname
           [("socket", ["af_inet"; "sock_dgram"]); ("psutil", ["cpu_info"])] with
   | Some names => names
   | None => []
   end ++ python_modules modname)%list.

Definition mock_calls : list (string * (nat -> list value -> result value)) :=
  [("psutil.cpu_info", fun _ _ =>
      Ok (VTuple [VObj "cpuinfo" [("model", VStr "Example CPU @ 2.40GHz")]]));
   ("psutil.disk_usage", fun _ _ =>
      Ok (VObj "sdiskusage" [("total", VInt (500 * GB)); ("used", VInt (125 * GB));
                             ("free", VInt (375 * GB)); ("percent", flt 250 (-1));
                             ("device", VStr "/dev/sda1")]))].

Definition mock_world : world :=
  mkWorld mock_modules (extern_of (mock_calls ++ healthy_calls)%list) plain_str.

(** [w] with the call number [k] of [api] raising [e]. *)
Definition with_failure_at (api : string) (k : nat) (e : exn) (w : world) : world :=
  mkWorld (module_attrs w)
    (fun a n args =>
       if String.eqb a api && Nat.eqb n k then Err e else extern w a n args)
    (obj_str w).

(** [w] with every call of [api] raising [e]. *)
Definition with_failure (api : string) (e : exn) (w : world) : world :=
  mkWorld (module_attrs w)
    (fun a n args => if String.eqb a api then Err e else extern w a n args)
    (obj_str w).

(** [w] with every call of [api] returning [v]. *)
Definition with_answer (api : string) (v : value) (w : world) : world :=
  mkWorld (module_attrs w)
    (fun a n args => if String.eqb a api then Ok v else extern w a n args)
    (obj_str w).

(** A machine on which the memory query is refused. *)
Definition no_ram_world : world :=
  with_failure "psutil.virtual_memory" (Exn OSError "[Errno 13] Permission denied")
    mock_world.

Definition one_shot : arguments := mkArguments 1 None true.
Definition one_shot_logging : arguments := mkArguments 1 (Some "out.log") true.
Definition looping_logging : arguments := mkArguments 1 (Some "out.log") false.
Definition looping : arguments := mkArguments 1 None false.

(** The snapshot of the specification's example: RAM total 16.00 GB, used
    8.00 GB, 50.0 percent. *)
Definition ram_example (ip usage clock name dd dt du dp bs br : value) : snapshot :=
  mkSnapshot ip usage clock name (flt 16 0) (flt 8 0) (flt 500 (-1)) dd dt du dp bs br.

(** ** The metric categories of clisysmtr.py *)

Inductive category : Type :=
| LocalIp
| CpuUsage
| CpuClock
| CpuName
| Ram
| Disk
| Network.

(** The fields of a snapshot that belong to a category. *)
Definition group (c : category) (s : snapshot) : list value :=
  match c with
  | LocalIp => [ip_address s]
  | CpuUsage => [cpu_usage s]
  | CpuClock => [cpu_clock s]
  | CpuName => [cpu_name s]
  | Ram => [ram_total s; ram_used s; ram_percent s]
  | Disk => [disk_device s; disk_total s; disk_used s; disk_percent s]
  | Network => [bytes_sent s; bytes_recv s]
  end.

(** The absence marker of a category: [None] for each of its fields. *)
Definition absent (c : category) : list value :=
  match c with
  | Ram => [VNone; VNone; VNone]
  | Disk => [VNone; VNone; VNone; VNone]
  | Network => [VNone; VNone]
  | _ => [VNone]
  end.

(** The sampler of a category, its result as the list of its fields. *)
Definition sample (w : world) (c : category) : M (list value) :=
  match c with
  | LocalIp => v <- get_local_ip w ;; ret [v]
  | CpuUsage => v <- get_cpu_usage w ;; ret [v]
  | CpuClock => v <- get_cpu_clock w ;; ret [v]
  | CpuName => v <- get_cpu_name w ;; ret [v]
  | Ram => r <- get_ram_usage w ;; let '(total, used, percent) := r in
           ret [total; used; percent]
  | Disk => r <- get_disk_usage w "/" ;; let '(device, total, used, percent) := r in
            ret [device; total; used; percent]
  | Network => r <- get_network_activity w ;; let '(sent, recv) := r in
               ret [sent; recv]
  end.

(** The library call with which the sampler of a category starts. *)
Definition acquisition (c : category) : string * list value :=
  match c with
  | LocalIp => ("socket.socket", [VOpaque "socket.af_inet"; VOpaque "socket.sock_dgram"])
  | CpuUsage => ("psutil.cpu_percent", [VInt 1])
  | CpuClock => ("psutil.cpu_freq", [])
  | CpuName => ("psutil.cpu_info", [])
  | Ram => ("psutil.virtual_memory", [])
  | Disk => ("psutil.disk_usage", [VStr "/"])
  | Network => ("psutil.net_io_counters", [])
  end.

(** The module attributes the sampler looks up on the way to that call
    and, for the local address, in its first [except] clause. *)
Definition lookups (c : category) : list (string * string) :=
  match c with
  | LocalIp => [("socket", "socket"); ("socket", "af_inet"); ("socket", "sock_dgram");
                ("socket", "error")]
  | CpuUsage => [("psutil", "cpu_percent")]
  | CpuClock => [("psutil", "cpu_freq")]
  | CpuName => [("psutil", "cpu_info")]
  | Ram => [("psutil", "virtual_memory")]
  | Disk => [("psutil", "disk_usage")]
  | Network => [("psutil", "net_io_counters")]
  end.

Definition resolves (w : world) (c : category) : bool :=
  forallb (fun ma => hasattr_module w (fst ma) (snd ma)) (lookups c).

(** The line the handler of a category prints for the exception [e]. *)
Definition failure_line (c : category) (e : exn) : string :=
  match c with
  | LocalIp =>
      if is_socket_error e then "error getting local ip: " ++ exn_str e
      else "an unexpected error occurred: " ++ exn_str e
  | CpuUsage => "error getting cpu usage: " ++ exn_str e
  | CpuClock => "error getting cpu clock speed: " ++ exn_str e
  | CpuName => "Error getting CPU name: " ++ exn_str e
  | Ram => "error getting ram usage: " ++ exn_str e
  | Disk => "error getting disk usage for /: " ++ exn_str e
  | Network => "error getting network activity: " ++ exn_str e
  end.

(** Every library function the sampler of a category may call. *)
Definition category_apis (c : category) : list string :=
  match c with
  | LocalIp => ["socket.socket"; "socket.socket.connect"; "socket.socket.getsockname";
                "socket.socket.close"]
  | CpuUsage => ["psutil.cpu_percent"]
  | CpuClock => ["psutil.cpu_freq"]
  | CpuName => ["psutil.cpu_info"]
  | Ram => ["psutil.virtual_memory"]
  | Disk => ["psutil.disk_usage"]
  | Network => ["psutil.net_io_counters"; "time.sleep"]
  end.

Definition category_eqb (a b : category) : bool :=
  match a, b with
  | LocalIp, LocalIp | CpuUsage, CpuUsage | CpuClock, CpuClock | CpuName, CpuName
  | Ram, Ram | Disk, Disk | Network, Network => true
  | _, _ => false
  end.

(** [w] with the acquisition of category [c] failing with [e] at every
    attempt. *)
Definition break_category (c : category) (e : exn) (w : world) : world :=
  with_failure (fst (acquisition c)) e w.

Definition refused : exn := Exn OSError "[Errno 13] Permission denied".

(** A machine on which the user presses Ctrl-C during the pause that
    follows the first iteration (the second sleep of the run; the first is
    the one-second window of the network sampler). *)
Definition interrupted (w : world) : world :=
  with_failure_at "time.sleep" 1 (Exn KeyboardInterrupt "") w.

Definition net_api : string := "psutil.net_io_counters".

(** Two readings with a one-second sleep between them. *)
Definition rate_window : trace :=
  [ECall net_api []; ECall "time.sleep" [VInt 1]; ECall net_api []].

(** ** Relating two runs

    [apis c] tells the library functions of category [c] from the others.
    Two traces are similar off a set of functions when they hold the same
    number of calls of every other function, so that the next call of any
    of those gets the same answer in both runs. *)

Definition apis (c : category) (api : string) : bool :=
  existsb (String.eqb api) (category_apis c).

Definition similar (A : string -> bool) (t1 t2 : trace) : Prop :=
  forall api, A api = false -> count_calls api t1 = count_calls api t2.

(** Two computations that, from similar traces, end the same way with
    similar traces. *)
Definition lockstep {X} (A : string -> bool) (m1 m2 : M X) : Prop :=
  forall t1 t2,
    similar A t1 t2 ->
    fst (m1 t1) = fst (m2 t2) /\ similar A (snd (m1 t1)) (snd (m2 t2)).

(** A computation that calls no library function outside [A]. *)
Definition touches_only {X} (A : string -> bool) (m : M X) : Prop :=
  forall t api, A api = false -> count_calls api (snd (m t)) = count_calls api t.

(** A computation without a loop in it: it returns or raises. *)
Definition terminates {X} (m : M X) : Prop :=
  forall t, fst (m t) <> Running.

(** Two worlds that differ at most in the answers of the functions in [A]. *)
Definition agree (A : string -> bool) (w1 w2 : world) : Prop :=
  module_attrs w1 = module_attrs w2 /\
  forall api k args, A api = false -> extern w1 api k args = extern w2 api k args.

(** The library functions [get_system_usage] of sysmon.py calls. *)
Definition sysmon_apis : list string :=
  ["psutil.cpu_percent"; "psutil.virtual_memory"; "psutil.net_io_counters";
   "time.sleep"; "psutil.disk_usage"].

(** A field that is absent or holds a float, as the samplers return the
    measured quantities. *)
Definition float_or_absent (v : value) : bool :=
  match v with
  | VNone | VFloat _ => true
  | _ => false
  end.

(** A snapshot whose measured quantities are all absent or floats. *)
Definition resolved (s : snapshot) : bool :=
  float_or_absent (cpu_clock s)
  && float_or_absent (ram_total s) && float_or_absent (ram_used s)
  && float_or_absent (ram_percent s)
  && float_or_absent (disk_total s) && float_or_absent (disk_used s)
  && float_or_absent (disk_percent s).

(** The categories whose sampler makes a single library query. *)
Definition single_query (c : category) : bool :=
  match c with
  | CpuUsage | CpuClock | CpuName | Ram | Disk => true
  | LocalIp | Network => false
  end.

(** A set of library functions that holds none: a computation that
    touches only this set makes no library call. *)
Definition no_api (api : string) : bool := false.

(** The arguments of the two first socket calls of [get_local_ip]. *)
Definition socket_args : list value :=
  [VOpaque "socket.af_inet"; VOpaque "socket.sock_dgram"].

Definition google_dns : value := VTuple [VStr "8.8.8.8"; VInt 80].

(** A machine of test doubles on which the connection is refused. *)
Definition unreachable_world : world :=
  with_failure "socket.socket.connect" (Exn OSError "[Errno 101] Network is unreachable")
    mock_world.

(** A machine whose psutil has [cpu_freq] but cannot tell the frequency:
    the call returns [None]. *)
Definition no_freq_world : world := with_answer "psutil.cpu_freq" VNone std_world.

(** A machine whose psutil has no [cpu_freq] at all. *)
Definition old_psutil_world : world :=
  mkWorld (fun m => filter (fun a => negb (String.eqb a "cpu_freq")) (python_modules m))
    (extern_of healthy_calls) plain_str.

(** Everything but [SystemExit]. *)
Definition not_exit (e : exn) : bool :=
  match e with
  | SysExit _ => false
  | Exn _ _ => true
  end.

(** A computation all of whose exceptions satisfy [P]. *)
Definition raises_only {X} (P : exn -> bool) (m : M X) : Prop :=
  forall t e t', m t = (Raise e, t') -> P e = true.

(** A world in which no library call ends the process. *)
Definition library_never_exits (w : world) : Prop :=
  forall api k args e, extern w api k args = Err e -> not_exit e = true.

(** A machine of test doubles on which the log file cannot be opened. *)
Definition read_only_world : world :=
  with_failure "open" (Exn OSError "[Errno 30] Read-only file system") mock_world.

Definition negative_interval : arguments := mkArguments (-1) None false.

(** Membership in [sysmon_apis]. *)
Definition in_sysmon_apis (api : string) : bool :=
  existsb (String.eqb api) sysmon_apis.

(** ** The console, category by category *)

(** The console statement of a category. *)
Definition console_statement (w : world) (c : category) (s : snapshot) : M unit :=
  match c with
  | LocalIp => console_ip w s
  | CpuName => console_cpu_name w s
  | CpuUsage => console_cpu_usage w s
  | CpuClock => console_cpu_clock s
  | Ram => console_ram s
  | Disk => console_disk w s
  | Network => console_network w s
  end.

(** The order in which [display_system_info] prints the categories. *)
Definition console_order : list category :=
  [LocalIp; CpuName; CpuUsage; CpuClock; Ram; Disk; Network].

Definition console_position (c : category) : nat :=
  match c with
  | LocalIp => 0
  | CpuName => 1
  | CpuUsage => 2
  | CpuClock => 3
  | Ram => 4
  | Disk => 5
  | Network => 6
  end.

(** The line the console prints for a category that is absent. *)
Definition failure_text (c : category) : string :=
  match c with
  | LocalIp => "failed to retrieve local ip address."
  | CpuName => "failed to retrieve cpu name."
  | CpuUsage => "failed to retrieve cpu usage."
  | CpuClock => "cpu clock speed: not supported or failed to retrieve."
  | Ram => "failed to retrieve ram usage."
  | Disk => "failed to retrieve disk usage."
  | Network => "failed to retrieve network activity."
  end.

(** What a statement prints when run on its own. *)
Definition printed_by (m : M unit) : string :=
  hd "" (stdout_lines (snd (m []))).

(** The console lines of a snapshot, statement by statement. *)
Definition console_lines (w : world) (s : snapshot) : list string :=
  map (fun c => printed_by (console_statement w c s)) console_order.

(** The six fields the log line formats with [.2f] are all present. *)
Definition sizes_present (s : snapshot) : bool :=
  is_not_None (ram_total s) && is_not_None (ram_used s) && is_not_None (ram_percent s)
  && is_not_None (disk_total s) && is_not_None (disk_used s)
  && is_not_None (disk_percent s).

(** The float [f] is exactly the fraction [num / den], with positive sign. *)
Definition float_is (f : pyfloat) (num den : Z) : Prop :=
  match f with
  | FFin false m e => fst (frac_of m e) * den = num * snd (frac_of m e)
  | _ => False
  end.

(** ** The console of a populated snapshot *)

(** Every field of the category is present ([is not None]). *)
Definition populated (c : category) (s : snapshot) : bool :=
  forallb is_not_None (group c s).

(** The categories whose console statement tests the truth value of the
    fields ([if ip_address:], [if cpu_name:], [if disk_device and ...:])
    where the others test [is not None]. *)
Definition tested_by_truth (c : category) : bool :=
  match c with
  | LocalIp | CpuName | Disk => true
  | CpuUsage | CpuClock | Ram | Network => false
  end.

(** Some field of the category is false as a truth value: [None], but
    also [0.0] and the empty string. *)
Definition has_false_field (c : category) (s : snapshot) : bool :=
  existsb (fun v => negb (truthy v)) (group c s).

(** How the value line of a category begins. *)
Definition value_label (c : category) : string :=
  match c with
  | LocalIp => "local ip address: "
  | CpuName => "cpu name: "
  | CpuUsage => "cpu usage: "
  | CpuClock => "cpu clock speed: "
  | Ram => "ram: "
  | Disk => "disk drive ("
  | Network => "network activity: sent: "
  end.

(** The line is the failure line of some category. *)
Definition is_failure_line (l : string) : bool :=
  existsb (String.eqb l) (map failure_text console_order).

Fixpoint last_char (s : string) : ascii :=
  match s with
  | EmptyString => Ascii.zero
  | String c rest =>
      match rest with
      | EmptyString => c
      | String _ _ => last_char rest
      end
  end.

(** A snapshot with every group present, taken on a disk that holds
    nothing yet: used and percent are 0.0. *)
Definition fresh_disk_snapshot : snapshot :=
  mkSnapshot (VStr "192.168.1.7") (flt 125 (-1)) (flt 2400 0)
    (VStr "Example CPU @ 2.40GHz") (flt 16 0) (flt 8 0) (flt 500 (-1))
    (VStr "/dev/sda1") (flt 500 0) (flt 0 0) (flt 0 0) (VInt 500) (VInt 600).

(** The same machine with a quarter of the disk in use. *)
Definition used_disk_snapshot : snapshot :=
  mkSnapshot (VStr "192.168.1.7") (flt 125 (-1)) (flt 2400 0)
    (VStr "Example CPU @ 2.40GHz") (flt 16 0) (flt 8 0) (flt 500 (-1))
    (VStr "/dev/sda1") (flt 500 0) (flt 125 0) (flt 250 (-1)) (VInt 500) (VInt 600).

(** ** Traces *)

Lemma count_calls_app (api : string) (t1 t2 : trace) :
  count_calls api (t1 ++ t2)%list = (count_calls api t1 + count_calls api t2)%nat.
Proof.
  unfold count_calls. rewrite filter_app, length_app. reflexivity.
Qed.

Lemma stdout_lines_app (t1 t2 : trace) :
  stdout_lines (t1 ++ t2)%list = (stdout_lines t1 ++ stdout_lines t2)%list.
Proof.
  induction t1 as [|ev t1 IH]; simpl; [reflexivity|].
  destruct ev; simpl; rewrite IH; reflexivity.
Qed.

Lemma stderr_lines_app (t1 t2 : trace) :
  stderr_lines (t1 ++ t2)%list = (stderr_lines t1 ++ stderr_lines t2)%list.
Proof.
  induction t1 as [|ev t1 IH]; simpl; [reflexivity|].
  destruct ev; simpl; rewrite IH; reflexivity.
Qed.

Lemma print_spec (s : string) (t : trace) :
  print s t = (Ret tt, (t ++ [EStdout s])%list).
Proof. reflexivity. Qed.

(** ** Running a computation step by step *)

Lemma getattr_module_missing (w : world) (modname attr : string) (t : trace) :
  hasattr_module w modname attr = false ->
  getattr_module w modname attr t =
    (Raise (Exn AttributeError
              ("module '" ++ modname ++ "' has no attribute '" ++ attr ++ "'")), t).
Proof.
  intros H. unfold getattr_module. rewrite H. reflexivity.
Qed.

Lemma getattr_module_present (w : world) (modname attr : string) (t : trace) :
  hasattr_module w modname attr = true ->
  getattr_module w modname attr t = (Ret (VOpaque (modname ++ "." ++ attr)), t).
Proof.
  intros H. unfold getattr_module. rewrite H. reflexivity.
Qed.

Lemma call_ok (w : world) (api : string) (args : list value) (t : trace) (v : value) :
  extern w api (count_calls api t) args = Ok v ->
  call w api args t = (Ret v, (t ++ [ECall api args])%list).
Proof. intros H. unfold call. rewrite H. reflexivity. Qed.

Lemma call_err (w : world) (api : string) (args : list value) (t : trace) (e : exn) :
  extern w api (count_calls api t) args = Err e ->
  call w api args t = (Raise e, (t ++ [ECall api args])%list).
Proof. intros H. unfold call. rewrite H. reflexivity. Qed.

Lemma call_module_ok (w : world) (modname attr : string) (args : list value)
    (t : trace) (v : value) :
  hasattr_module w modname attr = true ->
  extern w (modname ++ "." ++ attr) (count_calls (modname ++ "." ++ attr) t) args = Ok v ->
  call_module w modname attr args t =
    (Ret v, (t ++ [ECall (modname ++ "." ++ attr) args])%list).
Proof.
  intros Ha Hc. unfold call_module, bind.
  rewrite (getattr_module_present w modname attr t Ha).
  apply call_ok. exact Hc.
Qed.

Lemma call_module_err (w : world) (modname attr : string) (args : list value)
    (t : trace) (e : exn) :
  hasattr_module w modname attr = true ->
  extern w (modname ++ "." ++ attr) (count_calls (modname ++ "." ++ attr) t) args = Err e ->
  call_module w modname attr args t =
    (Raise e, (t ++ [ECall (modname ++ "." ++ attr) args])%list).
Proof.
  intros Ha Hc. unfold call_module, bind.
  rewrite (getattr_module_present w modname attr t Ha).
  apply call_err. exact Hc.
Qed.

Lemma time_sleep_ok (w : world) (secs : Z) (t : trace) (v : value) :
  hasattr_module w "time" "sleep" = true ->
  0 <= secs ->
  extern w "time.sleep" (count_calls "time.sleep" t) [VInt secs] = Ok v ->
  time_sleep w secs t = (Ret tt, (t ++ [ECall "time.sleep" [VInt secs]])%list).
Proof.
  intros Ha Hs Hc. unfold time_sleep, bind.
  rewrite (getattr_module_present w "time" "sleep" t Ha).
  destruct (Z.ltb_spec secs 0) as [Hneg|_]; [lia|].
  rewrite (call_ok w "time.sleep" [VInt secs] t v Hc). reflexivity.
Qed.

Lemma bind_Ret_inv {A B} (m : M A) (k : A -> M B) (t t' : trace) (b : B) :
  bind m k t = (Ret b, t') ->
  exists a t1, m t = (Ret a, t1) /\ k a t1 = (Ret b, t').
Proof.
  unfold bind. destruct (m t) as [[a|e|] t1]; try discriminate.
  intros H. exists a, t1. split; [reflexivity|exact H].
Qed.

Lemma lift_Ret_inv {A} (r : result A) (t t' : trace) (a : A) :
  lift r t = (Ret a, t') -> r = Ok a /\ t' = t.
Proof.
  destruct r as [x|e]; simpl; unfold ret, raise; intros H; inversion H; auto.
Qed.

Lemma call_Ret_inv (w : world) (api : string) (args : list value)
    (t t' : trace) (v : value) :
  call w api args t = (Ret v, t') ->
  extern w api (count_calls api t) args = Ok v /\ t' = (t ++ [ECall api args])%list.
Proof.
  unfold call. destruct (extern w api (count_calls api t) args) as [x|e];
    intros H; inversion H; auto.
Qed.

Lemma call_module_Ret_inv (w : world) (modname attr : string) (args : list value)
    (t t' : trace) (v : value) :
  call_module w modname attr args t = (Ret v, t') ->
  extern w (modname ++ "." ++ attr) (count_calls (modname ++ "." ++ attr) t) args = Ok v
  /\ t' = (t ++ [ECall (modname ++ "." ++ attr) args])%list.
Proof.
  unfold call_module, getattr_module. intros H.
  apply bind_Ret_inv in H. destruct H as (a & t1 & Hg & Hc).
  destruct (hasattr_module w modname attr); unfold ret, raise in Hg; inversion Hg; subst.
  apply call_Ret_inv. exact Hc.
Qed.

Lemma time_sleep_Ret_inv (w : world) (secs : Z) (t t' : trace) (u : unit) :
  time_sleep w secs t = (Ret u, t') ->
  t' = (t ++ [ECall "time.sleep" [VInt secs]])%list.
Proof.
  unfold time_sleep, getattr_module. intros H.
  apply bind_Ret_inv in H. destruct H as (a & t1 & Hg & Hc).
  destruct (hasattr_module w "time" "sleep"); unfold ret, raise in Hg; inversion Hg; subst.
  destruct (secs <? 0); [discriminate Hc|].
  apply bind_Ret_inv in Hc. destruct Hc as (v & t2 & Hcall & Hret).
  apply call_Ret_inv in Hcall. destruct Hcall as [_ ->].
  unfold ret in Hret. inversion Hret. reflexivity.
Qed.

Lemma count_calls_snoc_same (api : string) (args : list value) (t : trace) :
  count_calls api (t ++ [ECall api args])%list = S (count_calls api t).
Proof.
  rewrite count_calls_app. unfold count_calls at 2. simpl.
  rewrite String.eqb_refl. simpl. lia.
Qed.

Lemma count_calls_snoc_other (api other : string) (args : list value) (t : trace) :
  String.eqb other api = false ->
  count_calls api (t ++ [ECall other args])%list = count_calls api t.
Proof.
  intros H. rewrite count_calls_app. unfold count_calls at 2. simpl.
  rewrite H. simpl. lia.
Qed.

(** ** The CPU name *)

Lemma get_cpu_name_missing (w : world) (t : trace) :
  hasattr_module w "psutil" "cpu_info" = false ->
  get_cpu_name w t =
    (Ret VNone,
     (t ++ [EStdout "Error getting CPU name: module 'psutil' has no attribute 'cpu_info'"])%list).
Proof.
  intros H.
  unfold get_cpu_name, try_except, call_module, bind.
  rewrite (getattr_module_missing w "psutil" "cpu_info" t H).
  reflexivity.
Qed.

(** The name a snapshot holds is what [get_cpu_name] returned. *)
Lemma take_snapshot_cpu_name (w : world) (t1 t2 : trace) (s : snapshot) :
  take_snapshot w t1 = (Ret s, t2) ->
  exists ta tb, get_cpu_name w ta = (Ret (cpu_name s), tb).
Proof.
  unfold take_snapshot, bind.
  destruct (get_local_ip w t1) as [[ip|e|] ta]; try discriminate.
  destruct (get_cpu_usage w ta) as [[usage|e|] tb]; try discriminate.
  destruct (get_cpu_clock w tb) as [[clock|e|] tc]; try discriminate.
  destruct (get_cpu_name w tc) as [[name|e|] td] eqn:Hname; try discriminate.
  destruct (get_ram_usage w td) as [[[[rt ru] rp]|e|] te]; try discriminate.
  destruct (get_disk_usage w "/" te) as [[[[[dd dt] du] dp]|e|] tf]; try discriminate.
  destruct (get_network_activity w tf) as [[[bs br]|e|] tg]; try discriminate.
  unfold ret. intros H. injection H as <- _.
  exists tc, td. exact Hname.
Qed.



(** ** The local address *)

Lemma get_local_ip_misspelt (w : world) (t : trace) :
  hasattr_module w "socket" "socket" = true ->
  hasattr_module w "socket" "af_inet" = false ->
  hasattr_module w "socket" "error" = true ->
  get_local_ip w t =
    (Ret VNone,
     (t ++ [EStdout "an unexpected error occurred: module 'socket' has no attribute 'af_inet'"])%list).
Proof.
  intros Hs Ha He.
  unfold get_local_ip, try_except, bind.
  rewrite (getattr_module_present w "socket" "socket" t Hs).
  rewrite (getattr_module_missing w "socket" "af_inet" t Ha).
  rewrite (getattr_module_present w "socket" "error" t He).
  reflexivity.
Qed.

(** C7. On a machine whose network answers (the socket calls would give
    192.168.1.7), [get_local_ip] returns [None] without opening any
    connection: the lookup of [socket.af_inet] raises [AttributeError],
    which the catch-all clause absorbs. *)
Theorem get_local_ip_absent_without_network_error :
  extern std_world "socket.socket.connect" 0
    [VOpaque "socket"; VTuple [VStr "8.8.8.8"; VInt 80]] = Ok VNone /\
  extern std_world "socket.socket.getsockname" 0 [VOpaque "socket"] =
    Ok (VTuple [VStr "192.168.1.7"; VInt 54321]) /\
  get_local_ip std_world [] =
    (Ret VNone,
     [EStdout "an unexpected error occurred: module 'socket' has no attribute 'af_inet'"]).
Proof.
  split; [reflexivity|]. split; [reflexivity|].
  apply (get_local_ip_misspelt std_world []); reflexivity.
Qed.

(** ** The console lines *)

Lemma f2_float (f : pyfloat) (t : trace) :
  f2 (VFloat f) t = (Ret (format_2f f), t).
Proof. reflexivity. Qed.

(** The RAM statement of the console for a reading of three floats. *)
Lemma console_ram_floats (s : snapshot) (total used percent : pyfloat) (t : trace) :
  ram_total s = VFloat total ->
  ram_used s = VFloat used ->
  ram_percent s = VFloat percent ->
  console_ram s t =
    (Ret tt,
     (t ++ [EStdout ("ram: " ++ format_2f used ++ " gb / " ++ format_2f total
                       ++ " gb (" ++ format_2f percent ++ "%)")])%list).
Proof.
  intros Ht Hu Hp. unfold console_ram, bind.
  rewrite Ht, Hu, Hp. simpl andb. cbv iota.
  reflexivity.
Qed.

(** C4, as the code has it.  For a RAM reading of total 16.00, used 8.00
    and 50.0 percent the console statement for RAM prints exactly
    [ram: 8.00 gb / 16.00 gb (50.00%)], in lower case, whatever the other
    fields hold. *)
Theorem console_ram_example
    (ip usage clock name dd dt du dp bs br : value) (t : trace) :
  console_ram (ram_example ip usage clock name dd dt du dp bs br) t =
    (Ret tt, (t ++ [EStdout "ram: 8.00 gb / 16.00 gb (50.00%)"])%list).
Proof.
  rewrite (console_ram_floats (ram_example ip usage clock name dd dt du dp bs br)
             (of_decimal 16 0) (of_decimal 8 0) (of_decimal 500 (-1)) t
             eq_refl eq_refl eq_refl).
  assert (H16 : format_2f (of_decimal 16 0) = "16.00") by (vm_compute; reflexivity).
  assert (H8 : format_2f (of_decimal 8 0) = "8.00") by (vm_compute; reflexivity).
  assert (H50 : format_2f (of_decimal 500 (-1)) = "50.00") by (vm_compute; reflexivity).
  rewrite H16, H8, H50. reflexivity.
Qed.

(** C4, as stated, fails: the line with capitals is not printed. *)
Lemma console_ram_not_capitalised :
  let s := ram_example (VStr "192.168.1.7") (flt 125 (-1)) (flt 2400 0)
             (VStr "Example CPU") (VStr "/dev/sda1") (flt 500 0) (flt 125 0)
             (flt 250 (-1)) (VInt 500) (VInt 600) in
  fst (render_console mock_world s []) = Ret tt /\
  ~ In "RAM: 8.00 GB / 16.00 GB (50.00%)"
       (stdout_lines (snd (render_console mock_world s []))).
Proof.
  split; [vm_compute; reflexivity|].
  vm_compute. intros H.
  repeat (destruct H as [H|H]; [discriminate H|]). exact H.
Qed.

(** ** The log line *)

(** What formatting an absent value with [.2f] raises. *)
Lemma f2_None (t : trace) :
  f2 VNone t =
    (Raise (Exn TypeError "unsupported format string passed to NoneType.__format__"), t).
Proof. reflexivity. Qed.

(** Whenever the timestamp is obtained, the log line of a snapshot whose
    RAM group is absent is never built: its first [.2f] field raises, before
    the [try] that guards the file. *)
Lemma log_line_absent_ram (w : world) (s : snapshot) (t t' : trace) (stamp : value) :
  ram_total s = VNone ->
  now_strftime w "%y%m%d-%h%m%s" t = (Ret stamp, t') ->
  log_line w s t =
    (Raise (Exn TypeError "unsupported format string passed to NoneType.__format__"), t').
Proof.
  intros Hram Hnow. unfold log_line, bind at 1. rewrite Hnow.
  unfold bind. rewrite Hram, f2_None. reflexivity.
Qed.

(** What the code does keep: once the log line is
    built, a failure to open the file is caught, reported with [print] and
    the call returns normally, so the loop goes on. *)
Lemma append_failure_is_reported (w : world) (args : arguments) (s : snapshot)
    (t t1 : trace) (path entry : string) (e : exn) :
  log_target args = Some path ->
  log_line w s t = (Ret entry, t1) ->
  extern w "open" (count_calls "open" t1) [VStr path; VStr "a"] = Err e ->
  is_Exception e = true ->
  render_log w args s t =
    (Ret tt,
     (t1 ++ [ECall "open" [VStr path; VStr "a"];
             EStdout ("error writing to log file: " ++ exn_str e)])%list).
Proof.
  intros Hp Hl Ho He. unfold render_log. rewrite Hp.
  unfold bind at 1. rewrite Hl.
  unfold try_except, append_file, bind.
  rewrite (call_err w "open" _ t1 e Ho).
  unfold except_Exception. rewrite He.
  unfold print. rewrite <- app_assoc. reflexivity.
Qed.

(** C2.  Continuous mode, logging to out.log, on a machine whose memory
    query is refused (every other category is sampled): the console lines
    are printed, then building the log line raises [TypeError] on the absent
    RAM total, outside the [try] around the file append.  No file is opened,
    the loop is left after its first iteration and the process exits with
    status 1. *)
Theorem log_rendering_raises_on_absent_group :
  let r := run_process (main no_ram_world 3 looping_logging) in
  fst r = Exited 1 /\
  stdout_lines (snd r) =
    ["error getting ram usage: [Errno 13] Permission denied";
     "local ip address: 192.168.1.7";
     "cpu name: Example CPU @ 2.40GHz";
     "cpu usage: 12.5%";
     "cpu clock speed: 2400.00 mhz";
     "failed to retrieve ram usage.";
     "disk drive (/dev/sda1): 125.00 gb / 500.00 gb (25.00%)";
     "network activity: sent: 500 bytes/s, received: 600 bytes/s";
     "an unexpected error occurred: unsupported format string passed to NoneType.__format__"] /\
  count_calls "open" (snd r) = 0%nat /\
  count_calls "psutil.cpu_percent" (snd r) = 1%nat.
Proof. vm_compute. repeat split; reflexivity. Qed.

(** ** One-shot mode *)

(** C9.  [--no-loop --log out.log] on a healthy machine with the modules as
    they ship: the samplers run once and the console lines are printed
    once, but the disk group is absent, the log line raises [TypeError] and
    the process ends with a traceback and status 1, not 0. *)
Theorem one_shot_logging_exits_1 :
  let r := run_process (main std_world 0 one_shot_logging) in
  fst r = Exited 1 /\
  calls_of (snd r) =
    ["psutil.cpu_percent"; "psutil.cpu_freq"; "psutil.virtual_memory";
     "psutil.disk_usage"; "psutil.net_io_counters"; "time.sleep";
     "psutil.net_io_counters"; "datetime.datetime.now";
     "datetime.datetime.strftime"] /\
  stderr_lines (snd r) =
    ["Traceback (most recent call last): unsupported format string passed to NoneType.__format__"].
Proof. vm_compute. repeat split; reflexivity. Qed.

(** ** The network rate *)

Lemma get_network_activity_delta (w : world) (t : trace)
    (before after slept : value) (sent0 sent1 recv0 recv1 : Z) :
  hasattr_module w "psutil" "net_io_counters" = true ->
  hasattr_module w "time" "sleep" = true ->
  extern w net_api (count_calls net_api t) [] = Ok before ->
  extern w "time.sleep" (count_calls "time.sleep" t) [VInt 1] = Ok slept ->
  extern w net_api (S (count_calls net_api t)) [] = Ok after ->
  getattr before "bytes_sent" = Ok (VInt sent0) ->
  getattr before "bytes_recv" = Ok (VInt recv0) ->
  getattr after "bytes_sent" = Ok (VInt sent1) ->
  getattr after "bytes_recv" = Ok (VInt recv1) ->
  get_network_activity w t =
    (Ret (VInt (sent1 - sent0), VInt (recv1 - recv0)), (t ++ rate_window)%list).
Proof.
  intros Hnet Hsleep Hb Hs Ha Hbs Hbr Has Har.
  unfold get_network_activity, try_except, bind.
  rewrite (call_module_ok w "psutil" "net_io_counters" [] t before Hnet Hb).
  rewrite Hbs, Hbr. simpl lift. unfold ret at 1 2.
  rewrite (time_sleep_ok w 1 _ slept Hsleep); [|lia|].
  2:{ rewrite count_calls_snoc_other by reflexivity. exact Hs. }
  rewrite (call_module_ok w "psutil" "net_io_counters" [] _ after Hnet).
  2:{ rewrite count_calls_snoc_other by reflexivity.
      change ("psutil" ++ "." ++ "net_io_counters") with net_api.
      rewrite count_calls_snoc_same. exact Ha. }
  rewrite Has, Har. simpl. unfold ret.
  rewrite <- !app_assoc. reflexivity.
Qed.

Lemma get_system_usage_delta (w : world) (t t' : trace) (u : system_usage) :
  get_system_usage w t = (Ret u, t') ->
  is_not_None (u_cpu_usage u) = true ->
  exists pre post before after sent0 sent1 recv0 recv1,
    t' = (pre ++ rate_window ++ post)%list /\
    extern w net_api (count_calls net_api pre) [] = Ok before /\
    extern w net_api (S (count_calls net_api pre)) [] = Ok after /\
    getattr before "bytes_sent" = Ok sent0 /\
    getattr before "bytes_recv" = Ok recv0 /\
    getattr after "bytes_sent" = Ok sent1 /\
    getattr after "bytes_recv" = Ok recv1 /\
    py_sub sent1 sent0 = Ok (u_bytes_sent u) /\
    py_sub recv1 recv0 = Ok (u_bytes_recv u).
Proof.
  unfold get_system_usage, try_except.
  match goal with |- context [match ?b t with _ => _ end] => destruct (b t) as [[u0|e|] t0] eqn:Hbody end.
  2:{ unfold except_Exception. destruct (is_Exception e).
      - unfold bind, print, ret. intros H. inversion H; subst. discriminate.
      - unfold raise. discriminate. }
  2:{ discriminate. }
  intros H Hcpu. inversion H; subst u0 t0. clear H.
  repeat match type of Hbody with
         | bind _ _ _ = (Ret _, _) =>
             apply bind_Ret_inv in Hbody;
             let a := fresh "a" in let ta := fresh "ta" in let Ha := fresh "Ha" in
             destruct Hbody as (a & ta & Ha & Hbody)
         end.
  repeat match goal with
         | Hx : lift _ _ = (Ret _, _) |- _ =>
             apply lift_Ret_inv in Hx; destruct Hx as [Hx ->]
         | Hx : call_module _ _ _ _ _ = (Ret _, _) |- _ =>
             apply call_module_Ret_inv in Hx; destruct Hx as [Hx ->]
         | Hx : time_sleep _ _ _ = (Ret _, _) |- _ =>
             apply time_sleep_Ret_inv in Hx; subst
         end.
  unfold ret in Hbody. inversion Hbody; subst. clear Hbody. simpl.
  simpl in *.
  eexists (t ++ [ECall "psutil.cpu_percent" [VInt 1]; ECall "psutil.virtual_memory" []])%list,
          [ECall "psutil.disk_usage" [VStr "/"]].
  do 6 eexists.
  split.
  { unfold rate_window, net_api. rewrite <- !app_assoc. reflexivity. }
  unfold net_api.
  repeat rewrite count_calls_snoc_other in * by reflexivity.
  repeat rewrite count_calls_snoc_same in *.
  repeat rewrite count_calls_snoc_other in * by reflexivity.
  replace (t ++ [ECall "psutil.cpu_percent" [VInt 1]; ECall "psutil.virtual_memory" []])%list
    with ((t ++ [ECall "psutil.cpu_percent" [VInt 1]]) ++ [ECall "psutil.virtual_memory" []])%list
    by (rewrite <- app_assoc; reflexivity).
  repeat rewrite count_calls_snoc_other by reflexivity.
  repeat split; eassumption.
Qed.

(** The same window inside [get_system_usage]: when the other queries
    answer, the two rate fields are after minus before. *)
Lemma get_system_usage_rates (w : world) (t : trace)
    (before after slept : value) (sent0 sent1 recv0 recv1 : Z)
    (cpu mem disk mem_usage m_total m_available total available : value)
    (d_total d_used d_free d_percent dtotal dused dfree : value) :
  hasattr_module w "psutil" "net_io_counters" = true ->
  hasattr_module w "time" "sleep" = true ->
  extern w net_api (count_calls net_api t) [] = Ok before ->
  extern w "time.sleep" (count_calls "time.sleep" t) [VInt 1] = Ok slept ->
  extern w net_api (S (count_calls net_api t)) [] = Ok after ->
  getattr before "bytes_sent" = Ok (VInt sent0) ->
  getattr before "bytes_recv" = Ok (VInt recv0) ->
  getattr after "bytes_sent" = Ok (VInt sent1) ->
  getattr after "bytes_recv" = Ok (VInt recv1) ->
  hasattr_module w "psutil" "cpu_percent" = true ->
  hasattr_module w "psutil" "virtual_memory" = true ->
  hasattr_module w "psutil" "disk_usage" = true ->
  extern w "psutil.cpu_percent" (count_calls "psutil.cpu_percent" t) [VInt 1] = Ok cpu ->
  extern w "psutil.virtual_memory" (count_calls "psutil.virtual_memory" t) [] = Ok mem ->
  getattr mem "percent" = Ok mem_usage ->
  getattr mem "total" = Ok m_total ->
  truediv m_total GB = Ok total ->
  getattr mem "available" = Ok m_available ->
  truediv m_available GB = Ok available ->
  extern w "psutil.disk_usage" (count_calls "psutil.disk_usage" t) [VStr "/"] = Ok disk ->
  getattr disk "total" = Ok d_total ->
  truediv d_total GB = Ok dtotal ->
  getattr disk "used" = Ok d_used ->
  truediv d_used GB = Ok dused ->
  getattr disk "free" = Ok d_free ->
  truediv d_free GB = Ok dfree ->
  getattr disk "percent" = Ok d_percent ->
  get_system_usage w t =
    (Ret (mkUsage cpu mem_usage total available
            (VInt (sent1 - sent0)) (VInt (recv1 - recv0)) dtotal dused dfree),
     (t ++ [ECall "psutil.cpu_percent" [VInt 1]; ECall "psutil.virtual_memory" []]
        ++ rate_window ++ [ECall "psutil.disk_usage" [VStr "/"]])%list).
Proof.
  intros Hnet Hsleep Hb Hs Ha Hbs Hbr Has Har Hcpu Hvm Hdu Ec Em Emu Emt Et Ema Eav
    Ed Edt Edt' Edu Edu' Edf Edf' Edp.
  unfold get_system_usage, try_except, bind.
  rewrite (call_module_ok w "psutil" "cpu_percent" [VInt 1] t cpu Hcpu Ec).
  rewrite (call_module_ok w "psutil" "virtual_memory" [] _ mem Hvm).
  2:{ rewrite count_calls_snoc_other by reflexivity. exact Em. }
  rewrite Emu. cbn [lift ret]. rewrite Emt. cbn [lift ret]. rewrite Et. cbn [lift ret].
  rewrite Ema. cbn [lift ret]. rewrite Eav. cbn [lift ret].
  rewrite (call_module_ok w "psutil" "net_io_counters" [] _ before Hnet).
  2:{ rewrite !count_calls_snoc_other by reflexivity. exact Hb. }
  rewrite Hbs, Hbr. cbn [lift ret].
  rewrite (time_sleep_ok w 1 _ slept Hsleep); [|lia|].
  2:{ rewrite !count_calls_snoc_other by reflexivity. exact Hs. }
  rewrite (call_module_ok w "psutil" "net_io_counters" [] _ after Hnet).
  2:{ rewrite count_calls_snoc_other by reflexivity.
      change ("psutil" ++ "." ++ "net_io_counters") with net_api.
      rewrite count_calls_snoc_same.
      rewrite !count_calls_snoc_other by reflexivity. exact Ha. }
  rewrite Has, Har. cbn [lift ret py_sub].
  rewrite (call_module_ok w "psutil" "disk_usage" [VStr "/"] _ disk Hdu).
  2:{ rewrite !count_calls_snoc_other by reflexivity. exact Ed. }
  rewrite Edt. cbn [lift ret]. rewrite Edt'. cbn [lift ret].
  rewrite Edu. cbn [lift ret]. rewrite Edu'. cbn [lift ret].
  rewrite Edf. cbn [lift ret]. rewrite Edf'. cbn [lift ret]. rewrite Edp. cbn [lift ret].
  unfold ret, rate_window, net_api. rewrite <- !app_assoc. reflexivity.
Qed.

(** C6.  The network sampler reads the cumulative counters, sleeps one
    second, reads them again and returns after minus before for the bytes
    sent and received; nothing else happens in between.  The same holds
    for the two rate fields of [get_system_usage] in sysmon.py: when its
    other queries answer, it makes the same three calls between the memory
    query and the disk query and returns after minus before in its two
    rate fields. *)
Theorem network_rate_is_counter_delta (w : world) (t : trace)
    (before after slept : value) (sent0 sent1 recv0 recv1 : Z) :
  hasattr_module w "psutil" "net_io_counters" = true ->
  hasattr_module w "time" "sleep" = true ->
  extern w net_api (count_calls net_api t) [] = Ok before ->
  extern w "time.sleep" (count_calls "time.sleep" t) [VInt 1] = Ok slept ->
  extern w net_api (S (count_calls net_api t)) [] = Ok after ->
  getattr before "bytes_sent" = Ok (VInt sent0) ->
  getattr before "bytes_recv" = Ok (VInt recv0) ->
  getattr after "bytes_sent" = Ok (VInt sent1) ->
  getattr after "bytes_recv" = Ok (VInt recv1) ->
  get_network_activity w t =
    (Ret (VInt (sent1 - sent0), VInt (recv1 - recv0)), (t ++ rate_window)%list)
  /\
  (forall cpu mem disk mem_usage m_total m_available total available
          d_total d_used d_free d_percent dtotal dused dfree,
      hasattr_module w "psutil" "cpu_percent" = true ->
      hasattr_module w "psutil" "virtual_memory" = true ->
      hasattr_module w "psutil" "disk_usage" = true ->
      extern w "psutil.cpu_percent" (count_calls "psutil.cpu_percent" t) [VInt 1] = Ok cpu ->
      extern w "psutil.virtual_memory" (count_calls "psutil.virtual_memory" t) [] = Ok mem ->
      getattr mem "percent" = Ok mem_usage ->
      getattr mem "total" = Ok m_total ->
      truediv m_total GB = Ok total ->
      getattr mem "available" = Ok m_available ->
      truediv m_available GB = Ok available ->
      extern w "psutil.disk_usage" (count_calls "psutil.disk_usage" t) [VStr "/"] = Ok disk ->
      getattr disk "total" = Ok d_total ->
      truediv d_total GB = Ok dtotal ->
      getattr disk "used" = Ok d_used ->
      truediv d_used GB = Ok dused ->
      getattr disk "free" = Ok d_free ->
      truediv d_free GB = Ok dfree ->
      getattr disk "percent" = Ok d_percent ->
      get_system_usage w t =
        (Ret (mkUsage cpu mem_usage total available
                (VInt (sent1 - sent0)) (VInt (recv1 - recv0)) dtotal dused dfree),
         (t ++ [ECall "psutil.cpu_percent" [VInt 1]; ECall "psutil.virtual_memory" []]
            ++ rate_window ++ [ECall "psutil.disk_usage" [VStr "/"]])%list))
  /\
  (forall t0 t' u,
      get_system_usage w t0 = (Ret u, t') ->
      is_not_None (u_cpu_usage u) = true ->
      exists pre post first second s0 s1 r0 r1,
        t' = (pre ++ rate_window ++ post)%list /\
        extern w net_api (count_calls net_api pre) [] = Ok first /\
        extern w net_api (S (count_calls net_api pre)) [] = Ok second /\
        getattr first "bytes_sent" = Ok s0 /\
        getattr first "bytes_recv" = Ok r0 /\
        getattr second "bytes_sent" = Ok s1 /\
        getattr second "bytes_recv" = Ok r1 /\
        py_sub s1 s0 = Ok (u_bytes_sent u) /\
        py_sub r1 r0 = Ok (u_bytes_recv u)).
Proof.
  intros Hnet Hsleep Hb Hs Ha Hbs Hbr Has Har. split; [|split].
  - eapply get_network_activity_delta; eassumption.
  - intros. eapply get_system_usage_rates; eassumption.
  - intros t0 t' u Hu Hcpu. eapply get_system_usage_delta; eassumption.
Qed.

(** The example of the specification: counters 1000/1500 sent and
    2000/2600 received give 500 and 600 bytes per second, in both
    scripts. *)
Lemma network_rate_is_counter_delta_witness :
  get_network_activity std_world [] = (Ret (VInt 500, VInt 600), rate_window) /\
  exists u,
    get_system_usage std_world [] =
      (Ret u,
       ([ECall "psutil.cpu_percent" [VInt 1]; ECall "psutil.virtual_memory" []]
          ++ rate_window ++ [ECall "psutil.disk_usage" [VStr "/"]])%list) /\
    u_bytes_sent u = VInt 500 /\ u_bytes_recv u = VInt 600.
Proof.
  pose proof (network_rate_is_counter_delta std_world [] (snetio 0) (snetio 1) VNone
                1000 1500 2000 2600
                eq_refl eq_refl eq_refl eq_refl eq_refl eq_refl eq_refl eq_refl eq_refl)
    as (Hcli & Hsysmon & _).
  split; [exact Hcli|].
  eexists. split.
  - apply (Hsysmon (flt 125 (-1)) svmem sdiskusage (flt 500 (-1))
             (VInt (16 * GB)) (VInt (8 * GB)) (flt 16 0) (flt 8 0)
             (VInt (500 * GB)) (VInt (125 * GB)) (VInt (375 * GB)) (flt 250 (-1))
             (flt 500 0) (flt 125 0) (flt 375 0));
      vm_compute; reflexivity.
  - split; reflexivity.
Defined.

(** ** Failures of a sampler *)

Lemma resolves_spec (w : world) (c : category) :
  resolves w c = true ->
  forall m a, In (m, a) (lookups c) -> hasattr_module w m a = true.
Proof.
  unfold resolves. rewrite forallb_forall. intros H m a Hin.
  apply (H (m, a) Hin).
Qed.

Lemma sample_failure (w : world) (c : category) (t : trace) (e : exn) :
  is_Exception e = true ->
  resolves w c = true ->
  extern w (fst (acquisition c)) (count_calls (fst (acquisition c)) t)
    (snd (acquisition c)) = Err e ->
  sample w c t =
    (Ret (absent c),
     (t ++ [ECall (fst (acquisition c)) (snd (acquisition c));
            EStdout (failure_line c e)])%list).
Proof.
  intros He Hr Hc.
  pose proof (resolves_spec w c Hr) as Hl.
  destruct c; simpl in Hc, Hl |- *.
  - (* local ip *)
    unfold sample, get_local_ip, try_except, bind.
    rewrite (getattr_module_present w "socket" "socket" t) by (apply Hl; simpl; auto).
    rewrite (getattr_module_present w "socket" "af_inet" t) by (apply Hl; simpl; auto).
    rewrite (getattr_module_present w "socket" "sock_dgram" t) by (apply Hl; simpl; auto).
    simpl. rewrite (call_err w _ _ t e Hc).
    rewrite (getattr_module_present w "socket" "error") by (apply Hl; simpl; auto 6).
    destruct (is_socket_error e); [|rewrite He];
      unfold print, ret; rewrite <- app_assoc; reflexivity.
  - unfold sample, get_cpu_usage, try_except, bind.
    rewrite (call_module_err w "psutil" "cpu_percent" _ t e) by (auto; apply Hl; simpl; auto).
    unfold except_Exception. rewrite He.
    unfold bind, print, ret. rewrite <- app_assoc. reflexivity.
  - unfold sample, get_cpu_clock, try_except, bind.
    rewrite (Hl "psutil" "cpu_freq") by (simpl; auto).
    rewrite (call_module_err w "psutil" "cpu_freq" _ t e) by (auto; apply Hl; simpl; auto).
    unfold except_Exception. rewrite He.
    unfold bind, print, ret. rewrite <- app_assoc. reflexivity.
  - unfold sample, get_cpu_name, try_except, bind.
    rewrite (call_module_err w "psutil" "cpu_info" _ t e) by (auto; apply Hl; simpl; auto).
    unfold except_Exception. rewrite He.
    unfold bind, print, ret. rewrite <- app_assoc. reflexivity.
  - unfold sample, get_ram_usage, try_except, bind.
    rewrite (call_module_err w "psutil" "virtual_memory" _ t e) by (auto; apply Hl; simpl; auto).
    unfold except_Exception. rewrite He.
    unfold bind, print, ret. rewrite <- app_assoc. reflexivity.
  - unfold sample, get_disk_usage, try_except, bind.
    rewrite (call_module_err w "psutil" "disk_usage" _ t e) by (auto; apply Hl; simpl; auto).
    unfold except_Exception. rewrite He.
    unfold bind, print, ret. rewrite <- app_assoc. reflexivity.
  - unfold sample, get_network_activity, try_except, bind.
    rewrite (call_module_err w "psutil" "net_io_counters" _ t e) by (auto; apply Hl; simpl; auto).
    unfold except_Exception. rewrite He.
    unfold bind, print, ret. rewrite <- app_assoc. reflexivity.
Qed.

Lemma get_system_usage_failure (w : world) (t : trace) (e : exn) :
  is_Exception e = true ->
  hasattr_module w "psutil" "cpu_percent" = true ->
  extern w "psutil.cpu_percent" (count_calls "psutil.cpu_percent" t) [VInt 1] = Err e ->
  get_system_usage w t =
    (Ret no_usage,
     (t ++ [ECall "psutil.cpu_percent" [VInt 1];
            EStdout ("Error getting system usage: " ++ exn_str e)])%list).
Proof.
  intros He Ha Hc.
  unfold get_system_usage, try_except, bind.
  rewrite (call_module_err w "psutil" "cpu_percent" _ t e Ha Hc).
  unfold except_Exception. rewrite He.
  unfold bind, print, ret. rewrite <- app_assoc. reflexivity.
Qed.




(** ** Exit codes *)

Lemma while_true_more_fuel (body : M unit) (n : nat) :
  forall t e t',
    while_true n body t = (Raise e, t') ->
    forall m, (n <= m)%nat -> while_true m body t = (Raise e, t').
Proof.
  induction n as [|n IH]; intros t e t' H m Hm.
  - discriminate H.
  - destruct m as [|m]; [lia|].
    simpl in H |- *. unfold bind in H |- *.
    destruct (body t) as [[u|e0|] t0]; try exact H.
    apply (IH t0 e t' H m). lia.
Qed.

Lemma is_KeyboardInterrupt_inv (e : exn) :
  is_KeyboardInterrupt e = true -> exists msg, e = Exn KeyboardInterrupt msg.
Proof.
  destruct e as [c msg|code]; [|discriminate].
  destruct c; try discriminate. intros _. exists msg. reflexivity.
Qed.

Lemma is_Exception_not_interrupt (e : exn) :
  is_Exception e = true -> is_KeyboardInterrupt e = false.
Proof.
  destruct e as [c msg|code]; [|reflexivity].
  destruct c; try reflexivity. discriminate.
Qed.

Lemma main_interrupted (w : world) (fuel : nat) (args : arguments) (e : exn) (t : trace) :
  no_loop args = false ->
  while_true fuel (main_loop_body w args) [] = (Raise e, t) ->
  is_KeyboardInterrupt e = true ->
  run_process (main w fuel args) =
    (Exited 0, (t ++ [EStdout (nl ++ "monitoring stopped by user.")])%list).
Proof.
  intros Hn Hloop Hk. unfold run_process, main, try_except.
  rewrite Hn, Hloop, Hk. reflexivity.
Qed.

Lemma main_unexpected (w : world) (fuel : nat) (args : arguments) (e : exn) (t : trace) :
  no_loop args = false ->
  while_true fuel (main_loop_body w args) [] = (Raise e, t) ->
  is_Exception e = true ->
  fst (run_process (main w fuel args)) = Exited 1 /\
  stdout_lines (snd (run_process (main w fuel args))) =
    (stdout_lines t ++ [("an unexpected error occurred: " ++ exn_str e)%string])%list.
Proof.
  intros Hn Hloop He. unfold run_process, main, try_except.
  rewrite Hn, Hloop, (is_Exception_not_interrupt e He), He.
  unfold sys_exit, getattr_module, bind, print.
  destruct (hasattr_module w "sys" "exit"); simpl.
  - split; [reflexivity|]. rewrite stdout_lines_app. reflexivity.
  - split; [reflexivity|]. rewrite !stdout_lines_app. simpl. rewrite app_nil_r. reflexivity.
Qed.

Lemma monitor_system_ends (w : world) (fuel : nat) (itv : Z) (logf : string)
    (e : exn) (t : trace) :
  while_true fuel (monitor_loop_body w itv logf) [EStdout (banner itv logf)] = (Raise e, t) ->
  (is_KeyboardInterrupt e = true ->
   run_process (monitor_system w fuel itv logf) =
     (Exited 0, (t ++ [EStdout (nl ++ "Monitoring stopped by user.")])%list)) /\
  (is_Exception e = true ->
   run_process (monitor_system w fuel itv logf) =
     (Exited 0, (t ++ [EStdout ("An error occurred during monitoring: " ++ exn_str e)])%list)).
Proof.
  intros Hloop. split; intros H; unfold run_process, monitor_system, bind, try_except;
    rewrite print_spec; simpl app; rewrite Hloop.
  - rewrite H. reflexivity.
  - rewrite (is_Exception_not_interrupt e H), H. reflexivity.
Qed.




(** ** Independence of the categories *)

Section Lockstep.

Variable A : string -> bool.
Variables w1 w2 : world.
Hypothesis Hagree : agree A w1 w2.

Lemma similar_snoc_call (t1 t2 : trace) (api : string) (args : list value) :
  similar A t1 t2 ->
  similar A (t1 ++ [ECall api args])%list (t2 ++ [ECall api args])%list.
Proof.
  intros H a Ha. rewrite !count_calls_app, (H a Ha). reflexivity.
Qed.

Lemma similar_snoc_print (t1 t2 : trace) (s : string) :
  similar A t1 t2 ->
  similar A (t1 ++ [EStdout s])%list (t2 ++ [EStdout s])%list.
Proof.
  intros H a Ha. rewrite !count_calls_app, (H a Ha). reflexivity.
Qed.

Lemma hasattr_agree (modname attr : string) :
  hasattr_module w1 modname attr = hasattr_module w2 modname attr.
Proof.
  unfold hasattr_module. rewrite (proj1 Hagree). reflexivity.
Qed.

Lemma lockstep_ret {X} (a : X) : lockstep A (ret a) (ret a).
Proof. intros t1 t2 H. split; [reflexivity|exact H]. Qed.

Lemma lockstep_raise {X} (e : exn) : lockstep A (@raise X e) (raise e).
Proof. intros t1 t2 H. split; [reflexivity|exact H]. Qed.

Lemma lockstep_lift {X} (r : result X) : lockstep A (lift r) (lift r).
Proof. destruct r; [apply lockstep_ret|apply lockstep_raise]. Qed.

Lemma lockstep_print (s : string) : lockstep A (print s) (print s).
Proof.
  intros t1 t2 H. split; [reflexivity|]. simpl. apply similar_snoc_print. exact H.
Qed.

Lemma lockstep_bind {X Y} (m1 m2 : M X) (k1 k2 : X -> M Y) :
  lockstep A m1 m2 ->
  (forall a, lockstep A (k1 a) (k2 a)) ->
  lockstep A (bind m1 k1) (bind m2 k2).
Proof.
  intros Hm Hk t1 t2 H. unfold bind.
  destruct (Hm t1 t2 H) as [Ho Hs].
  destruct (m1 t1) as [[a|e|] ta], (m2 t2) as [[b|e'|] tb];
    simpl in Ho, Hs; try discriminate Ho.
  - inversion Ho; subst. apply Hk. exact Hs.
  - inversion Ho; subst. split; [reflexivity|exact Hs].
  - split; [reflexivity|exact Hs].
Qed.

Lemma lockstep_try_except {X} (b1 b2 : M X) (h1 h2 : exn -> M X) :
  lockstep A b1 b2 ->
  (forall e, lockstep A (h1 e) (h2 e)) ->
  lockstep A (try_except b1 h1) (try_except b2 h2).
Proof.
  intros Hb Hh t1 t2 H. unfold try_except.
  destruct (Hb t1 t2 H) as [Ho Hs].
  destruct (b1 t1) as [[a|e|] ta], (b2 t2) as [[b|e'|] tb];
    simpl in Ho, Hs; try discriminate Ho.
  - inversion Ho; subst. split; [reflexivity|exact Hs].
  - inversion Ho; subst. apply Hh. exact Hs.
  - split; [reflexivity|exact Hs].
Qed.

Lemma lockstep_except_Exception {X} (h1 h2 : exn -> M X) (e : exn) :
  (forall e, lockstep A (h1 e) (h2 e)) ->
  lockstep A (except_Exception h1 e) (except_Exception h2 e).
Proof.
  intros Hh. unfold except_Exception.
  destruct (is_Exception e); [apply Hh|apply lockstep_raise].
Qed.

Lemma lockstep_call (api : string) (args : list value) :
  A api = false ->
  lockstep A (call w1 api args) (call w2 api args).
Proof.
  intros Ha t1 t2 H. unfold call.
  rewrite (proj2 Hagree api _ args Ha), (H api Ha).
  destruct (extern w2 api (count_calls api t2) args); simpl;
    (split; [reflexivity|apply similar_snoc_call; exact H]).
Qed.

Lemma lockstep_getattr_module (modname attr : string) :
  lockstep A (getattr_module w1 modname attr) (getattr_module w2 modname attr).
Proof.
  unfold getattr_module. rewrite hasattr_agree.
  destruct (hasattr_module w2 modname attr); [apply lockstep_ret|apply lockstep_raise].
Qed.

Lemma lockstep_call_module (modname attr : string) (args : list value) :
  A (modname ++ "." ++ attr) = false ->
  lockstep A (call_module w1 modname attr args) (call_module w2 modname attr args).
Proof.
  intros Ha. unfold call_module. apply lockstep_bind.
  - apply lockstep_getattr_module.
  - intros _. apply lockstep_call. exact Ha.
Qed.

Lemma lockstep_time_sleep (secs : Z) :
  A "time.sleep" = false ->
  lockstep A (time_sleep w1 secs) (time_sleep w2 secs).
Proof.
  intros Ha. unfold time_sleep. apply lockstep_bind.
  - apply lockstep_getattr_module.
  - intros _. destruct (secs <? 0); [apply lockstep_raise|].
    apply lockstep_bind; [apply lockstep_call; exact Ha|].
    intros _. apply lockstep_ret.
Qed.

End Lockstep.

Ltac lockstep_step :=
  first
    [ apply lockstep_ret
    | apply lockstep_raise
    | apply lockstep_lift
    | apply lockstep_print
    | apply lockstep_getattr_module; assumption
    | apply lockstep_call_module; [assumption|reflexivity]
    | apply lockstep_call; [assumption|reflexivity]
    | apply lockstep_time_sleep; [assumption|reflexivity]
    | apply lockstep_except_Exception; intros
    | apply lockstep_try_except; [|intros]
    | apply lockstep_bind; [|intros]
    | match goal with
      | |- lockstep _ (if ?b then _ else _) (if ?b then _ else _) => destruct b
      end ].

Lemma lockstep_sample (c c' : category) (w1 w2 : world) :
  agree (apis c) w1 w2 ->
  category_eqb c c' = false ->
  lockstep (apis c) (sample w1 c') (sample w2 c').
Proof.
  intros Hagree Hne.
  destruct c, c'; try discriminate Hne;
    unfold sample, get_local_ip, get_cpu_usage, get_cpu_clock, get_cpu_name,
      get_ram_usage, get_disk_usage, get_network_activity;
    try rewrite (hasattr_agree _ _ _ Hagree "psutil" "cpu_freq");
    repeat lockstep_step;
    repeat match goal with
           | |- lockstep _ (let '(x, y) := ?p in _) _ => destruct p
           end;
    repeat lockstep_step.
Qed.

Section TouchesOnly.

Variable A : string -> bool.
Variable w : world.

Lemma touches_ret {X} (a : X) : touches_only A (ret a).
Proof. intros t api _. reflexivity. Qed.

Lemma touches_raise {X} (e : exn) : touches_only A (@raise X e).
Proof. intros t api _. reflexivity. Qed.

Lemma touches_lift {X} (r : result X) : touches_only A (lift r).
Proof. destruct r; [apply touches_ret|apply touches_raise]. Qed.

Lemma touches_print (s : string) : touches_only A (print s).
Proof.
  intros t api _. simpl. rewrite count_calls_app. simpl. apply Nat.add_0_r.
Qed.

Lemma touches_bind {X Y} (m : M X) (k : X -> M Y) :
  touches_only A m ->
  (forall a, touches_only A (k a)) ->
  touches_only A (bind m k).
Proof.
  intros Hm Hk t api Ha. unfold bind.
  pose proof (Hm t api Ha) as H.
  destruct (m t) as [[a|e|] ta]; simpl in H |- *; try exact H.
  rewrite (Hk a ta api Ha). exact H.
Qed.

Lemma touches_try_except {X} (b : M X) (h : exn -> M X) :
  touches_only A b ->
  (forall e, touches_only A (h e)) ->
  touches_only A (try_except b h).
Proof.
  intros Hb Hh t api Ha. unfold try_except.
  pose proof (Hb t api Ha) as H.
  destruct (b t) as [[a|e|] ta]; simpl in H |- *; try exact H.
  rewrite (Hh e ta api Ha). exact H.
Qed.

Lemma touches_except_Exception {X} (h : exn -> M X) (e : exn) :
  (forall e, touches_only A (h e)) ->
  touches_only A (except_Exception h e).
Proof.
  intros Hh. unfold except_Exception.
  destruct (is_Exception e); [apply Hh|apply touches_raise].
Qed.

Lemma touches_call (api : string) (args : list value) :
  A api = true ->
  touches_only A (call w api args).
Proof.
  intros Ha t a Hf. unfold call.
  assert (Hne : String.eqb api a = false).
  { destruct (String.eqb_spec api a) as [->|]; [congruence|reflexivity]. }
  destruct (extern w api (count_calls api t) args); simpl;
    apply count_calls_snoc_other; exact Hne.
Qed.

Lemma touches_getattr_module (modname attr : string) :
  touches_only A (getattr_module w modname attr).
Proof.
  unfold getattr_module.
  destruct (hasattr_module w modname attr); [apply touches_ret|apply touches_raise].
Qed.

Lemma touches_call_module (modname attr : string) (args : list value) :
  A (modname ++ "." ++ attr) = true ->
  touches_only A (call_module w modname attr args).
Proof.
  intros Ha. unfold call_module. apply touches_bind.
  - apply touches_getattr_module.
  - intros _. apply touches_call. exact Ha.
Qed.

Lemma touches_time_sleep (secs : Z) :
  A "time.sleep" = true ->
  touches_only A (time_sleep w secs).
Proof.
  intros Ha. unfold time_sleep. apply touches_bind.
  - apply touches_getattr_module.
  - intros _. destruct (secs <? 0); [apply touches_raise|].
    apply touches_bind; [apply touches_call; exact Ha|].
    intros _. apply touches_ret.
Qed.

End TouchesOnly.

Ltac touches_step :=
  first
    [ apply touches_ret
    | apply touches_raise
    | apply touches_lift
    | apply touches_print
    | apply touches_getattr_module
    | apply touches_call_module; reflexivity
    | apply touches_call; reflexivity
    | apply touches_time_sleep; reflexivity
    | apply touches_except_Exception; intros
    | apply touches_try_except; [|intros]
    | apply touches_bind; [|intros]
    | match goal with
      | |- touches_only _ (if ?b then _ else _) => destruct b
      | |- touches_only _ (let '(x, y) := ?p in _) => destruct p
      end ].

Lemma touches_sample (c : category) (w : world) :
  touches_only (apis c) (sample w c).
Proof.
  destruct c;
    unfold sample, get_local_ip, get_cpu_usage, get_cpu_clock, get_cpu_name,
      get_ram_usage, get_disk_usage, get_network_activity;
    repeat touches_step.
Qed.

(** The sampler of a category whose acquisition is broken returns the
    absence marker. *)
Lemma broken_sample (c : category) (e : exn) (w : world) (t : trace) :
  is_Exception e = true ->
  hasattr_module w "socket" "error" = true ->
  exists t', sample (break_category c e w) c t = (Ret (absent c), t').
Proof.
  intros He Herr.
  assert (Hattr : forall m a,
             hasattr_module (break_category c e w) m a = hasattr_module w m a)
    by reflexivity.
  destruct c;
    unfold sample, get_local_ip, get_cpu_usage, get_cpu_clock, get_cpu_name,
      get_ram_usage, get_disk_usage, get_network_activity,
      try_except, call_module, getattr_module, except_Exception, bind, call;
    rewrite ?Hattr, ?Herr.
  - destruct (hasattr_module w "socket" "socket"); simpl;
      [|rewrite ?Hattr, ?Herr; simpl; eexists; reflexivity].
    destruct (hasattr_module w "socket" "af_inet"); simpl;
      [|rewrite ?Hattr, ?Herr; simpl; eexists; reflexivity].
    destruct (hasattr_module w "socket" "sock_dgram"); simpl;
      [|rewrite ?Hattr, ?Herr; simpl; eexists; reflexivity].
    rewrite ?Hattr, ?Herr. simpl.
    destruct (is_socket_error e); [simpl; eexists; reflexivity|].
    rewrite He. simpl. eexists; reflexivity.
  - destruct (hasattr_module w "psutil" "cpu_percent"); simpl; rewrite ?He; simpl; eexists; reflexivity.
  - destruct (hasattr_module w "psutil" "cpu_freq"); simpl; rewrite ?He; simpl; eexists; reflexivity.
  - destruct (hasattr_module w "psutil" "cpu_info"); simpl; rewrite ?He; simpl; eexists; reflexivity.
  - destruct (hasattr_module w "psutil" "virtual_memory"); simpl; rewrite ?He; simpl; eexists; reflexivity.
  - destruct (hasattr_module w "psutil" "disk_usage"); simpl; rewrite ?He; simpl; eexists; reflexivity.
  - destruct (hasattr_module w "psutil" "net_io_counters"); simpl; rewrite ?He; simpl; eexists; reflexivity.
Qed.

Lemma agree_break (c : category) (e : exn) (w : world) :
  agree (apis c) w (break_category c e w).
Proof.
  split; [reflexivity|].
  intros api k args Ha. unfold break_category, with_failure. simpl.
  destruct (String.eqb_spec api (fst (acquisition c))) as [->|]; [|reflexivity].
  destruct c; discriminate Ha.
Qed.

Lemma similar_refl (A : string -> bool) (t : trace) : similar A t t.
Proof. intros api _. reflexivity. Qed.

Lemma category_eqb_true (a b : category) : category_eqb a b = true -> a = b.
Proof. destruct a, b; simpl; intros H; try discriminate H; reflexivity. Qed.

(** One sampler of the snapshot, run with and without the failure. *)
Lemma sample_step (c c' : category) (e : exn) (w : world)
    (ta tb ta' : trace) (g : list value) :
  is_Exception e = true ->
  hasattr_module w "socket" "error" = true ->
  similar (apis c) ta tb ->
  sample w c' ta = (Ret g, ta') ->
  exists tb',
    sample (break_category c e w) c' tb =
      (Ret (if category_eqb c c' then absent c else g), tb') /\
    similar (apis c) ta' tb'.
Proof.
  intros He Herr Hsim Hs.
  destruct (category_eqb c c') eqn:E.
  - apply category_eqb_true in E. subst c'.
    destruct (broken_sample c e w tb He Herr) as [tb' Hb].
    exists tb'. split; [exact Hb|].
    intros api Ha.
    pose proof (touches_sample c w ta api Ha) as H1.
    pose proof (touches_sample c (break_category c e w) tb api Ha) as H2.
    rewrite Hs in H1. rewrite Hb in H2. simpl in H1, H2.
    rewrite H1, H2. apply Hsim. exact Ha.
  - destruct (lockstep_sample c c' w (break_category c e w) (agree_break c e w) E ta tb Hsim)
      as [Ho Hsim'].
    rewrite Hs in Ho, Hsim'. simpl in Ho, Hsim'.
    destruct (sample (break_category c e w) c' tb) as [o tb'] eqn:Hb.
    simpl in Ho, Hsim'. subst o. exists tb'. split; [reflexivity|exact Hsim'].
Qed.

Lemma take_snapshot_samples (w : world) (t t' : trace) (s : snapshot) :
  take_snapshot w t = (Ret s, t') ->
  exists t1 t2 t3 t4 t5 t6,
    sample w LocalIp t = (Ret (group LocalIp s), t1) /\
    sample w CpuUsage t1 = (Ret (group CpuUsage s), t2) /\
    sample w CpuClock t2 = (Ret (group CpuClock s), t3) /\
    sample w CpuName t3 = (Ret (group CpuName s), t4) /\
    sample w Ram t4 = (Ret (group Ram s), t5) /\
    sample w Disk t5 = (Ret (group Disk s), t6) /\
    sample w Network t6 = (Ret (group Network s), t').
Proof.
  unfold take_snapshot, sample, bind.
  destruct (get_local_ip w t) as [[ip|e|] t1] eqn:E1; try discriminate.
  destruct (get_cpu_usage w t1) as [[usage|e|] t2] eqn:E2; try discriminate.
  destruct (get_cpu_clock w t2) as [[clock|e|] t3] eqn:E3; try discriminate.
  destruct (get_cpu_name w t3) as [[name|e|] t4] eqn:E4; try discriminate.
  destruct (get_ram_usage w t4) as [[[[rt ru] rp]|e|] t5] eqn:E5; try discriminate.
  destruct (get_disk_usage w "/" t5) as [[[[[dd dt] du] dp]|e|] t6] eqn:E6; try discriminate.
  destruct (get_network_activity w t6) as [[[bs br]|e|] t7] eqn:E7; try discriminate.
  unfold ret. intros H. inversion H; subst. simpl.
  exists t1, t2, t3, t4, t5, t6.
  rewrite E2, E3, E4, E5, E6, E7. repeat split; reflexivity.
Qed.

Lemma samples_take_snapshot (w : world) (t t1 t2 t3 t4 t5 t6 t7 : trace)
    (ip usage clock name rt ru rp dd dt du dp bs br : value) :
  sample w LocalIp t = (Ret [ip], t1) ->
  sample w CpuUsage t1 = (Ret [usage], t2) ->
  sample w CpuClock t2 = (Ret [clock], t3) ->
  sample w CpuName t3 = (Ret [name], t4) ->
  sample w Ram t4 = (Ret [rt; ru; rp], t5) ->
  sample w Disk t5 = (Ret [dd; dt; du; dp], t6) ->
  sample w Network t6 = (Ret [bs; br], t7) ->
  take_snapshot w t =
    (Ret (mkSnapshot ip usage clock name rt ru rp dd dt du dp bs br), t7).
Proof.
  unfold take_snapshot, sample, bind.
  destruct (get_local_ip w t) as [[x|e|] u1]; try discriminate.
  unfold ret at 1. intros H; inversion H; subst; clear H.
  destruct (get_cpu_usage w t1) as [[x|e|] u2]; try discriminate.
  unfold ret at 1. intros H; inversion H; subst; clear H.
  destruct (get_cpu_clock w t2) as [[x|e|] u3]; try discriminate.
  unfold ret at 1. intros H; inversion H; subst; clear H.
  destruct (get_cpu_name w t3) as [[x|e|] u4]; try discriminate.
  unfold ret at 1. intros H; inversion H; subst; clear H.
  destruct (get_ram_usage w t4) as [[[[x y] z]|e|] u5]; try discriminate.
  unfold ret at 1. intros H; inversion H; subst; clear H.
  destruct (get_disk_usage w "/" t5) as [[[[[x y] z] v]|e|] u6]; try discriminate.
  unfold ret at 1. intros H; inversion H; subst; clear H.
  destruct (get_network_activity w t6) as [[[x y]|e|] u7]; try discriminate.
  unfold ret at 1. intros H; inversion H; subst; clear H.
  reflexivity.
Qed.

(** In clisysmtr.py a failure in one category blanks that category and
    no other, and the snapshot is still taken. *)
Lemma snapshot_independence (w : world) (c : category) (e : exn)
    (t t' : trace) (s : snapshot) :
  is_Exception e = true ->
  hasattr_module w "socket" "error" = true ->
  take_snapshot w t = (Ret s, t') ->
  exists s' t'',
    take_snapshot (break_category c e w) t = (Ret s', t'') /\
    group c s' = absent c /\
    forall c', category_eqb c c' = false -> group c' s' = group c' s.
Proof.
  intros He Herr Hs.
  destruct (take_snapshot_samples w t t' s Hs)
    as (t1 & t2 & t3 & t4 & t5 & t6 & H1 & H2 & H3 & H4 & H5 & H6 & H7).
  destruct (sample_step c _ e w t t _ _ He Herr (similar_refl _ t) H1) as (u1 & K1 & S1).
  destruct (sample_step c _ e w _ _ _ _ He Herr S1 H2) as (u2 & K2 & S2).
  destruct (sample_step c _ e w _ _ _ _ He Herr S2 H3) as (u3 & K3 & S3).
  destruct (sample_step c _ e w _ _ _ _ He Herr S3 H4) as (u4 & K4 & S4).
  destruct (sample_step c _ e w _ _ _ _ He Herr S4 H5) as (u5 & K5 & S5).
  destruct (sample_step c _ e w _ _ _ _ He Herr S5 H6) as (u6 & K6 & S6).
  destruct (sample_step c _ e w _ _ _ _ He Herr S6 H7) as (u7 & K7 & S7).
  destruct c; cbn [category_eqb absent group] in K1, K2, K3, K4, K5, K6, K7;
    (eexists; exists u7; split;
     [ eapply samples_take_snapshot; eassumption
     | split; [reflexivity|];
       intros c' Hc'; destruct c'; try discriminate Hc'; reflexivity ]).
Qed.

(** ** sysmon.py: all or nothing *)

Lemma terminates_ret {X} (a : X) : terminates (ret a).
Proof. intros t. discriminate. Qed.

Lemma terminates_raise {X} (e : exn) : terminates (@raise X e).
Proof. intros t. discriminate. Qed.

Lemma terminates_lift {X} (r : result X) : terminates (lift r).
Proof. destruct r; [apply terminates_ret|apply terminates_raise]. Qed.

Lemma terminates_bind {X Y} (m : M X) (k : X -> M Y) :
  terminates m -> (forall a, terminates (k a)) -> terminates (bind m k).
Proof.
  intros Hm Hk t. unfold bind. pose proof (Hm t) as H.
  destruct (m t) as [[a|e|] ta]; simpl in H |- *.
  - apply Hk.
  - discriminate.
  - exfalso. apply H. reflexivity.
Qed.

Lemma terminates_call (w : world) (api : string) (args : list value) :
  terminates (call w api args).
Proof.
  intros t. unfold call.
  destruct (extern w api (count_calls api t) args); discriminate.
Qed.

Lemma terminates_getattr_module (w : world) (modname attr : string) :
  terminates (getattr_module w modname attr).
Proof.
  unfold getattr_module.
  destruct (hasattr_module w modname attr); [apply terminates_ret|apply terminates_raise].
Qed.

Lemma terminates_call_module (w : world) (modname attr : string) (args : list value) :
  terminates (call_module w modname attr args).
Proof.
  unfold call_module. apply terminates_bind.
  - apply terminates_getattr_module.
  - intros _. apply terminates_call.
Qed.

Lemma terminates_time_sleep (w : world) (secs : Z) :
  terminates (time_sleep w secs).
Proof.
  unfold time_sleep. apply terminates_bind.
  - apply terminates_getattr_module.
  - intros _. destruct (secs <? 0); [apply terminates_raise|].
    apply terminates_bind; [apply terminates_call|].
    intros _. apply terminates_ret.
Qed.

Ltac terminates_step :=
  first
    [ apply terminates_ret
    | apply terminates_raise
    | apply terminates_lift
    | apply terminates_call_module
    | apply terminates_time_sleep
    | apply terminates_bind; [|intros] ].

Lemma time_sleep_Ret_call (w : world) (secs : Z) (t t' : trace) (u : unit) :
  time_sleep w secs t = (Ret u, t') ->
  exists v, extern w "time.sleep" (count_calls "time.sleep" t) [VInt secs] = Ok v.
Proof.
  unfold time_sleep, getattr_module. intros H.
  apply bind_Ret_inv in H. destruct H as (a & t1 & Hg & Hc).
  destruct (hasattr_module w "time" "sleep"); unfold ret, raise in Hg; inversion Hg; subst.
  destruct (secs <? 0); [discriminate Hc|].
  apply bind_Ret_inv in Hc. destruct Hc as (v & t2 & Hcall & Hret).
  apply call_Ret_inv in Hcall. destruct Hcall as [Hx _].
  exists v. exact Hx.
Qed.

(** How [get_system_usage] can end: with a tuple, for which every one of
    its library calls has answered; with nine [None]; or with an exception
    that is not an [Exception] (an interrupt). *)
Lemma get_system_usage_cases (w : world) (t : trace) :
  (exists u, fst (get_system_usage w t) = Ret u /\
             forall api, In api sysmon_apis ->
                         exists k args v, extern w api k args = Ok v)
  \/ fst (get_system_usage w t) = Ret no_usage
  \/ (exists e, fst (get_system_usage w t) = Raise e /\ is_Exception e = false).
Proof.
  unfold get_system_usage, try_except.
  match goal with
  | |- context [match ?b t with _ => _ end] =>
      assert (Hterm : terminates b) by (repeat terminates_step);
      specialize (Hterm t);
      destruct (b t) as [[u0|e|] t0] eqn:Hbody
  end.
  - left. exists u0. split; [reflexivity|].
    repeat match type of Hbody with
           | bind _ _ _ = (Ret _, _) =>
               apply bind_Ret_inv in Hbody;
               let a := fresh "a" in let ta := fresh "ta" in let Ha := fresh "Ha" in
               destruct Hbody as (a & ta & Ha & Hbody)
           end.
    repeat match goal with
           | Hx : lift _ _ = (Ret _, _) |- _ =>
               apply lift_Ret_inv in Hx; destruct Hx as [Hx ->]
           | Hx : call_module _ _ _ _ _ = (Ret _, _) |- _ =>
               apply call_module_Ret_inv in Hx; destruct Hx as [Hx ->]
           | Hx : time_sleep _ _ _ = (Ret _, _) |- _ =>
               apply time_sleep_Ret_call in Hx; destruct Hx as [? Hx]
           end.
    simpl in *.
    intros api [<-|[<-|[<-|[<-|[<-|[]]]]]]; do 3 eexists; eassumption.
  - unfold except_Exception. destruct (is_Exception e) eqn:He.
    + right. left. reflexivity.
    + right. right. exists e. split; [reflexivity|exact He].
  - exfalso. apply Hterm. reflexivity.
Qed.

Lemma sysmon_all_or_nothing (w : world) (api : string) (e : exn) (t : trace) :
  In api sysmon_apis ->
  fst (get_system_usage (with_failure api e w) t) = Ret no_usage
  \/ exists e', fst (get_system_usage (with_failure api e w) t) = Raise e'
                /\ is_Exception e' = false.
Proof.
  intros Hin.
  destruct (get_system_usage_cases (with_failure api e w) t) as [(u & _ & H)|[H|H]].
  - exfalso. destruct (H api Hin) as (k & args & v & Hx).
    unfold with_failure in Hx. simpl in Hx.
    rewrite String.eqb_refl in Hx. discriminate Hx.
  - left. exact H.
  - right. exact H.
Qed.

(** ** No sampler lets an [Exception] out *)

Lemma try_except_absorbs {X} (b : M X) (h : exn -> M X) (t t' : trace) (e : exn) :
  (forall e0 t0, exists a t1, h e0 t0 = (Ret a, t1)) ->
  try_except b (except_Exception h) t = (Raise e, t') ->
  is_Exception e = false.
Proof.
  intros Hh. unfold try_except, except_Exception.
  destruct (b t) as [[a|e0|] t0]; try discriminate.
  destruct (is_Exception e0) eqn:E.
  - destruct (Hh e0 t0) as (a & t1 & ->). discriminate.
  - unfold raise. intros H. inversion H; subst. exact E.
Qed.

Lemma get_local_ip_absorbs (w : world) (t t' : trace) (e : exn) :
  hasattr_module w "socket" "error" = true ->
  get_local_ip w t = (Raise e, t') ->
  is_Exception e = false.
Proof.
  intros Herr. unfold get_local_ip, try_except.
  match goal with
  | |- context [match ?b t with _ => _ end] => destruct (b t) as [[a|e0|] t0]
  end; try discriminate.
  unfold bind. rewrite (getattr_module_present w "socket" "error" t0 Herr).
  destruct (is_socket_error e0); [discriminate|].
  destruct (is_Exception e0) eqn:E; [discriminate|].
  unfold raise. intros H. inversion H; subst. exact E.
Qed.

Lemma sample_absorbs (w : world) (c : category) (t t' : trace) (e : exn) :
  hasattr_module w "socket" "error" = true ->
  sample w c t = (Raise e, t') ->
  is_Exception e = false.
Proof.
  intros Herr. destruct c; unfold sample, bind.
  - destruct (get_local_ip w t) as [[a|e0|] t0] eqn:E; try discriminate.
    intros H. inversion H; subst. exact (get_local_ip_absorbs w t t' e Herr E).
  - destruct (get_cpu_usage w t) as [[a|e0|] t0] eqn:E; try discriminate.
    intros H. inversion H; subst. revert E. unfold get_cpu_usage.
    apply try_except_absorbs. intros; do 2 eexists; reflexivity.
  - destruct (get_cpu_clock w t) as [[a|e0|] t0] eqn:E; try discriminate.
    intros H. inversion H; subst. revert E. unfold get_cpu_clock.
    apply try_except_absorbs. intros; do 2 eexists; reflexivity.
  - destruct (get_cpu_name w t) as [[a|e0|] t0] eqn:E; try discriminate.
    intros H. inversion H; subst. revert E. unfold get_cpu_name.
    apply try_except_absorbs. intros; do 2 eexists; reflexivity.
  - destruct (get_ram_usage w t) as [[[[x y] z]|e0|] t0] eqn:E; try discriminate.
    intros H. inversion H; subst. revert E. unfold get_ram_usage.
    apply try_except_absorbs. intros; do 2 eexists; reflexivity.
  - destruct (get_disk_usage w "/" t) as [[[[[x y] z] v]|e0|] t0] eqn:E; try discriminate.
    intros H. inversion H; subst. revert E. unfold get_disk_usage.
    apply try_except_absorbs. intros; do 2 eexists; reflexivity.
  - destruct (get_network_activity w t) as [[[x y]|e0|] t0] eqn:E; try discriminate.
    intros H. inversion H; subst. revert E. unfold get_network_activity.
    apply try_except_absorbs. intros; do 2 eexists; reflexivity.
Qed.




(** ** The console never fails on resolved values *)

Lemma float_or_absent_cases (v : value) :
  float_or_absent v = true -> v = VNone \/ exists f, v = VFloat f.
Proof.
  destruct v; try discriminate; intros _; [left; reflexivity|right; eexists; reflexivity].
Qed.

Lemma console_cpu_clock_line (s : snapshot) (t : trace) :
  float_or_absent (cpu_clock s) = true ->
  exists l, console_cpu_clock s t = (Ret tt, (t ++ [EStdout l])%list).
Proof.
  intros H. unfold console_cpu_clock.
  destruct (float_or_absent_cases _ H) as [->|[f ->]]; simpl; eexists; reflexivity.
Qed.

Lemma console_ram_line (s : snapshot) (t : trace) :
  float_or_absent (ram_total s) = true ->
  float_or_absent (ram_used s) = true ->
  float_or_absent (ram_percent s) = true ->
  exists l, console_ram s t = (Ret tt, (t ++ [EStdout l])%list).
Proof.
  intros H1 H2 H3. unfold console_ram.
  destruct (float_or_absent_cases _ H1) as [->|[f1 ->]];
    destruct (float_or_absent_cases _ H2) as [->|[f2 ->]];
    destruct (float_or_absent_cases _ H3) as [->|[f3 ->]];
    simpl; eexists; reflexivity.
Qed.

Lemma console_disk_line (w : world) (s : snapshot) (t : trace) :
  float_or_absent (disk_total s) = true ->
  float_or_absent (disk_used s) = true ->
  float_or_absent (disk_percent s) = true ->
  exists l, console_disk w s t = (Ret tt, (t ++ [EStdout l])%list).
Proof.
  intros H1 H2 H3. unfold console_disk.
  destruct (truthy (disk_device s));
    destruct (float_or_absent_cases _ H1) as [->|[f1 ->]];
    destruct (float_or_absent_cases _ H2) as [->|[f2 ->]];
    destruct (float_or_absent_cases _ H3) as [->|[f3 ->]];
    simpl;
    repeat match goal with
           | |- context [is_zero ?f] => destruct (is_zero f); simpl
           end;
    eexists; reflexivity.
Qed.

(** For a snapshot whose measured quantities are absent or floats the
    console part returns normally after printing exactly seven lines, one
    per category. *)
Lemma render_console_total (w : world) (s : snapshot) (t : trace) :
  resolved s = true ->
  exists l1 l2 l3 l4 l5 l6 l7,
    render_console w s t =
      (Ret tt,
       (t ++ [EStdout l1; EStdout l2; EStdout l3; EStdout l4;
              EStdout l5; EStdout l6; EStdout l7])%list).
Proof.
  unfold resolved. rewrite !andb_true_iff.
  intros [[[[[[Hc Hrt] Hru] Hrp] Hdt] Hdu] Hdp].
  unfold render_console, bind.
  assert (H1 : exists l, console_ip w s t = (Ret tt, (t ++ [EStdout l])%list))
    by (unfold console_ip; destruct (truthy (ip_address s)); eexists; reflexivity).
  destruct H1 as [l1 ->].
  assert (H2 : forall t0, exists l, console_cpu_name w s t0 = (Ret tt, (t0 ++ [EStdout l])%list))
    by (intros; unfold console_cpu_name; destruct (truthy (cpu_name s)); eexists; reflexivity).
  destruct (H2 (t ++ [EStdout l1])%list) as [l2 ->].
  assert (H3 : forall t0, exists l, console_cpu_usage w s t0 = (Ret tt, (t0 ++ [EStdout l])%list))
    by (intros; unfold console_cpu_usage; destruct (is_not_None (cpu_usage s));
        eexists; reflexivity).
  destruct (H3 ((t ++ [EStdout l1]) ++ [EStdout l2])%list) as [l3 ->].
  match goal with
  | |- context [console_cpu_clock s ?t0] =>
      destruct (console_cpu_clock_line s t0 Hc) as [l4 ->]
  end.
  match goal with
  | |- context [console_ram s ?t0] =>
      destruct (console_ram_line s t0 Hrt Hru Hrp) as [l5 ->]
  end.
  match goal with
  | |- context [console_disk w s ?t0] =>
      destruct (console_disk_line w s t0 Hdt Hdu Hdp) as [l6 ->]
  end.
  assert (H7 : forall t0, exists l, console_network w s t0 = (Ret tt, (t0 ++ [EStdout l])%list))
    by (intros; unfold console_network;
        destruct (is_not_None (bytes_sent s) && is_not_None (bytes_recv s));
        eexists; reflexivity).
  match goal with |- context [console_network w s ?t0] => destruct (H7 t0) as [l7 ->] end.
  exists l1, l2, l3, l4, l5, l6, l7. rewrite <- !app_assoc. reflexivity.
Qed.


(** ** The shape of what the samplers return *)

Lemma getattr_error (v : value) (name : string) (e : exn) :
  getattr v name = Err e -> is_Exception e = true.
Proof.
  unfold getattr. destruct v; try (intros H; inversion H; reflexivity).
  destruct (lookup_field name fields); intros H; inversion H; reflexivity.
Qed.

Lemma index0_error (v : value) (e : exn) :
  index0 v = Err e -> is_Exception e = true.
Proof.
  unfold index0. destruct v; try (intros H; inversion H; reflexivity).
  - destruct s; intros H; inversion H; reflexivity.
  - destruct items; intros H; inversion H; reflexivity.
  - destruct fields as [|[k x] rest]; intros H; inversion H; reflexivity.
Qed.

Lemma truediv_error (v : value) (d : Z) (e : exn) :
  truediv v d = Err e -> is_Exception e = true.
Proof.
  unfold truediv. destruct v; try (intros H; inversion H; reflexivity).
  - destruct (round_double _ _ _); intros H; inversion H; reflexivity.
  - destruct (round_double _ _ _); intros H; inversion H; reflexivity.
Qed.

Lemma float_of_int_error (n : Z) (e : exn) :
  float_of_int n = Err e -> is_Exception e = true.
Proof.
  unfold float_of_int. destruct (of_Z n); intros H; inversion H; reflexivity.
Qed.

Lemma py_sub_error (a b : value) (e : exn) :
  py_sub a b = Err e -> is_Exception e = true.
Proof.
  unfold py_sub.
  destruct a, b; simpl;
    try (intros H; inversion H; reflexivity);
    try (match goal with
         | |- context [float_of_int ?n] =>
             destruct (float_of_int n) eqn:E;
             [discriminate | intros H; inversion H; subst; exact (float_of_int_error _ _ E)]
         end).
Qed.

Lemma format_spec_2f_error (v : value) (e : exn) :
  format_spec_2f v = Err e -> is_Exception e = true.
Proof.
  unfold format_spec_2f. destruct v; try (intros H; inversion H; reflexivity).
  - destruct (float_of_int (Z_of_bool b)) eqn:E; [discriminate|].
    intros H; inversion H; subst. exact (float_of_int_error _ _ E).
  - destruct (float_of_int n) eqn:E; [discriminate|].
    intros H; inversion H; subst. exact (float_of_int_error _ _ E).
Qed.

(** A true division gives a float. *)
Lemma truediv_float (v : value) (d : Z) (x : value) :
  truediv v d = Ok x -> exists f, x = VFloat f.
Proof.
  unfold truediv. destruct v; try discriminate.
  - destruct (round_double _ _ _) eqn:E; intros H; inversion H; eexists; reflexivity.
  - destruct (round_double _ _ _) eqn:E; intros H; inversion H; eexists; reflexivity.
  - intros H; inversion H; eexists; reflexivity.
Qed.

(** A difference is a number, never [None]. *)
Lemma py_sub_number (a b v : value) :
  py_sub a b = Ok v -> is_not_None v = true.
Proof.
  unfold py_sub.
  destruct a, b; simpl; try discriminate;
    try (intros H; inversion H; reflexivity);
    try (match goal with
         | |- context [float_of_int ?n] =>
             destruct (float_of_int n); intros H; inversion H; reflexivity
         end).
Qed.

Ltac invert_binds H :=
  repeat match type of H with
         | bind _ _ _ = (Ret _, _) =>
             apply bind_Ret_inv in H;
             let a := fresh "a" in let ta := fresh "ta" in let Ha := fresh "Ha" in
             destruct H as (a & ta & Ha & H)
         end;
  repeat match goal with
         | Hx : lift _ _ = (Ret _, _) |- _ =>
             apply lift_Ret_inv in Hx; destruct Hx as [Hx ->]
         end.

Lemma get_ram_usage_shape (w : world) (t t' : trace) (total used percent : value) :
  get_ram_usage w t = (Ret (total, used, percent), t') ->
  (total = VNone /\ used = VNone /\ percent = VNone)
  \/ exists ft fu, total = VFloat ft /\ used = VFloat fu.
Proof.
  unfold get_ram_usage, try_except.
  match goal with
  | |- context [match ?b t with _ => _ end] => destruct (b t) as [[r|e|] t0] eqn:Hbody
  end; try discriminate.
  - intros H. inversion H; subst. right.
    invert_binds Hbody. unfold ret in Hbody. inversion Hbody; subst.
    destruct (truediv_float _ _ _ Ha1) as [ft ->].
    destruct (truediv_float _ _ _ Ha3) as [fu ->].
    exists ft, fu. split; reflexivity.
  - unfold except_Exception. destruct (is_Exception e); [|discriminate].
    unfold bind, print, ret. intros H. inversion H. left. repeat split.
Qed.

Lemma get_disk_usage_shape (w : world) (path : string) (t t' : trace)
    (device total used percent : value) :
  get_disk_usage w path t = (Ret (device, total, used, percent), t') ->
  (device = VNone /\ total = VNone /\ used = VNone /\ percent = VNone)
  \/ exists ft fu, total = VFloat ft /\ used = VFloat fu.
Proof.
  unfold get_disk_usage, try_except.
  match goal with
  | |- context [match ?b t with _ => _ end] => destruct (b t) as [[r|e|] t0] eqn:Hbody
  end; try discriminate.
  - intros H. inversion H; subst. right.
    invert_binds Hbody. unfold ret in Hbody. inversion Hbody; subst.
    destruct (truediv_float _ _ _ Ha1) as [ft ->].
    destruct (truediv_float _ _ _ Ha3) as [fu ->].
    exists ft, fu. split; reflexivity.
  - unfold except_Exception. destruct (is_Exception e); [|discriminate].
    unfold bind, print, ret. intros H. inversion H. left. repeat split.
Qed.

Lemma get_network_activity_shape (w : world) (t t' : trace) (sent recv : value) :
  get_network_activity w t = (Ret (sent, recv), t') ->
  (sent = VNone /\ recv = VNone)
  \/ (is_not_None sent = true /\ is_not_None recv = true).
Proof.
  unfold get_network_activity, try_except.
  match goal with
  | |- context [match ?b t with _ => _ end] => destruct (b t) as [[r|e|] t0] eqn:Hbody
  end; try discriminate.
  - intros H. inversion H; subst. right.
    invert_binds Hbody. unfold ret in Hbody. inversion Hbody; subst.
    split; eapply py_sub_number; eassumption.
  - unfold except_Exception. destruct (is_Exception e); [|discriminate].
    unfold bind, print, ret. intros H. inversion H. left. repeat split.
Qed.

(** X1.  In every snapshot the RAM group is either absent as a whole or its
    two sizes are floats; the same holds for the disk group; and the two
    network rates are either both absent or both numbers. *)
Theorem snapshot_groups_shape (w : world) (t t' : trace) (s : snapshot) :
  take_snapshot w t = (Ret s, t') ->
  (group Ram s = absent Ram
   \/ exists ft fu, ram_total s = VFloat ft /\ ram_used s = VFloat fu)
  /\
  (group Disk s = absent Disk
   \/ exists ft fu, disk_total s = VFloat ft /\ disk_used s = VFloat fu)
  /\
  (group Network s = absent Network
   \/ (is_not_None (bytes_sent s) = true /\ is_not_None (bytes_recv s) = true)).
Proof.
  unfold take_snapshot, bind.
  destruct (get_local_ip w t) as [[ip|e|] t1]; try discriminate.
  destruct (get_cpu_usage w t1) as [[usage|e|] t2]; try discriminate.
  destruct (get_cpu_clock w t2) as [[clock|e|] t3]; try discriminate.
  destruct (get_cpu_name w t3) as [[name|e|] t4]; try discriminate.
  destruct (get_ram_usage w t4) as [[[[rt ru] rp]|e|] t5] eqn:Eram; try discriminate.
  destruct (get_disk_usage w "/" t5) as [[[[[dd dt] du] dp]|e|] t6] eqn:Edisk;
    try discriminate.
  destruct (get_network_activity w t6) as [[[bs br]|e|] t7] eqn:Enet; try discriminate.
  unfold ret. intros H. inversion H; subst. simpl.
  split; [|split].
  - destruct (get_ram_usage_shape _ _ _ _ _ _ Eram) as [(-> & -> & ->)|Hf];
      [left; reflexivity|right; exact Hf].
  - destruct (get_disk_usage_shape _ _ _ _ _ _ _ _ Edisk) as [(-> & -> & -> & ->)|Hf];
      [left; reflexivity|right; exact Hf].
  - destruct (get_network_activity_shape _ _ _ _ _ Enet) as [(-> & ->)|Hf];
      [left; reflexivity|right; exact Hf].
Qed.

Lemma snapshot_groups_shape_witness :
  exists s t',
    take_snapshot no_ram_world [] = (Ret s, t') /\
    group Ram s = absent Ram /\
    (exists ft fu, disk_total s = VFloat ft /\ disk_used s = VFloat fu) /\
    is_not_None (bytes_sent s) = true.
Proof.
  exists (mkSnapshot (VStr "192.168.1.7") (flt 125 (-1)) (flt 2400 0)
            (VStr "Example CPU @ 2.40GHz") VNone VNone VNone
            (VStr "/dev/sda1") (flt 500 0) (flt 125 0) (flt 250 (-1))
            (VInt 500) (VInt 600)).
  exists (snd (take_snapshot no_ram_world [])).
  assert (E : take_snapshot no_ram_world [] =
              (Ret (mkSnapshot (VStr "192.168.1.7") (flt 125 (-1)) (flt 2400 0)
                      (VStr "Example CPU @ 2.40GHz") VNone VNone VNone
                      (VStr "/dev/sda1") (flt 500 0) (flt 125 0) (flt 250 (-1))
                      (VInt 500) (VInt 600)),
               snd (take_snapshot no_ram_world [])))
    by (vm_compute; reflexivity).
  pose proof (snapshot_groups_shape no_ram_world [] _ _ E) as (Hram & Hdisk & Hnet).
  split; [exact E|].
  split; [reflexivity|].
  split.
  - destruct Hdisk as [Hd|Hd]; [discriminate Hd|exact Hd].
  - reflexivity.
Defined.

(** ** How often a snapshot queries the library *)

Lemma count_try_call {X} (w : world) (modname attr : string) (args : list value)
    (k : value -> M X) (h : exn -> M X) (api : string) (t : trace) :
  (forall v, touches_only no_api (k v)) ->
  (forall e, touches_only no_api (h e)) ->
  count_calls api (snd (try_except (bind (call_module w modname attr args) k) h t)) =
    (count_calls api t
     + (if hasattr_module w modname attr && String.eqb (modname ++ "." ++ attr) api
        then 1 else 0))%nat.
Proof.
  intros Hk Hh.
  unfold try_except, call_module, getattr_module, call, bind.
  destruct (hasattr_module w modname attr); unfold ret, raise; cbv beta iota.
  - assert (Hc : count_calls api (t ++ [ECall (modname ++ "." ++ attr) args])%list =
                 (count_calls api t
                  + (if String.eqb (modname ++ "." ++ attr) api then 1 else 0))%nat).
    { rewrite count_calls_app. unfold count_calls at 2. simpl.
      match goal with
      | |- context [String.eqb ?a ?b] => destruct (String.eqb a b)
      end; reflexivity. }
    match goal with
    | |- context [extern w ?a ?n ?x] => destruct (extern w a n x) as [v|e]
    end; simpl.
    + pose proof (Hk v (t ++ [ECall (modname ++ "." ++ attr) args])%list api eq_refl) as H.
      destruct (k v _) as [[a|e|] t1]; simpl in H |- *.
      * rewrite H. exact Hc.
      * rewrite (Hh e t1 api eq_refl), H. exact Hc.
      * rewrite H. exact Hc.
    + rewrite (Hh e _ api eq_refl). exact Hc.
  - rewrite (Hh _ t api eq_refl). simpl. lia.
Qed.

Lemma count_try_call_plain (w : world) (modname attr : string) (args : list value)
    (h : exn -> M value) (api : string) (t : trace) :
  (forall e, touches_only no_api (h e)) ->
  count_calls api (snd (try_except (call_module w modname attr args) h t)) =
    (count_calls api t
     + (if hasattr_module w modname attr && String.eqb (modname ++ "." ++ attr) api
        then 1 else 0))%nat.
Proof.
  intros Hh.
  pose proof (count_try_call w modname attr args ret h api t
                (fun v => touches_ret no_api v) Hh) as H.
  unfold try_except, bind in H |- *.
  destruct (call_module w modname attr args t) as [[a|e|] t1]; exact H.
Qed.

Lemma sample_own_count (w : world) (c : category) (t : trace) :
  single_query c = true ->
  count_calls (fst (acquisition c)) (snd (sample w c t)) =
    (count_calls (fst (acquisition c)) t + (if resolves w c then 1 else 0))%nat.
Proof.
  intros Hc.
  destruct c; try discriminate Hc; unfold resolves; simpl forallb; rewrite andb_true_r;
    simpl fst.
  - assert (H : count_calls "psutil.cpu_percent" (snd (get_cpu_usage w t)) =
                (count_calls "psutil.cpu_percent" t
                 + (if hasattr_module w "psutil" "cpu_percent" then 1 else 0))%nat).
    { unfold get_cpu_usage.
      rewrite count_try_call_plain; [simpl; rewrite andb_true_r; reflexivity|];
        intros; repeat touches_step. }
    unfold sample, bind. destruct (get_cpu_usage w t) as [[a|e|] t1]; exact H.
  - assert (H : count_calls "psutil.cpu_freq" (snd (get_cpu_clock w t)) =
                (count_calls "psutil.cpu_freq" t
                 + (if hasattr_module w "psutil" "cpu_freq" then 1 else 0))%nat).
    { unfold get_cpu_clock.
      destruct (hasattr_module w "psutil" "cpu_freq") eqn:Hattr.
      + rewrite count_try_call; [rewrite Hattr; simpl; reflexivity| |];
          intros; repeat touches_step.
      + unfold try_except, ret. simpl. lia. }
    unfold sample, bind. destruct (get_cpu_clock w t) as [[a|e|] t1]; exact H.
  - assert (H : count_calls "psutil.cpu_info" (snd (get_cpu_name w t)) =
                (count_calls "psutil.cpu_info" t
                 + (if hasattr_module w "psutil" "cpu_info" then 1 else 0))%nat).
    { unfold get_cpu_name.
      rewrite count_try_call; [simpl; rewrite andb_true_r; reflexivity| |];
        intros; repeat touches_step. }
    unfold sample, bind. destruct (get_cpu_name w t) as [[a|e|] t1]; exact H.
  - assert (H : count_calls "psutil.virtual_memory" (snd (get_ram_usage w t)) =
                (count_calls "psutil.virtual_memory" t
                 + (if hasattr_module w "psutil" "virtual_memory" then 1 else 0))%nat).
    { unfold get_ram_usage.
      rewrite count_try_call; [simpl; rewrite andb_true_r; reflexivity| |];
        intros; repeat touches_step. }
    unfold sample, bind. destruct (get_ram_usage w t) as [[[[x y] z]|e|] t1]; exact H.
  - assert (H : count_calls "psutil.disk_usage" (snd (get_disk_usage w "/" t)) =
                (count_calls "psutil.disk_usage" t
                 + (if hasattr_module w "psutil" "disk_usage" then 1 else 0))%nat).
    { unfold get_disk_usage.
      rewrite count_try_call; [simpl; rewrite andb_true_r; reflexivity| |];
        intros; repeat touches_step. }
    unfold sample, bind.
    destruct (get_disk_usage w "/" t) as [[[[[x y] z] v]|e|] t1]; exact H.
Qed.

(** X2.  Taking a snapshot queries the library exactly once for each of CPU
    usage, CPU clock, CPU name, RAM and disk when psutil defines the
    function, and never when it does not, whatever the queries answer. *)
Theorem snapshot_queries_once (w : world) (c : category) (t t' : trace) (s : snapshot) :
  single_query c = true ->
  take_snapshot w t = (Ret s, t') ->
  count_calls (fst (acquisition c)) t' =
    (count_calls (fst (acquisition c)) t + (if resolves w c then 1 else 0))%nat.
Proof.
  intros Hc Hs.
  destruct (take_snapshot_samples w t t' s Hs)
    as (t1 & t2 & t3 & t4 & t5 & t6 & H1 & H2 & H3 & H4 & H5 & H6 & H7).
  pose proof (sample_own_count w c) as Hown.
  assert (Hother : forall c' ta tb g,
             category_eqb c c' = false ->
             sample w c' ta = (Ret g, tb) ->
             count_calls (fst (acquisition c)) tb = count_calls (fst (acquisition c)) ta).
  { intros c' ta tb g Hne Hsample.
    pose proof (touches_sample c' w ta (fst (acquisition c))) as Ht.
    rewrite Hsample in Ht. simpl in Ht. apply Ht.
    destruct c, c'; try discriminate Hc; try discriminate Hne; reflexivity. }
  destruct c; try discriminate Hc.
  - pose proof (Hown t1 eq_refl) as Ho. rewrite H2 in Ho. simpl snd in Ho.
    rewrite (Hother Network _ _ _ eq_refl H7), (Hother Disk _ _ _ eq_refl H6),
      (Hother Ram _ _ _ eq_refl H5), (Hother CpuName _ _ _ eq_refl H4),
      (Hother CpuClock _ _ _ eq_refl H3), Ho, (Hother LocalIp _ _ _ eq_refl H1). reflexivity.
  - pose proof (Hown t2 eq_refl) as Ho. rewrite H3 in Ho. simpl snd in Ho.
    rewrite (Hother Network _ _ _ eq_refl H7), (Hother Disk _ _ _ eq_refl H6),
      (Hother Ram _ _ _ eq_refl H5), (Hother CpuName _ _ _ eq_refl H4), Ho,
      (Hother CpuUsage _ _ _ eq_refl H2), (Hother LocalIp _ _ _ eq_refl H1). reflexivity.
  - pose proof (Hown t3 eq_refl) as Ho. rewrite H4 in Ho. simpl snd in Ho.
    rewrite (Hother Network _ _ _ eq_refl H7), (Hother Disk _ _ _ eq_refl H6),
      (Hother Ram _ _ _ eq_refl H5), Ho, (Hother CpuClock _ _ _ eq_refl H3),
      (Hother CpuUsage _ _ _ eq_refl H2), (Hother LocalIp _ _ _ eq_refl H1). reflexivity.
  - pose proof (Hown t4 eq_refl) as Ho. rewrite H5 in Ho. simpl snd in Ho.
    rewrite (Hother Network _ _ _ eq_refl H7), (Hother Disk _ _ _ eq_refl H6), Ho,
      (Hother CpuName _ _ _ eq_refl H4), (Hother CpuClock _ _ _ eq_refl H3),
      (Hother CpuUsage _ _ _ eq_refl H2), (Hother LocalIp _ _ _ eq_refl H1). reflexivity.
  - pose proof (Hown t5 eq_refl) as Ho. rewrite H6 in Ho. simpl snd in Ho.
    rewrite (Hother Network _ _ _ eq_refl H7), Ho, (Hother Ram _ _ _ eq_refl H5),
      (Hother CpuName _ _ _ eq_refl H4), (Hother CpuClock _ _ _ eq_refl H3),
      (Hother CpuUsage _ _ _ eq_refl H2), (Hother LocalIp _ _ _ eq_refl H1). reflexivity.
Qed.

Lemma snapshot_queries_once_witness :
  count_calls "psutil.disk_usage" (snd (take_snapshot std_world [])) = 1%nat /\
  count_calls "psutil.cpu_info" (snd (take_snapshot std_world [])) = 0%nat.
Proof.
  assert (E : take_snapshot std_world [] =
              (Ret (mkSnapshot VNone (flt 125 (-1)) (flt 2400 0) VNone
                      (flt 16 0) (flt 8 0) (flt 500 (-1)) VNone VNone VNone VNone
                      (VInt 500) (VInt 600)),
               snd (take_snapshot std_world [])))
    by (vm_compute; reflexivity).
  split.
  - exact (snapshot_queries_once std_world Disk [] _ _ eq_refl E).
  - exact (snapshot_queries_once std_world CpuName [] _ _ eq_refl E).
Defined.

(** ** The local address when the names resolve *)

(** X3.  When the socket module defines the names the function reads and
    the four socket calls answer, [get_local_ip] creates one socket,
    connects it to 8.8.8.8 port 80, returns the first component of
    [getsockname()] and closes the socket, in this order and with no other
    call or output. *)
Theorem get_local_ip_success (w : world) (t : trace)
    (sock r1 sockname ip r2 : value) :
  hasattr_module w "socket" "socket" = true ->
  hasattr_module w "socket" "af_inet" = true ->
  hasattr_module w "socket" "sock_dgram" = true ->
  extern w "socket.socket" (count_calls "socket.socket" t) socket_args = Ok sock ->
  extern w "socket.socket.connect" (count_calls "socket.socket.connect" t)
    [sock; google_dns] = Ok r1 ->
  extern w "socket.socket.getsockname" (count_calls "socket.socket.getsockname" t)
    [sock] = Ok sockname ->
  index0 sockname = Ok ip ->
  extern w "socket.socket.close" (count_calls "socket.socket.close" t) [sock] = Ok r2 ->
  get_local_ip w t =
    (Ret ip,
     (t ++ [ECall "socket.socket" socket_args;
            ECall "socket.socket.connect" [sock; google_dns];
            ECall "socket.socket.getsockname" [sock];
            ECall "socket.socket.close" [sock]])%list).
Proof.
  intros H1 H2 H3 Hs Hc Hg Hi Hcl.
  unfold socket_args, google_dns in *.
  unfold get_local_ip, try_except, bind.
  rewrite (getattr_module_present w _ _ t H1), (getattr_module_present w _ _ t H2),
    (getattr_module_present w _ _ t H3).
  simpl. rewrite (call_ok w "socket.socket" _ t sock Hs).
  rewrite (call_ok w "socket.socket.connect" _ _ r1).
  2:{ rewrite count_calls_snoc_other by reflexivity. exact Hc. }
  rewrite (call_ok w "socket.socket.getsockname" _ _ sockname).
  2:{ rewrite !count_calls_snoc_other by reflexivity. exact Hg. }
  rewrite Hi. simpl lift. unfold ret at 1.
  rewrite (call_ok w "socket.socket.close" _ _ r2).
  2:{ rewrite !count_calls_snoc_other by reflexivity. exact Hcl. }
  unfold ret. rewrite <- !app_assoc. reflexivity.
Qed.

Lemma get_local_ip_success_witness :
  get_local_ip mock_world [] =
    (Ret (VStr "192.168.1.7"),
     [ECall "socket.socket" socket_args;
      ECall "socket.socket.connect" [VOpaque "socket"; google_dns];
      ECall "socket.socket.getsockname" [VOpaque "socket"];
      ECall "socket.socket.close" [VOpaque "socket"]]).
Proof.
  exact (get_local_ip_success mock_world [] (VOpaque "socket") VNone
           (VTuple [VStr "192.168.1.7"; VInt 54321]) (VStr "192.168.1.7") VNone
           eq_refl eq_refl eq_refl eq_refl eq_refl eq_refl eq_refl eq_refl).
Defined.

(** X4.  When the connection or the address query fails after the socket
    was created, [get_local_ip] reports the error and returns [None], and
    the socket is never closed: [s.close()] is only on the success path. *)
Theorem get_local_ip_leaves_socket_open (w : world) (t : trace) (sock : value) (e : exn) :
  is_Exception e = true ->
  resolves w LocalIp = true ->
  extern w "socket.socket" (count_calls "socket.socket" t) socket_args = Ok sock ->
  (extern w "socket.socket.connect" (count_calls "socket.socket.connect" t)
     [sock; google_dns] = Err e ->
   get_local_ip w t =
     (Ret VNone,
      (t ++ [ECall "socket.socket" socket_args;
             ECall "socket.socket.connect" [sock; google_dns];
             EStdout (failure_line LocalIp e)])%list))
  /\
  (forall r1,
      extern w "socket.socket.connect" (count_calls "socket.socket.connect" t)
        [sock; google_dns] = Ok r1 ->
      extern w "socket.socket.getsockname" (count_calls "socket.socket.getsockname" t)
        [sock] = Err e ->
      get_local_ip w t =
        (Ret VNone,
         (t ++ [ECall "socket.socket" socket_args;
                ECall "socket.socket.connect" [sock; google_dns];
                ECall "socket.socket.getsockname" [sock];
                EStdout (failure_line LocalIp e)])%list)).
Proof.
  intros He Hr Hs.
  pose proof (resolves_spec w LocalIp Hr) as Hl. simpl in Hl.
  assert (H1 : hasattr_module w "socket" "socket" = true) by (apply Hl; auto).
  assert (H2 : hasattr_module w "socket" "af_inet" = true) by (apply Hl; auto).
  assert (H3 : hasattr_module w "socket" "sock_dgram" = true) by (apply Hl; auto).
  assert (H4 : hasattr_module w "socket" "error" = true) by (apply Hl; auto 6).
  unfold socket_args, google_dns in *.
  split.
  - intros Hc.
    unfold get_local_ip, try_except, bind.
    rewrite (getattr_module_present w _ _ t H1), (getattr_module_present w _ _ t H2),
      (getattr_module_present w _ _ t H3).
    simpl. rewrite (call_ok w "socket.socket" _ t sock Hs).
    rewrite (call_err w "socket.socket.connect" _ _ e).
    2:{ rewrite count_calls_snoc_other by reflexivity. exact Hc. }
    rewrite (getattr_module_present w "socket" "error" _ H4).
    destruct (is_socket_error e); [|rewrite He];
      unfold print, ret; rewrite <- !app_assoc; reflexivity.
  - intros r1 Hc Hg.
    unfold get_local_ip, try_except, bind.
    rewrite (getattr_module_present w _ _ t H1), (getattr_module_present w _ _ t H2),
      (getattr_module_present w _ _ t H3).
    simpl. rewrite (call_ok w "socket.socket" _ t sock Hs).
    rewrite (call_ok w "socket.socket.connect" _ _ r1).
    2:{ rewrite count_calls_snoc_other by reflexivity. exact Hc. }
    rewrite (call_err w "socket.socket.getsockname" _ _ e).
    2:{ rewrite !count_calls_snoc_other by reflexivity. exact Hg. }
    rewrite (getattr_module_present w "socket" "error" _ H4).
    destruct (is_socket_error e); [|rewrite He];
      unfold print, ret; rewrite <- !app_assoc; reflexivity.
Qed.

Lemma get_local_ip_leaves_socket_open_witness :
  get_local_ip unreachable_world [] =
    (Ret VNone,
     [ECall "socket.socket" socket_args;
      ECall "socket.socket.connect" [VOpaque "socket"; google_dns];
      EStdout "error getting local ip: [Errno 101] Network is unreachable"]) /\
  count_calls "socket.socket.close" (snd (get_local_ip unreachable_world [])) = 0%nat.
Proof.
  pose proof (proj1 (get_local_ip_leaves_socket_open unreachable_world []
                       (VOpaque "socket")
                       (Exn OSError "[Errno 101] Network is unreachable")
                       eq_refl eq_refl eq_refl) eq_refl) as H.
  split; [exact H|]. rewrite H. reflexivity.
Defined.

(** ** The disk sampler and the device field *)

(** X5.  [get_disk_usage] reads [disk.device] from what [psutil.disk_usage]
    returns.  Whenever that object has no such field (psutil's result has
    total, used, free and percent only) the sampler returns four [None],
    whatever the sizes are, after one query and one printed error. *)
Theorem get_disk_usage_without_device (w : world) (path : string) (t : trace)
    (disk : value) (e0 : exn) :
  hasattr_module w "psutil" "disk_usage" = true ->
  extern w "psutil.disk_usage" (count_calls "psutil.disk_usage" t) [VStr path] = Ok disk ->
  getattr disk "device" = Err e0 ->
  exists msg,
    get_disk_usage w path t =
      (Ret (VNone, VNone, VNone, VNone),
       (t ++ [ECall "psutil.disk_usage" [VStr path];
              EStdout ("error getting disk usage for " ++ path ++ ": " ++ msg)])%list).
Proof.
  intros Ha Hc Hd.
  unfold get_disk_usage.
  match goal with
  | |- context [try_except ?b ?h] =>
      assert (Hbody : exists e,
                 b t = (Raise e, (t ++ [ECall "psutil.disk_usage" [VStr path]])%list)
                 /\ is_Exception e = true)
  end.
  { unfold bind.
    rewrite (call_module_ok w "psutil" "disk_usage" _ t disk Ha Hc).
    destruct (getattr disk "total") as [v1|e] eqn:E1; simpl lift;
      [|exists e; split; [reflexivity|exact (getattr_error _ _ _ E1)]].
    unfold ret at 1.
    destruct (truediv v1 GB) as [v2|e] eqn:E2; simpl lift;
      [|exists e; split; [reflexivity|exact (truediv_error _ _ _ E2)]].
    unfold ret at 1.
    destruct (getattr disk "used") as [v3|e] eqn:E3; simpl lift;
      [|exists e; split; [reflexivity|exact (getattr_error _ _ _ E3)]].
    unfold ret at 1.
    destruct (truediv v3 GB) as [v4|e] eqn:E4; simpl lift;
      [|exists e; split; [reflexivity|exact (truediv_error _ _ _ E4)]].
    unfold ret at 1.
    destruct (getattr disk "percent") as [v5|e] eqn:E5; simpl lift;
      [|exists e; split; [reflexivity|exact (getattr_error _ _ _ E5)]].
    unfold ret at 1. rewrite Hd. simpl lift.
    exists e0. split; [reflexivity|exact (getattr_error _ _ _ Hd)]. }
  destruct Hbody as (e & Hb & He).
  exists (exn_str e). unfold try_except. rewrite Hb.
  unfold except_Exception. rewrite He.
  unfold bind, print, ret. rewrite <- app_assoc. reflexivity.
Qed.

Lemma get_disk_usage_without_device_witness :
  exists msg,
    get_disk_usage std_world "/" [] =
      (Ret (VNone, VNone, VNone, VNone),
       [ECall "psutil.disk_usage" [VStr "/"];
        EStdout ("error getting disk usage for /: " ++ msg)]).
Proof.
  exact (get_disk_usage_without_device std_world "/" [] sdiskusage
           (Exn AttributeError "'sdiskusage' object has no attribute 'device'")
           eq_refl eq_refl eq_refl).
Defined.

(** ** The CPU clock *)

(** X6.  [get_cpu_clock] has two ways of being absent.  When psutil has no
    [cpu_freq] it returns [None] without any call or output; when
    [cpu_freq()] itself returns [None] the attribute access fails and the
    sampler returns [None] after printing the error.  Otherwise it returns
    the [current] field as it is. *)
Theorem get_cpu_clock_paths (w : world) (t : trace) :
  (hasattr_module w "psutil" "cpu_freq" = false ->
   get_cpu_clock w t = (Ret VNone, t))
  /\
  (hasattr_module w "psutil" "cpu_freq" = true ->
   extern w "psutil.cpu_freq" (count_calls "psutil.cpu_freq" t) [] = Ok VNone ->
   get_cpu_clock w t =
     (Ret VNone,
      (t ++ [ECall "psutil.cpu_freq" [];
             EStdout "error getting cpu clock speed: 'NoneType' object has no attribute 'current'"])%list))
  /\
  (forall freq current,
      hasattr_module w "psutil" "cpu_freq" = true ->
      extern w "psutil.cpu_freq" (count_calls "psutil.cpu_freq" t) [] = Ok freq ->
      getattr freq "current" = Ok current ->
      get_cpu_clock w t = (Ret current, (t ++ [ECall "psutil.cpu_freq" []])%list)).
Proof.
  split; [|split].
  - intros Ha. unfold get_cpu_clock, try_except. rewrite Ha. reflexivity.
  - intros Ha Hc. unfold get_cpu_clock, try_except, bind. rewrite Ha.
    rewrite (call_module_ok w "psutil" "cpu_freq" [] t VNone Ha Hc).
    cbn [getattr lift type_name is_Exception except_Exception raise].
    unfold bind, print, ret. rewrite <- app_assoc. reflexivity.
  - intros freq current Ha Hc Hg. unfold get_cpu_clock, try_except, bind. rewrite Ha.
    rewrite (call_module_ok w "psutil" "cpu_freq" [] t freq Ha Hc).
    rewrite Hg. reflexivity.
Qed.

Lemma get_cpu_clock_paths_witness :
  get_cpu_clock old_psutil_world [] = (Ret VNone, []) /\
  get_cpu_clock no_freq_world [] =
    (Ret VNone,
     [ECall "psutil.cpu_freq" [];
      EStdout "error getting cpu clock speed: 'NoneType' object has no attribute 'current'"]) /\
  get_cpu_clock std_world [] = (Ret (flt 2400 0), [ECall "psutil.cpu_freq" []]).
Proof.
  split; [|split].
  - exact (proj1 (get_cpu_clock_paths old_psutil_world []) eq_refl).
  - exact (proj1 (proj2 (get_cpu_clock_paths no_freq_world [])) eq_refl eq_refl).
  - exact (proj2 (proj2 (get_cpu_clock_paths std_world []))
             (VObj "scpufreq" [("current", flt 2400 0); ("min", flt 800 0);
                               ("max", flt 3600 0)])
             (flt 2400 0) eq_refl eq_refl eq_refl).
Defined.

(** ** Which exceptions can come out *)

Lemma Exception_not_exit (e : exn) : is_Exception e = true -> not_exit e = true.
Proof. destruct e; [reflexivity|discriminate]. Qed.

Section Raises.

Variable w : world.
Hypothesis Hquiet : library_never_exits w.

Lemma raises_ret {X} (a : X) : raises_only not_exit (ret a).
Proof. intros t e t' H. discriminate H. Qed.

Lemma raises_raise {X} (e : exn) :
  not_exit e = true -> raises_only not_exit (@raise X e).
Proof. intros He t e' t' H. inversion H; subst. exact He. Qed.

Lemma raises_lift {X} (r : result X) :
  (forall e, r = Err e -> is_Exception e = true) ->
  raises_only not_exit (lift r).
Proof.
  intros Hr. destruct r as [a|e]; [apply raises_ret|].
  apply raises_raise. apply Exception_not_exit. apply Hr. reflexivity.
Qed.

Lemma raises_print (s : string) : raises_only not_exit (print s).
Proof. intros t e t' H. discriminate H. Qed.

Lemma raises_bind {X Y} (m : M X) (k : X -> M Y) :
  raises_only not_exit m ->
  (forall a, raises_only not_exit (k a)) ->
  raises_only not_exit (bind m k).
Proof.
  intros Hm Hk t e t'. unfold bind.
  destruct (m t) as [[a|e0|] t0] eqn:E.
  - apply Hk.
  - intros H. inversion H; subst. exact (Hm t e t' E).
  - discriminate.
Qed.

Lemma raises_try_except {X} (b : M X) (h : exn -> M X) :
  raises_only not_exit b ->
  (forall e, not_exit e = true -> raises_only not_exit (h e)) ->
  raises_only not_exit (try_except b h).
Proof.
  intros Hb Hh t e t'. unfold try_except.
  destruct (b t) as [[a|e0|] t0] eqn:E; try discriminate.
  apply Hh. exact (Hb t e0 t0 E).
Qed.

Lemma raises_except_Exception {X} (h : exn -> M X) (e : exn) :
  (forall e0, raises_only not_exit (h e0)) ->
  not_exit e = true ->
  raises_only not_exit (except_Exception h e).
Proof.
  intros Hh He. unfold except_Exception.
  destruct (is_Exception e); [apply Hh|apply raises_raise; exact He].
Qed.

Lemma raises_try_finally {X} (b : M X) (c : M unit) :
  raises_only not_exit b ->
  raises_only not_exit c ->
  raises_only not_exit (try_finally b c).
Proof.
  intros Hb Hc t e t'. unfold try_finally.
  destruct (b t) as [[a|e0|] t0] eqn:E; try discriminate.
  - apply raises_bind; [exact Hc|intros; apply raises_ret].
  - apply raises_bind; [exact Hc|].
    intros _. apply raises_raise. exact (Hb t e0 t0 E).
Qed.

Lemma raises_while_true (body : M unit) (n : nat) :
  raises_only not_exit body ->
  raises_only not_exit (while_true n body).
Proof.
  intros Hb. induction n as [|n IH]; simpl.
  - intros t e t' H. discriminate H.
  - apply raises_bind; [exact Hb|intros _; exact IH].
Qed.

Lemma raises_call (api : string) (args : list value) :
  raises_only not_exit (call w api args).
Proof.
  intros t e t'. unfold call.
  destruct (extern w api (count_calls api t) args) as [v|e0] eqn:E; try discriminate.
  intros H. inversion H; subst. exact (Hquiet _ _ _ _ E).
Qed.

Lemma raises_getattr_module (modname attr : string) :
  raises_only not_exit (getattr_module w modname attr).
Proof.
  unfold getattr_module.
  destruct (hasattr_module w modname attr); [apply raises_ret|].
  apply raises_raise. reflexivity.
Qed.

Lemma raises_call_module (modname attr : string) (args : list value) :
  raises_only not_exit (call_module w modname attr args).
Proof.
  unfold call_module. apply raises_bind.
  - apply raises_getattr_module.
  - intros _. apply raises_call.
Qed.

Lemma raises_time_sleep (secs : Z) : raises_only not_exit (time_sleep w secs).
Proof.
  unfold time_sleep. apply raises_bind; [apply raises_getattr_module|].
  intros _. destruct (secs <? 0); [apply raises_raise; reflexivity|].
  apply raises_bind; [apply raises_call|intros _; apply raises_ret].
Qed.

Lemma raises_f2 (v : value) : raises_only not_exit (f2 v).
Proof. unfold f2. apply raises_lift. apply format_spec_2f_error. Qed.

End Raises.

Ltac raises_step Hq :=
  first
    [ apply raises_ret
    | apply raises_print
    | apply raises_f2
    | apply (raises_call_module _ Hq)
    | apply (raises_call _ Hq)
    | apply (raises_time_sleep _ Hq)
    | apply raises_getattr_module
    | apply raises_lift; first [ apply getattr_error | apply index0_error
                               | apply truediv_error | apply py_sub_error ]
    | apply raises_raise; assumption
    | apply raises_except_Exception; [intros|assumption]
    | apply raises_try_except; [|intros]
    | apply raises_try_finally
    | apply raises_bind; [|intros]
    | match goal with
      | |- raises_only _ (if ?b then _ else _) => destruct b
      | |- raises_only _ (match ?o with Some _ => _ | None => _ end) => destruct o
      | |- raises_only _ (let '(x, y) := ?p in _) => destruct p
      end ].

Lemma raises_display_system_info (w : world) (args : arguments) :
  library_never_exits w ->
  raises_only not_exit (display_system_info w args).
Proof.
  intros Hq.
  unfold display_system_info, take_snapshot, render_console, render_log, log_line,
    console_ip, console_cpu_name, console_cpu_usage, console_cpu_clock, console_ram,
    console_disk, console_network, now_strftime, append_file,
    get_local_ip, get_cpu_usage, get_cpu_clock, get_cpu_name,
    get_ram_usage, get_disk_usage, get_network_activity.
  repeat raises_step Hq.
Qed.

Lemma raises_log_system_usage (w : world) (log_file : string) :
  library_never_exits w ->
  raises_only not_exit (log_system_usage w log_file).
Proof.
  intros Hq.
  unfold log_system_usage, get_system_usage, now_strftime, append_file.
  repeat raises_step Hq.
Qed.

Lemma while_true_never_returns (body : M unit) (n : nat) :
  forall t a t', while_true n body t <> (Ret a, t').
Proof.
  induction n as [|n IH]; intros t a t'; simpl.
  - discriminate.
  - unfold bind. destruct (body t) as [[u|e|] t0]; try discriminate. apply IH.
Qed.

Lemma assoc_In {A} (key : string) (table : list (string * A)) (a : A) :
  assoc key table = Some a -> In (key, a) table.
Proof.
  induction table as [|[k x] rest IH]; simpl; [discriminate|].
  destruct (String.eqb_spec k key) as [->|_].
  - intros H. inversion H. left. reflexivity.
  - intros H. right. apply IH. exact H.
Qed.

Lemma extern_of_never_exits (attrs : string -> list string)
    (calls : list (string * (nat -> list value -> result value)))
    (str : value -> string) :
  Forall (fun entry => forall k args e, snd entry k args = Err e -> not_exit e = true) calls ->
  library_never_exits (mkWorld attrs (extern_of calls) str).
Proof.
  intros Hall api k args e. simpl. unfold extern_of.
  destruct (assoc api calls) as [f|] eqn:E.
  - rewrite Forall_forall in Hall. apply (Hall (api, f) (assoc_In _ _ _ E)).
  - intros H. inversion H. reflexivity.
Qed.

Lemma healthy_calls_never_exit :
  Forall (fun entry : string * (nat -> list value -> result value) =>
            forall k args e, snd entry k args = Err e -> not_exit e = true)
    (mock_calls ++ healthy_calls).
Proof.
  unfold mock_calls, healthy_calls. simpl.
  repeat (apply Forall_cons; [simpl; intros k args e H; discriminate H|]).
  apply Forall_nil.
Qed.

Lemma std_world_never_exits : library_never_exits std_world.
Proof.
  apply extern_of_never_exits.
  pose proof healthy_calls_never_exit as H.
  apply Forall_app in H. exact (proj2 H).
Qed.

Lemma mock_world_never_exits : library_never_exits mock_world.
Proof. apply extern_of_never_exits. exact healthy_calls_never_exit. Qed.

Lemma with_failure_at_never_exits (api : string) (n : nat) (e : exn) (w : world) :
  not_exit e = true ->
  library_never_exits w ->
  library_never_exits (with_failure_at api n e w).
Proof.
  intros He Hw a k args e0. simpl.
  destruct (String.eqb a api && Nat.eqb k n).
  - intros H. inversion H; subst. exact He.
  - apply Hw.
Qed.

Lemma with_failure_never_exits (api : string) (e : exn) (w : world) :
  not_exit e = true ->
  library_never_exits w ->
  library_never_exits (with_failure api e w).
Proof.
  intros He Hw a k args e0. simpl.
  destruct (String.eqb a api).
  - intros H. inversion H; subst. exact He.
  - apply Hw.
Qed.

(** X7.  As long as no library call ends the process itself, sysmon.py
    never exits with a status other than 0: whatever happens in its loop,
    the process is still running or has exited with status 0. *)
Theorem sysmon_status_is_0 (w : world) (fuel : nat) (itv : Z) (logf : string) :
  library_never_exits w ->
  fst (run_process (monitor_system w fuel itv logf)) = StillRunning
  \/ fst (run_process (monitor_system w fuel itv logf)) = Exited 0.
Proof.
  intros Hq.
  assert (Hloop : raises_only not_exit (while_true fuel (monitor_loop_body w itv logf))).
  { apply raises_while_true. unfold monitor_loop_body.
    apply raises_bind; [apply raises_log_system_usage; exact Hq|].
    intros _. apply raises_time_sleep. exact Hq. }
  unfold run_process, monitor_system, bind, try_except. rewrite print_spec.
  simpl app.
  destruct (while_true fuel (monitor_loop_body w itv logf) [EStdout (banner itv logf)])
    as [[u|e|] t] eqn:E.
  - right. reflexivity.
  - pose proof (Hloop _ _ _ E) as He.
    destruct e as [c msg|code]; [|discriminate He].
    destruct c; right; reflexivity.
  - left. reflexivity.
Qed.

Lemma sysmon_status_is_0_witness :
  fst (run_process (monitor_system (interrupted std_world) 4 8 "sysmon_log.txt"))
    = StillRunning
  \/ fst (run_process (monitor_system (interrupted std_world) 4 8 "sysmon_log.txt"))
    = Exited 0.
Proof.
  apply sysmon_status_is_0.
  apply with_failure_at_never_exits; [reflexivity|exact std_world_never_exits].
Defined.

(** X8.  The continuous mode of clisysmtr.py, as long as no library call
    ends the process itself, has three outcomes only: it is still running;
    or the loop was interrupted by the user, the stop message is the last
    thing written and the status is 0; or an iteration raised an exception
    of class [Exception] and the status is 1.  The loop never ends on its
    own. *)
Theorem continuous_mode_outcomes (w : world) (fuel : nat) (args : arguments) :
  library_never_exits w ->
  no_loop args = false ->
  let r := run_process (main w fuel args) in
  fst r = StillRunning
  \/ (fst r = Exited 0 /\
      exists msg t,
        while_true fuel (main_loop_body w args) [] = (Raise (Exn KeyboardInterrupt msg), t) /\
        snd r = (t ++ [EStdout (nl ++ "monitoring stopped by user.")])%list)
  \/ (fst r = Exited 1 /\
      exists e t,
        while_true fuel (main_loop_body w args) [] = (Raise e, t) /\
        is_Exception e = true).
Proof.
  intros Hq Hn.
  assert (Hloop : raises_only not_exit (while_true fuel (main_loop_body w args))).
  { apply raises_while_true. unfold main_loop_body.
    apply raises_bind; [apply raises_display_system_info; exact Hq|].
    intros _. apply raises_bind; [apply raises_time_sleep; exact Hq|].
    intros _. destruct (log_target args); [apply raises_print|apply raises_ret]. }
  destruct (while_true fuel (main_loop_body w args) []) as [[u|e|] t] eqn:E.
  - exfalso. exact (while_true_never_returns _ _ _ _ _ E).
  - pose proof (Hloop _ _ _ E) as He.
    destruct (is_KeyboardInterrupt e) eqn:Hk.
    + right. left.
      destruct (is_KeyboardInterrupt_inv e Hk) as [msg ->].
      rewrite (main_interrupted w fuel args _ t Hn E Hk).
      split; [reflexivity|]. exists msg, t. split; reflexivity.
    + right. right.
      assert (Hex : is_Exception e = true).
      { destruct e as [c msg|code]; [|discriminate He]. destruct c; try reflexivity.
        discriminate Hk. }
      split; [exact (proj1 (main_unexpected w fuel args e t Hn E Hex))|].
      exists e, t. split; [reflexivity|exact Hex].
  - left. simpl. unfold run_process, main, try_except. rewrite Hn, E. reflexivity.
Qed.

Lemma continuous_mode_outcomes_witness :
  fst (run_process (main (interrupted mock_world) 4 looping)) = Exited 0 /\
  fst (run_process (main no_ram_world 4 looping_logging)) = Exited 1 /\
  fst (run_process (main mock_world 4 looping)) = StillRunning.
Proof.
  split; [|split].
  - destruct (continuous_mode_outcomes (interrupted mock_world) 4 looping
                (with_failure_at_never_exits "time.sleep" 1 (Exn KeyboardInterrupt "")
                   mock_world eq_refl mock_world_never_exits)
                eq_refl) as [H|[[H _]|[H _]]].
    + vm_compute in H. discriminate H.
    + exact H.
    + vm_compute in H. discriminate H.
  - destruct (continuous_mode_outcomes no_ram_world 4 looping_logging
                (with_failure_never_exits "psutil.virtual_memory"
                   (Exn OSError "[Errno 13] Permission denied")
                   mock_world eq_refl mock_world_never_exits)
                eq_refl) as [H|[[H _]|[H _]]].
    + vm_compute in H. discriminate H.
    + vm_compute in H. discriminate H.
    + exact H.
  - destruct (continuous_mode_outcomes mock_world 4 looping mock_world_never_exits eq_refl)
      as [H|[[H _]|[H _]]].
    + exact H.
    + vm_compute in H. discriminate H.
    + vm_compute in H. discriminate H.
Defined.

(** ** A negative interval *)

Lemma time_sleep_negative (w : world) (secs : Z) (t : trace) :
  hasattr_module w "time" "sleep" = true ->
  secs < 0 ->
  time_sleep w secs t =
    (Raise (Exn ValueError "sleep length must be non-negative"), t).
Proof.
  intros Ha Hs. unfold time_sleep, bind.
  rewrite (getattr_module_present w "time" "sleep" t Ha).
  destruct (Z.ltb_spec secs 0) as [_|H]; [reflexivity|lia].
Qed.

(** X9.  With a negative interval the pause after the first iteration
    raises [ValueError] before any sleeping.  clisysmtr.py in continuous
    mode then has displayed once, reports the error and exits with status
    1; sysmon.py has logged once, reports the error and exits with status
    0. *)
Theorem negative_interval_stops_after_one_iteration (w : world) (fuel : nat) (t : trace) :
  hasattr_module w "time" "sleep" = true ->
  (forall args,
      no_loop args = false ->
      interval args < 0 ->
      display_system_info w args [] = (Ret tt, t) ->
      fst (run_process (main w (S fuel) args)) = Exited 1 /\
      stdout_lines (snd (run_process (main w (S fuel) args))) =
        (stdout_lines t
         ++ ["an unexpected error occurred: sleep length must be non-negative"])%list)
  /\
  (forall itv logf,
      itv < 0 ->
      log_system_usage w logf [EStdout (banner itv logf)] = (Ret tt, t) ->
      run_process (monitor_system w (S fuel) itv logf) =
        (Exited 0,
         (t ++ [EStdout
                  "An error occurred during monitoring: sleep length must be non-negative"])%list)).
Proof.
  intros Ha. split.
  - intros args Hn Hi Hd.
    assert (Hloop : while_true (S fuel) (main_loop_body w args) [] =
                    (Raise (Exn ValueError "sleep length must be non-negative"), t)).
    { simpl. unfold main_loop_body, bind. rewrite Hd.
      rewrite (time_sleep_negative w _ t Ha Hi). reflexivity. }
    exact (main_unexpected w (S fuel) args _ t Hn Hloop eq_refl).
  - intros itv logf Hi Hl.
    assert (Hloop : while_true (S fuel) (monitor_loop_body w itv logf)
                      [EStdout (banner itv logf)] =
                    (Raise (Exn ValueError "sleep length must be non-negative"), t)).
    { simpl. unfold monitor_loop_body, bind. rewrite Hl.
      rewrite (time_sleep_negative w _ t Ha Hi). reflexivity. }
    exact (proj2 (monitor_system_ends w (S fuel) itv logf _ t Hloop) eq_refl).
Qed.

Lemma negative_interval_stops_after_one_iteration_witness :
  fst (run_process (main mock_world 3 negative_interval)) = Exited 1 /\
  count_calls "psutil.cpu_percent" (snd (run_process (main mock_world 3 negative_interval)))
    = 1%nat /\
  fst (run_process (monitor_system std_world 3 (-5) "sysmon_log.txt")) = Exited 0.
Proof.
  split; [|split].
  - refine (proj1 (proj1 (negative_interval_stops_after_one_iteration mock_world 2
                            (snd (display_system_info mock_world negative_interval []))
                            eq_refl)
                     negative_interval eq_refl eq_refl _)).
    vm_compute. reflexivity.
  - vm_compute. reflexivity.
  - rewrite (proj2 (negative_interval_stops_after_one_iteration std_world 2
                      (snd (log_system_usage std_world "sysmon_log.txt"
                              [EStdout (banner (-5) "sysmon_log.txt")]))
                      eq_refl)
               (-5) "sysmon_log.txt" eq_refl).
    + reflexivity.
    + vm_compute. reflexivity.
Defined.

(** ** The log announcement of clisysmtr.py *)

(** X10.  In continuous mode with a log file, when the file cannot be
    opened the error is reported, the iteration goes on to its pause, and
    after the pause the loop still prints [logged to <path>]: the
    announcement does not depend on the append having succeeded. *)
Theorem failed_append_still_announced (w : world) (args : arguments) (path : string)
    (s : snapshot) (t0 ts tc t1 : trace) (entry : string) (e : exn) (r : value) :
  log_target args = Some path ->
  0 <= interval args ->
  hasattr_module w "time" "sleep" = true ->
  take_snapshot w t0 = (Ret s, ts) ->
  render_console w s ts = (Ret tt, tc) ->
  log_line w s tc = (Ret entry, t1) ->
  extern w "open" (count_calls "open" t1) [VStr path; VStr "a"] = Err e ->
  is_Exception e = true ->
  extern w "time.sleep" (count_calls "time.sleep" t1) [VInt (interval args)] = Ok r ->
  main_loop_body w args t0 =
    (Ret tt,
     (t1 ++ [ECall "open" [VStr path; VStr "a"];
             EStdout ("error writing to log file: " ++ exn_str e);
             ECall "time.sleep" [VInt (interval args)];
             EStdout ("logged to " ++ path)])%list).
Proof.
  intros Hp Hi Ha Hs Hc Hl Ho He Hsl.
  unfold main_loop_body, display_system_info, bind.
  rewrite Hs, Hc.
  rewrite (append_failure_is_reported w args s tc t1 path entry e Hp Hl Ho He).
  rewrite (time_sleep_ok w (interval args) _ r Ha Hi).
  2:{ rewrite count_calls_app. simpl. rewrite Nat.add_0_r. exact Hsl. }
  rewrite Hp. unfold print. rewrite <- !app_assoc. reflexivity.
Qed.

Lemma failed_append_still_announced_witness :
  stdout_lines (snd (main_loop_body read_only_world looping_logging [])) =
    ["local ip address: 192.168.1.7";
     "cpu name: Example CPU @ 2.40GHz";
     "cpu usage: 12.5%";
     "cpu clock speed: 2400.00 mhz";
     "ram: 8.00 gb / 16.00 gb (50.00%)";
     "disk drive (/dev/sda1): 125.00 gb / 500.00 gb (25.00%)";
     "network activity: sent: 500 bytes/s, received: 600 bytes/s";
     "error writing to log file: [Errno 30] Read-only file system";
     "logged to out.log"].
Proof.
  pose (w := read_only_world).
  pose (s := mkSnapshot (VStr "192.168.1.7") (flt 125 (-1)) (flt 2400 0)
               (VStr "Example CPU @ 2.40GHz") (flt 16 0) (flt 8 0) (flt 500 (-1))
               (VStr "/dev/sda1") (flt 500 0) (flt 125 0) (flt 250 (-1))
               (VInt 500) (VInt 600)).
  pose (ts := snd (take_snapshot w [])).
  pose (tc := snd (render_console w s ts)).
  pose (t1 := snd (log_line w s tc)).
  pose (entry := match fst (log_line w s tc) with Ret x => x | _ => "" end).
  assert (H : main_loop_body w looping_logging [] =
                (Ret tt,
                 (t1 ++ [ECall "open" [VStr "out.log"; VStr "a"];
                         EStdout "error writing to log file: [Errno 30] Read-only file system";
                         ECall "time.sleep" [VInt 1];
                         EStdout "logged to out.log"])%list)).
  { apply (failed_append_still_announced w looping_logging "out.log" s [] ts tc t1 entry
             (Exn OSError "[Errno 30] Read-only file system") VNone);
      try reflexivity; try (vm_compute; reflexivity);
      try (vm_compute; discriminate). }
  fold w. rewrite H. vm_compute. reflexivity.
Defined.

(** ** sysmon.py: nothing is logged unless everything was sampled *)

Lemma touches_get_system_usage (w : world) :
  touches_only in_sysmon_apis (get_system_usage w).
Proof. unfold get_system_usage. repeat touches_step. Qed.

(** X11.  When any one of the queries of [get_system_usage] fails,
    [log_system_usage] does not touch the log file: it prints that the
    information could not be retrieved and returns (or is ended by an
    interrupt), and [open] is never called. *)
Theorem sysmon_logs_nothing_on_failure (w : world) (api : string) (e : exn)
    (logf : string) (t : trace) :
  In api sysmon_apis ->
  let r := log_system_usage (with_failure api e w) logf t in
  count_calls "open" (snd r) = count_calls "open" t /\
  ((fst r = Ret tt /\
    snd r = (snd (get_system_usage (with_failure api e w) t)
             ++ [EStdout "unable to retrieve system info. aborted."])%list)
   \/ exists e', fst r = Raise e' /\ is_Exception e' = false).
Proof.
  intros Hin. simpl.
  pose proof (touches_get_system_usage (with_failure api e w) t "open" eq_refl) as Hopen.
  unfold log_system_usage, bind.
  destruct (sysmon_all_or_nothing w api e t Hin) as [H|(e' & H & He')];
    destruct (get_system_usage (with_failure api e w) t) as [o t1];
    simpl in H, Hopen |- *; subst o.
  - simpl. split.
    + rewrite count_calls_app. simpl. rewrite Nat.add_0_r. exact Hopen.
    + left. split; reflexivity.
  - simpl. split; [exact Hopen|]. right. exists e'. split; [reflexivity|exact He'].
Qed.

Lemma sysmon_logs_nothing_on_failure_witness :
  let r := log_system_usage (with_failure "psutil.net_io_counters" refused std_world)
             "sysmon_log.txt" [] in
  count_calls "open" (snd r) = 0%nat /\
  stdout_lines (snd r) =
    ["Error getting system usage: [Errno 13] Permission denied";
     "unable to retrieve system info. aborted."].
Proof.
  simpl.
  destruct (sysmon_logs_nothing_on_failure std_world "psutil.net_io_counters" refused
              "sysmon_log.txt" [] (or_intror (or_intror (or_introl eq_refl))))
    as [Hopen _].
  split; [exact Hopen|]. vm_compute. reflexivity.
Defined.

(** ** sysmon.py: the log entry *)

Lemma get_system_usage_shape (w : world) (t t' : trace) (u : system_usage) :
  get_system_usage w t = (Ret u, t') ->
  u = no_usage
  \/ exists a b c d e,
       u_ram_total u = VFloat a /\ u_ram_available u = VFloat b /\
       u_disk_total u = VFloat c /\ u_disk_used u = VFloat d /\
       u_disk_free u = VFloat e.
Proof.
  unfold get_system_usage, try_except.
  match goal with
  | |- context [match ?b t with _ => _ end] => destruct (b t) as [[r|e|] t0] eqn:Hbody
  end; try discriminate.
  - intros H. inversion H; subst. right.
    invert_binds Hbody. unfold ret in Hbody. inversion Hbody; subst. simpl.
    repeat match goal with
           | Hx : truediv _ _ = Ok ?x |- _ =>
               let f := fresh "f" in
               destruct (truediv_float _ _ _ Hx) as [f ->]; clear Hx
           end.
    do 5 eexists. repeat split; reflexivity.
  - unfold except_Exception. destruct (is_Exception e); [|discriminate].
    unfold bind, print, ret. intros H. inversion H. left. reflexivity.
Qed.

(** The block of [log_system_usage] that writes and echoes an entry. *)
Lemma guarded_append_cases (w : world) (logf entry : string) (t : trace) :
  let block :=
    try_except
      (append_file w logf entry ;;;
       print ("system resource logged at:" ++ nl ++ entry))
      (except_Exception (fun e => print ("can't write to log file: " ++ exn_str e))) in
  (exists rest, snd (block t) = (t ++ ECall "open" [VStr logf; VStr "a"] :: rest)%list)
  /\
  (forall e, fst (block t) = Raise e -> is_Exception e = false)
  /\
  (forall f written closed,
      extern w "open" (count_calls "open" t) [VStr logf; VStr "a"] = Ok f ->
      extern w "file.write" (count_calls "file.write" t) [f; VStr entry] = Ok written ->
      extern w "file.close" (count_calls "file.close" t) [f] = Ok closed ->
      block t =
        (Ret tt,
         (t ++ [ECall "open" [VStr logf; VStr "a"];
                ECall "file.write" [f; VStr entry];
                ECall "file.close" [f];
                EStdout ("system resource logged at:" ++ nl ++ entry)])%list))
  /\
  (forall f e closed,
      extern w "open" (count_calls "open" t) [VStr logf; VStr "a"] = Ok f ->
      extern w "file.write" (count_calls "file.write" t) [f; VStr entry] = Err e ->
      is_Exception e = true ->
      extern w "file.close" (count_calls "file.close" t) [f] = Ok closed ->
      block t =
        (Ret tt,
         (t ++ [ECall "open" [VStr logf; VStr "a"];
                ECall "file.write" [f; VStr entry];
                ECall "file.close" [f];
                EStdout ("can't write to log file: " ++ exn_str e)])%list)).
Proof.
  intros block. split; [|split; [|split]].
  - unfold block, try_except, append_file, try_finally, bind, call, except_Exception, print, ret, raise.
    destruct (extern w "open" _ _) as [f|e0].
    + destruct (extern w "file.write" _ _) as [x|e1];
        destruct (extern w "file.close" _ _) as [y|e2];
        repeat match goal with
               | |- context [is_Exception ?e] => destruct (is_Exception e)
               end;
        simpl; rewrite <- ?app_assoc; simpl; eexists; reflexivity.
    + destruct (is_Exception e0); simpl; rewrite <- ?app_assoc; simpl;
        eexists; reflexivity.
  - intros e H. unfold block in H.
    destruct (try_except _ _ t) as [o t'] eqn:E. simpl in H. subst o.
    revert E. apply try_except_absorbs. intros; do 2 eexists; reflexivity.
  - intros f written closed Ho Hw Hc.
    unfold block, try_except, append_file, try_finally, bind.
    rewrite (call_ok w "open" _ t f Ho).
    rewrite (call_ok w "file.write" _ _ written).
    2:{ rewrite count_calls_snoc_other by reflexivity. exact Hw. }
    unfold ret at 1.
    rewrite (call_ok w "file.close" _ _ closed).
    2:{ rewrite !count_calls_snoc_other by reflexivity. exact Hc. }
    unfold ret, print. rewrite <- !app_assoc. reflexivity.
  - intros f e closed Ho Hw He Hc.
    unfold block, try_except, append_file, try_finally, bind.
    rewrite (call_ok w "open" _ t f Ho).
    rewrite (call_err w "file.write" _ _ e).
    2:{ rewrite count_calls_snoc_other by reflexivity. exact Hw. }
    rewrite (call_ok w "file.close" _ _ closed).
    2:{ rewrite !count_calls_snoc_other by reflexivity. exact Hc. }
    unfold ret, raise, except_Exception. rewrite He.
    unfold print. rewrite <- !app_assoc. reflexivity.
Qed.

Lemma log_system_usage_reaches_block (w : world) (logf : string) (t t1 t2 : trace)
    (u : system_usage) (stamp : value) :
  get_system_usage w t = (Ret u, t1) ->
  is_not_None (u_cpu_usage u) = true ->
  now_strftime w "%Y-%m-%d %H:%M:%S" t1 = (Ret stamp, t2) ->
  exists entry,
    log_system_usage w logf t =
      try_except
        (append_file w logf entry ;;;
         print ("system resource logged at:" ++ nl ++ entry))
        (except_Exception (fun e => print ("can't write to log file: " ++ exn_str e)))
        t2.
Proof.
  intros Hu Hcpu Hnow.
  destruct (get_system_usage_shape w t t1 u Hu) as [->|(a & b & c & d & e & Ha & Hb & Hc & Hd & He)];
    [discriminate Hcpu|].
  unfold log_system_usage. unfold bind at 1. rewrite Hu, Hcpu.
  unfold bind at 1. rewrite Hnow.
  rewrite Ha, Hb, Hc, Hd, He.
  unfold bind at 1 2 3 4 5. rewrite !f2_float.
  eexists. reflexivity.
Qed.

(** X12.  In sysmon.py the entry can always be formatted: whenever
    [get_system_usage] returned a populated tuple and the clock answered,
    [log_system_usage] goes on to open the log file, and no exception of
    class [Exception] comes out of it. *)
Theorem sysmon_entry_is_always_built (w : world) (logf : string) (t t1 t2 : trace)
    (u : system_usage) (stamp : value) :
  get_system_usage w t = (Ret u, t1) ->
  is_not_None (u_cpu_usage u) = true ->
  now_strftime w "%Y-%m-%d %H:%M:%S" t1 = (Ret stamp, t2) ->
  (exists rest,
      snd (log_system_usage w logf t) =
        (t2 ++ ECall "open" [VStr logf; VStr "a"] :: rest)%list)
  /\
  (forall e, fst (log_system_usage w logf t) = Raise e -> is_Exception e = false).
Proof.
  intros Hu Hcpu Hnow.
  destruct (log_system_usage_reaches_block w logf t t1 t2 u stamp Hu Hcpu Hnow)
    as [entry ->].
  destruct (guarded_append_cases w logf entry t2) as (H1 & H2 & _).
  split; [exact H1|exact H2].
Qed.

Lemma sysmon_entry_is_always_built_witness :
  (exists rest,
      snd (log_system_usage read_only_world "sysmon_log.txt" []) =
        (snd (now_strftime read_only_world "%Y-%m-%d %H:%M:%S"
                (snd (get_system_usage read_only_world [])))
         ++ ECall "open" [VStr "sysmon_log.txt"; VStr "a"] :: rest)%list)
  /\ fst (log_system_usage read_only_world "sysmon_log.txt" []) = Ret tt.
Proof.
  split.
  - refine (proj1 (sysmon_entry_is_always_built read_only_world "sysmon_log.txt" []
                     (snd (get_system_usage read_only_world []))
                     (snd (now_strftime read_only_world "%Y-%m-%d %H:%M:%S"
                             (snd (get_system_usage read_only_world []))))
                     (mkUsage (flt 125 (-1)) (flt 500 (-1)) (flt 16 0) (flt 8 0)
                        (VInt 500) (VInt 600) (flt 500 0) (flt 125 0) (flt 375 0))
                     (VStr "2026-11-04 00:05:00") _ eq_refl _));
      vm_compute; reflexivity.
  - vm_compute. reflexivity.
Defined.

(** X13.  In sysmon.py, when the entry is appended, what is echoed to the
    console after [system resource logged at:] is exactly the text that was
    written to the file, and the file has been closed before the echo.  When
    the write fails the file is closed all the same, the error is reported
    and nothing is echoed. *)
Theorem sysmon_echo_is_what_was_written (w : world) (logf : string) (t t1 t2 : trace)
    (u : system_usage) (stamp f closed : value) :
  get_system_usage w t = (Ret u, t1) ->
  is_not_None (u_cpu_usage u) = true ->
  now_strftime w "%Y-%m-%d %H:%M:%S" t1 = (Ret stamp, t2) ->
  extern w "open" (count_calls "open" t2) [VStr logf; VStr "a"] = Ok f ->
  extern w "file.close" (count_calls "file.close" t2) [f] = Ok closed ->
  exists entry,
    (forall written,
        extern w "file.write" (count_calls "file.write" t2) [f; VStr entry] = Ok written ->
        log_system_usage w logf t =
          (Ret tt,
           (t2 ++ [ECall "open" [VStr logf; VStr "a"];
                   ECall "file.write" [f; VStr entry];
                   ECall "file.close" [f];
                   EStdout ("system resource logged at:" ++ nl ++ entry)])%list))
    /\
    (forall e,
        extern w "file.write" (count_calls "file.write" t2) [f; VStr entry] = Err e ->
        is_Exception e = true ->
        log_system_usage w logf t =
          (Ret tt,
           (t2 ++ [ECall "open" [VStr logf; VStr "a"];
                   ECall "file.write" [f; VStr entry];
                   ECall "file.close" [f];
                   EStdout ("can't write to log file: " ++ exn_str e)])%list)).
Proof.
  intros Hu Hcpu Hnow Ho Hc.
  destruct (log_system_usage_reaches_block w logf t t1 t2 u stamp Hu Hcpu Hnow)
    as [entry Hl].
  exists entry. rewrite Hl.
  destruct (guarded_append_cases w logf entry t2) as (_ & _ & Hok & Hfail).
  split.
  - intros written Hw. exact (Hok f written closed Ho Hw Hc).
  - intros e Hw He. exact (Hfail f e closed Ho Hw He Hc).
Qed.

Lemma sysmon_echo_is_what_was_written_witness :
  exists entry t2,
    log_system_usage std_world "sysmon_log.txt" [] =
      (Ret tt,
       (t2 ++ [ECall "open" [VStr "sysmon_log.txt"; VStr "a"];
               ECall "file.write" [VOpaque "file"; VStr entry];
               ECall "file.close" [VOpaque "file"];
               EStdout ("system resource logged at:" ++ nl ++ entry)])%list).
Proof.
  destruct (sysmon_echo_is_what_was_written std_world "sysmon_log.txt" []
              (snd (get_system_usage std_world []))
              (snd (now_strftime std_world "%Y-%m-%d %H:%M:%S"
                      (snd (get_system_usage std_world []))))
              (mkUsage (flt 125 (-1)) (flt 500 (-1)) (flt 16 0) (flt 8 0)
                 (VInt 500) (VInt 600) (flt 500 0) (flt 125 0) (flt 375 0))
              (VStr "2026-11-04 00:05:00") (VOpaque "file") VNone)
    as (entry & Hok & _); try (vm_compute; reflexivity).
  exists entry. eexists. apply (Hok VNone). reflexivity.
Defined.

(** ** The console lines of a snapshot with one absent category *)

Lemma console_statement_prints (w : world) (c : category) (s : snapshot) :
  resolved s = true ->
  forall t,
    console_statement w c s t =
      (Ret tt, (t ++ [EStdout (printed_by (console_statement w c s))])%list).
Proof.
  unfold resolved. rewrite !andb_true_iff.
  intros [[[[[[Hc Hrt] Hru] Hrp] Hdt] Hdu] Hdp] t.
  assert (Hone : forall m : M unit,
             (exists l, forall t0, m t0 = (Ret tt, (t0 ++ [EStdout l])%list)) ->
             m t = (Ret tt, (t ++ [EStdout (printed_by m)])%list)).
  { intros m [l Hl]. unfold printed_by. rewrite (Hl []), (Hl t). reflexivity. }
  apply Hone.
  destruct c; simpl.
  - unfold console_ip. destruct (truthy (ip_address s)); eexists; reflexivity.
  - unfold console_cpu_usage. destruct (is_not_None (cpu_usage s)); eexists; reflexivity.
  - unfold console_cpu_clock.
    destruct (float_or_absent_cases _ Hc) as [->|[f ->]]; simpl; eexists; reflexivity.
  - unfold console_cpu_name. destruct (truthy (cpu_name s)); eexists; reflexivity.
  - unfold console_ram.
    destruct (float_or_absent_cases _ Hrt) as [->|[f1 ->]];
      destruct (float_or_absent_cases _ Hru) as [->|[f2 ->]];
      destruct (float_or_absent_cases _ Hrp) as [->|[f3 ->]];
      simpl; eexists; reflexivity.
  - unfold console_disk.
    destruct (truthy (disk_device s));
      destruct (float_or_absent_cases _ Hdt) as [->|[f1 ->]];
      destruct (float_or_absent_cases _ Hdu) as [->|[f2 ->]];
      destruct (float_or_absent_cases _ Hdp) as [->|[f3 ->]];
      simpl;
      repeat match goal with
             | |- context [is_zero ?f] => destruct (is_zero f); simpl
             end;
      eexists; reflexivity.
  - unfold console_network.
    destruct (is_not_None (bytes_sent s) && is_not_None (bytes_recv s));
      eexists; reflexivity.
Qed.

Lemma render_console_lines (w : world) (s : snapshot) (t : trace) :
  resolved s = true ->
  render_console w s t = (Ret tt, (t ++ map EStdout (console_lines w s))%list).
Proof.
  intros Hr. unfold render_console, bind.
  rewrite (console_statement_prints w LocalIp s Hr t : console_ip w s t = _).
  rewrite (console_statement_prints w CpuName s Hr _ : console_cpu_name w s _ = _).
  rewrite (console_statement_prints w CpuUsage s Hr _ : console_cpu_usage w s _ = _).
  rewrite (console_statement_prints w CpuClock s Hr _ : console_cpu_clock s _ = _).
  rewrite (console_statement_prints w Ram s Hr _ : console_ram s _ = _).
  rewrite (console_statement_prints w Disk s Hr _ : console_disk w s _ = _).
  rewrite (console_statement_prints w Network s Hr _ : console_network w s _ = _).
  rewrite <- !app_assoc. reflexivity.
Qed.

Lemma console_statement_absent (w : world) (c : category) (s : snapshot) :
  group c s = absent c ->
  printed_by (console_statement w c s) = failure_text c.
Proof.
  destruct c; simpl; intros H; inversion H as [H1];
    unfold printed_by, console_ip, console_cpu_usage, console_cpu_clock, console_cpu_name,
      console_ram, console_disk, console_network;
    rewrite ?H1; reflexivity.
Qed.

Lemma console_statement_local (w : world) (c : category) (s s' : snapshot) :
  group c s' = group c s ->
  printed_by (console_statement w c s') = printed_by (console_statement w c s).
Proof.
  destruct c; simpl; intros H; inversion H;
    unfold printed_by, console_ip, console_cpu_usage, console_cpu_clock, console_cpu_name,
      console_ram, console_disk, console_network;
    repeat match goal with
           | Hx : _ s' = _ s |- _ => rewrite Hx; clear Hx
           end;
    reflexivity.
Qed.

Lemma group_kept_or_absent (c : category) (s s' : snapshot) :
  group c s' = absent c ->
  (forall c', category_eqb c c' = false -> group c' s' = group c' s) ->
  forall c', group c' s' = group c' s \/ group c' s' = absent c'.
Proof.
  intros Habs Hothers c'.
  destruct (category_eqb c c') eqn:E.
  - apply category_eqb_true in E. subst c'. right. exact Habs.
  - left. apply Hothers. exact E.
Qed.

Lemma resolved_kept (c : category) (s s' : snapshot) :
  resolved s = true ->
  group c s' = absent c ->
  (forall c', category_eqb c c' = false -> group c' s' = group c' s) ->
  resolved s' = true.
Proof.
  intros Hr Habs Hothers.
  pose proof (group_kept_or_absent c s s' Habs Hothers) as Hg.
  unfold resolved in *. rewrite !andb_true_iff in Hr.
  destruct Hr as [[[[[[Hc Hrt] Hru] Hrp] Hdt] Hdu] Hdp].
  destruct (Hg CpuClock) as [H1|H1]; simpl in H1; injection H1 as K1;
    destruct (Hg Ram) as [H2|H2]; simpl in H2; injection H2 as K2 K3 K4;
    destruct (Hg Disk) as [H3|H3]; simpl in H3; injection H3 as K5 K6 K7 K8;
    rewrite K1, K2, K3, K4, K6, K7, K8;
    rewrite ?Hc, ?Hrt, ?Hru, ?Hrp, ?Hdt, ?Hdu, ?Hdp; reflexivity.
Qed.

Lemma console_line_at (w : world) (c : category) (s s' : snapshot) :
  group c s' = absent c ->
  (forall c', category_eqb c c' = false -> group c' s' = group c' s) ->
  forall c',
    nth (console_position c') (console_lines w s') "" =
      if category_eqb c c' then failure_text c
      else nth (console_position c') (console_lines w s) "".
Proof.
  intros Habs Hothers c'.
  destruct (category_eqb c c') eqn:E.
  - apply category_eqb_true in E. subst c'.
    destruct c; simpl; exact (console_statement_absent w _ s' Habs).
  - pose proof (Hothers c' E) as Hg.
    destruct c'; simpl; exact (console_statement_local w _ s s' Hg).
Qed.

(** X14.  The console prints one line per category in the fixed order
    local address, CPU name, CPU usage, CPU clock, RAM, disk, network.  For
    two snapshots that differ only in that one category is absent in the
    second, the two renderings differ in the line of that category only,
    and there the second has the failure line of the category. *)
Theorem console_substitutes_failure_line (w : world) (c : category)
    (s s' : snapshot) (t : trace) :
  resolved s = true ->
  group c s' = absent c ->
  (forall c', category_eqb c c' = false -> group c' s' = group c' s) ->
  render_console w s t = (Ret tt, (t ++ map EStdout (console_lines w s))%list) /\
  render_console w s' t = (Ret tt, (t ++ map EStdout (console_lines w s'))%list) /\
  List.length (console_lines w s') = 7%nat /\
  forall c',
    nth (console_position c') (console_lines w s') "" =
      if category_eqb c c' then failure_text c
      else nth (console_position c') (console_lines w s) "".
Proof.
  intros Hr Habs Hothers.
  pose proof (resolved_kept c s s' Hr Habs Hothers) as Hr'.
  split; [exact (render_console_lines w s t Hr)|].
  split; [exact (render_console_lines w s' t Hr')|].
  split; [reflexivity|].
  exact (console_line_at w c s s' Habs Hothers).
Qed.

Lemma console_substitutes_failure_line_witness :
  let s := mkSnapshot (VStr "192.168.1.7") (flt 125 (-1)) (flt 2400 0)
             (VStr "Example CPU @ 2.40GHz") (flt 16 0) (flt 8 0) (flt 500 (-1))
             (VStr "/dev/sda1") (flt 500 0) (flt 125 0) (flt 250 (-1))
             (VInt 500) (VInt 600) in
  let s' := mkSnapshot (VStr "192.168.1.7") (flt 125 (-1)) (flt 2400 0)
              (VStr "Example CPU @ 2.40GHz") VNone VNone VNone
              (VStr "/dev/sda1") (flt 500 0) (flt 125 0) (flt 250 (-1))
              (VInt 500) (VInt 600) in
  nth 4 (console_lines mock_world s') "" = "failed to retrieve ram usage." /\
  nth 5 (console_lines mock_world s') "" = nth 5 (console_lines mock_world s) "".
Proof.
  intros s s'.
  assert (Hothers : forall c', category_eqb Ram c' = false -> group c' s' = group c' s)
    by (intros c' H; destruct c'; try discriminate H; reflexivity).
  destruct (console_substitutes_failure_line mock_world Ram s s' [] eq_refl eq_refl Hothers)
    as (_ & _ & _ & H).
  split.
  - exact (H Ram).
  - exact (H Disk).
Defined.

(** ** When the log line of clisysmtr.py can be built *)

(** X15.  For a snapshot whose measured quantities are absent or floats,
    once the timestamp is obtained the log line is built exactly when the
    three RAM fields and the three disk figures are all present; when any
    of them is absent, building the line raises [TypeError]. *)
Theorem log_line_needs_every_size (w : world) (s : snapshot) (t t' : trace) (stamp : value) :
  resolved s = true ->
  now_strftime w "%y%m%d-%h%m%s" t = (Ret stamp, t') ->
  (sizes_present s = true -> exists entry, log_line w s t = (Ret entry, t'))
  /\
  (sizes_present s = false ->
   log_line w s t =
     (Raise (Exn TypeError "unsupported format string passed to NoneType.__format__"), t')).
Proof.
  intros Hr Hnow. unfold resolved in Hr. rewrite !andb_true_iff in Hr.
  destruct Hr as [[[[[[Hc Hrt] Hru] Hrp] Hdt] Hdu] Hdp].
  unfold sizes_present, log_line.
  destruct (float_or_absent_cases _ Hrt) as [->|[x1 ->]];
    destruct (float_or_absent_cases _ Hru) as [->|[x2 ->]];
    destruct (float_or_absent_cases _ Hrp) as [->|[x3 ->]];
    destruct (float_or_absent_cases _ Hdt) as [->|[x4 ->]];
    destruct (float_or_absent_cases _ Hdu) as [->|[x5 ->]];
    destruct (float_or_absent_cases _ Hdp) as [->|[x6 ->]];
    (split; intros H; simpl in H; try discriminate H;
     unfold bind at 1; rewrite Hnow;
     first [ reflexivity | eexists; reflexivity ]).
Qed.

Lemma log_line_needs_every_size_witness :
  (exists entry,
      log_line mock_world
        (mkSnapshot (VStr "192.168.1.7") (flt 125 (-1)) (flt 2400 0)
           (VStr "Example CPU @ 2.40GHz") (flt 16 0) (flt 8 0) (flt 500 (-1))
           (VStr "/dev/sda1") (flt 500 0) (flt 125 0) (flt 250 (-1))
           (VInt 500) (VInt 600)) [] =
      (Ret entry, snd (now_strftime mock_world "%y%m%d-%h%m%s" [])))
  /\
  log_line std_world
    (mkSnapshot VNone (flt 125 (-1)) (flt 2400 0) VNone
       (flt 16 0) (flt 8 0) (flt 500 (-1)) VNone VNone VNone VNone
       (VInt 500) (VInt 600)) [] =
    (Raise (Exn TypeError "unsupported format string passed to NoneType.__format__"),
     snd (now_strftime std_world "%y%m%d-%h%m%s" [])).
Proof.
  split.
  - apply (proj1 (log_line_needs_every_size mock_world
                    (mkSnapshot (VStr "192.168.1.7") (flt 125 (-1)) (flt 2400 0)
                       (VStr "Example CPU @ 2.40GHz") (flt 16 0) (flt 8 0) (flt 500 (-1))
                       (VStr "/dev/sda1") (flt 500 0) (flt 125 0) (flt 250 (-1))
                       (VInt 500) (VInt 600))
                    [] (snd (now_strftime mock_world "%y%m%d-%h%m%s" []))
                    (VStr "261104-Nov111793750400") eq_refl eq_refl)).
    reflexivity.
  - apply (proj2 (log_line_needs_every_size std_world
                    (mkSnapshot VNone (flt 125 (-1)) (flt 2400 0) VNone
                       (flt 16 0) (flt 8 0) (flt 500 (-1)) VNone VNone VNone VNone
                       (VInt 500) (VInt 600))
                    [] (snd (now_strftime std_world "%y%m%d-%h%m%s" []))
                    (VStr "261104-Nov111793750400") eq_refl eq_refl)).
    reflexivity.
Defined.

(** ** One-shot mode on the console *)


(** ** Bytes to gigabytes *)


Lemma GB_pow2 : GB = 2 ^ 30.
Proof. reflexivity. Qed.

Lemma binade_pow2 (n k : Z) :
  0 < n -> 0 <= k -> binade n (2 ^ k) = Z.log2 n - k.
Proof.
  intros Hn Hk. unfold binade.
  rewrite Z.log2_pow2 by exact Hk.
  pose proof (Z.log2_spec n Hn) as [Hlo Hhi].
  pose proof (Z.log2_nonneg n) as HL.
  unfold scale2.
  destruct (Z.leb_spec 0 (Z.log2 n - k)) as [Hl|Hl].
  - rewrite <- Z.pow_add_r by lia.
    replace (k + (Z.log2 n - k)) with (Z.log2 n) by lia.
    destruct (Z.leb_spec (2 ^ Z.log2 n) n); [reflexivity|lia].
  - assert (H : 2 ^ k <= n * 2 ^ (- (Z.log2 n - k))).
    { replace k with (Z.log2 n + (k - Z.log2 n)) at 1 by lia.
      rewrite Z.pow_add_r by lia.
      replace (- (Z.log2 n - k)) with (k - Z.log2 n) by lia.
      apply Z.mul_le_mono_nonneg_r; [apply Z.pow_nonneg; lia|exact Hlo]. }
    destruct (Z.leb_spec (2 ^ k) (n * 2 ^ (- (Z.log2 n - k)))); [reflexivity|lia].
Qed.

Lemma round_double_pow2 (n : Z) :
  0 < n < 2 ^ 53 ->
  round_double false n (2 ^ 30) =
    FFin false (n * 2 ^ (52 - Z.log2 n)) (Z.log2 n - 82).
Proof.
  intros [Hn Hb].
  pose proof (Z.log2_spec n Hn) as [Hlo Hhi].
  pose proof (Z.log2_nonneg n) as HL.
  assert (HL52 : Z.log2 n < 53) by (apply Z.log2_lt_pow2; lia).
  unfold round_double.
  destruct (Z.eqb_spec n 0) as [->|_]; [lia|].
  rewrite binade_pow2 by lia.
  replace (Z.max (Z.log2 n - 30 - 52) (-1074)) with (Z.log2 n - 82) by lia.
  unfold scale2.
  destruct (Z.leb_spec 0 (Z.log2 n - 82)) as [H|_]; [lia|].
  replace (- (Z.log2 n - 82)) with ((52 - Z.log2 n) + 30) by lia.
  rewrite Z.pow_add_r by lia. rewrite Z.mul_assoc.
  set (q := n * 2 ^ (52 - Z.log2 n)).
  assert (Hq : 0 < q < 2 ^ 53).
  { unfold q. split.
    - apply Z.mul_pos_pos; [exact Hn|apply Z.pow_pos_nonneg; lia].
    - replace 53 with ((Z.log2 n + 1) + (52 - Z.log2 n)) by lia.
      rewrite Z.pow_add_r by lia.
      apply Z.mul_lt_mono_pos_r; [apply Z.pow_pos_nonneg; lia|].
      replace (Z.log2 n + 1) with (Z.succ (Z.log2 n)) by lia. exact Hhi. }
  unfold round_half_even.
  rewrite Z.div_mul by (apply Z.pow_nonzero; lia).
  rewrite Z.mod_mul by (apply Z.pow_nonzero; lia).
  change (2 * 0 <? 2 ^ 30) with true. cbv iota.
  destruct (Z.eqb_spec q (2 ^ 53)) as [E|_]; [lia|].
  destruct (Z.ltb_spec 971 (Z.log2 n - 82)) as [H|_]; [lia|].
  reflexivity.
Qed.

Lemma truediv_GB_exact (n : Z) :
  0 <= n < 2 ^ 53 ->
  exists f, truediv (VInt n) GB = Ok (VFloat f) /\ float_is f n GB.
Proof.
  intros [Hn Hb]. unfold truediv.
  destruct (Z.eq_dec n 0) as [->|Hne].
  - eexists. split; reflexivity.
  - assert (Hpos : 0 < n) by lia.
    destruct (Z.ltb_spec n 0) as [H|_]; [lia|].
    rewrite Z.abs_eq by lia. rewrite GB_pow2.
    rewrite (round_double_pow2 n (conj Hpos Hb)).
    eexists. split; [reflexivity|].
    pose proof (Z.log2_nonneg n) as HL.
    assert (HL52 : Z.log2 n < 53) by (apply Z.log2_lt_pow2; lia).
    unfold float_is, frac_of, scale2.
    destruct (Z.leb_spec 0 (- (Z.log2 n - 82))) as [_|H]; [|lia].
    cbn [fst snd].
    replace (- (Z.log2 n - 82)) with ((52 - Z.log2 n) + 30) by lia.
    rewrite Z.pow_add_r by lia.
    generalize (2 ^ (52 - Z.log2 n)) (2 ^ 30). intros p g. ring.
Qed.

(** X16.  The RAM sizes are the byte counts divided by 1024 to the third
    power, without any rounding: for a memory report whose total and used
    are ints below 2^53, [get_ram_usage] returns floats that equal
    total / 1024^3 and used / 1024^3 exactly, and passes the percentage on
    unchanged. *)
Theorem ram_sizes_are_exact (w : world) (t : trace) (mem percent : value) (total used : Z) :
  hasattr_module w "psutil" "virtual_memory" = true ->
  extern w "psutil.virtual_memory" (count_calls "psutil.virtual_memory" t) [] = Ok mem ->
  getattr mem "total" = Ok (VInt total) ->
  getattr mem "used" = Ok (VInt used) ->
  getattr mem "percent" = Ok percent ->
  0 <= total < 2 ^ 53 ->
  0 <= used < 2 ^ 53 ->
  exists ft fu,
    get_ram_usage w t =
      (Ret (VFloat ft, VFloat fu, percent),
       (t ++ [ECall "psutil.virtual_memory" []])%list)
    /\ float_is ft total (1024 ^ 3)
    /\ float_is fu used (1024 ^ 3).
Proof.
  intros Ha Hc Ht Hu Hp Htot Husd.
  destruct (truediv_GB_exact total Htot) as (ft & Hft & Eft).
  destruct (truediv_GB_exact used Husd) as (fu & Hfu & Efu).
  exists ft, fu. split; [|split; assumption].
  unfold get_ram_usage, try_except, bind.
  rewrite (call_module_ok w "psutil" "virtual_memory" [] t mem Ha Hc).
  rewrite Ht. simpl lift. unfold ret at 1.
  rewrite Hft. simpl lift. unfold ret at 1.
  rewrite Hu. simpl lift. unfold ret at 1.
  rewrite Hfu. simpl lift. unfold ret at 1.
  rewrite Hp. reflexivity.
Qed.

Lemma ram_sizes_are_exact_witness :
  exists ft fu,
    get_ram_usage std_world [] =
      (Ret (VFloat ft, VFloat fu, flt 500 (-1)), [ECall "psutil.virtual_memory" []])
    /\ float_is ft (16 * 1024 ^ 3) (1024 ^ 3)
    /\ float_is fu (8 * 1024 ^ 3) (1024 ^ 3).
Proof.
  apply (ram_sizes_are_exact std_world [] svmem (flt 500 (-1)) (16 * GB) (8 * GB));
    try reflexivity; vm_compute; split; congruence.
Defined.

(** ** A failed category on the console *)

Lemma console_lines_break (c : category) (e : exn) (w : world) (s : snapshot) :
  console_lines (break_category c e w) s = console_lines w s.
Proof. reflexivity. Qed.



(** ** The console of a populated snapshot *)

Lemma prefix_app (p x : string) : prefix p (p ++ x) = true.
Proof.
  induction p as [|a p IH]; simpl.
  - destruct x; reflexivity.
  - destruct (ascii_dec a a) as [_|N]; [exact IH|contradiction N; reflexivity].
Qed.

Lemma last_char_app (a : string) (c : ascii) (b : string) :
  last_char (a ++ String c b) = last_char (String c b).
Proof.
  induction a as [|x a IH]; [reflexivity|].
  change (String x a ++ String c b) with (String x (a ++ String c b)).
  destruct a as [|y a]; [reflexivity|].
  exact IH.
Qed.

Lemma is_failure_line_inv (l : string) :
  is_failure_line l = true -> exists c, l = failure_text c.
Proof.
  unfold is_failure_line. intros H.
  apply existsb_exists in H. destruct H as (x & Hin & Hx).
  apply String.eqb_eq in Hx. subst x.
  apply in_map_iff in Hin. destruct Hin as (c & Hc & _).
  exists c. symmetry. exact Hc.
Qed.

(** A value line is never the failure line of any category. *)
Lemma value_line_not_failure (c : category) (x : string) :
  c <> CpuClock ->
  is_failure_line (value_label c ++ x) = false.
Proof.
  intros Hc. destruct (is_failure_line (value_label c ++ x)) eqn:E; [|reflexivity].
  apply is_failure_line_inv in E. destruct E as [c' E].
  destruct c; try (contradiction Hc; reflexivity);
    destruct c'; simpl in E; discriminate E.
Qed.

Lemma clock_line_not_failure (x : string) :
  is_failure_line ("cpu clock speed: " ++ x ++ " mhz") = false.
Proof.
  destruct (is_failure_line ("cpu clock speed: " ++ x ++ " mhz")) eqn:E; [|reflexivity].
  apply is_failure_line_inv in E. destruct E as [c' E].
  destruct c'; try (simpl in E; discriminate E).
  apply (f_equal last_char) in E.
  assert (Hx : exists c b, x ++ " mhz" = String c b /\ last_char (String c b) = "z"%char).
  { destruct x as [|c x].
    - exists " "%char, "mhz". split; reflexivity.
    - exists c, (x ++ " mhz"). split; [reflexivity|].
      change (String c (x ++ " mhz")) with (String c x ++ String " " "mhz").
      apply last_char_app. }
  destruct Hx as (c & b & Hcb & Hz).
  rewrite Hcb, last_char_app, Hz in E.
  vm_compute in E. discriminate E.
Qed.

Lemma present_float (v : value) :
  float_or_absent v = true -> is_not_None v = true -> exists f, v = VFloat f.
Proof.
  destruct v; try discriminate; intros _ _. eexists; reflexivity.
Qed.



